(** * Streaming JSON / NDJSON / CSV conversion tools: a shallow embedding

    The development follows the two conversion scripts of the repository,
    [convert_json_ndjson.py] and [flatten_json.py].  The scripts are thin
    loops around CPython's [json], [csv], [decimal] and [float] and around
    [ijson]; the first half of this file is an executable model of the part
    of those libraries the scripts call, the second half embeds the scripts
    themselves, and the last part states and proves their properties.

    Conventions.
    - A Python [str] is a list of code points ([N]); a text file is the
      [str] the script reads from it or writes to it (the UTF-8 byte level
      is not modelled).
    - A Python [int] is a [Z]; a [float] is an IEEE binary64 value
      ([SpecFloat.spec_float] at precision 53); a [Decimal] is a sign, a
      coefficient and an exponent.
    - A [dict] is an association list in insertion order with unique
      keys. *)

From Stdlib Require Import ZArith NArith Bool String Ascii List Lia.
From Stdlib Require Import Floats.SpecFloat.
Import ListNotations.

Local Open Scope Z_scope.

(* ===================================================================== *)
(** * Python text *)
(* ===================================================================== *)

Module Text.

(** A code point and a Python [str]. *)
Definition char := N.
Definition str := list char.

(** [py "abc"] is the [str] of an ASCII literal. *)
Fixpoint py (lit : string) : str :=
  match lit with
  | EmptyString => []
  | String a rest => N_of_ascii a :: py rest
  end.

Definition ch (a : ascii) : char := N_of_ascii a.

Definition quote : char := 34%N.       (* the double quote *)
Definition apostrophe : char := 39%N.
Definition backslash : char := 92%N.
Definition LF : char := 10%N.
Definition CR : char := 13%N.

(** [pyq] is [py] with every apostrophe of the literal turned into a
    double quote; it is only used to write JSON texts in examples. *)
Definition pyq (lit : string) : str :=
  map (fun c => if N.eqb c apostrophe then quote else c) (py lit).

(** The text of a file given by its lines, written as for [pyq]. *)
Definition pylines (lits : list string) : str :=
  concat (map (fun lit => pyq lit ++ [LF]) lits).

Fixpoint str_eqb (a b : str) : bool :=
  match a, b with
  | [], [] => true
  | x :: a', y :: b' => N.eqb x y && str_eqb a' b'
  | _, _ => false
  end.

Lemma str_eqb_spec (a b : str) : str_eqb a b = true <-> a = b.
Proof.
  revert b; induction a as [|x a IH]; intros [|y b]; simpl; split;
    try congruence; try reflexivity.
  - rewrite andb_true_iff, N.eqb_eq, IH. intros [-> ->]; reflexivity.
  - intros [= -> ->]. rewrite N.eqb_refl. apply IH. reflexivity.
Qed.

Lemma str_eqb_refl (a : str) : str_eqb a a = true.
Proof. apply str_eqb_spec; reflexivity. Qed.

(** [s.startswith(p)], returning the rest of [s] after the prefix. *)
Fixpoint strip_prefix (p s : str) : option str :=
  match p, s with
  | [], _ => Some s
  | x :: p', y :: s' => if N.eqb x y then strip_prefix p' s' else None
  | _ :: _, [] => None
  end.

Definition startswith (s p : str) : bool :=
  match strip_prefix p s with Some _ => true | None => false end.

(** [sep.join(parts)]. *)
Fixpoint join (sep : str) (parts : list str) : str :=
  match parts with
  | [] => []
  | [p] => p
  | p :: rest => p ++ sep ++ join sep rest
  end.

(** [s.split(sep)[0]] for a one-character separator: the text before
    the first occurrence of [sep], or all of [s]. *)
Fixpoint before_first (sep : char) (s : str) : str :=
  match s with
  | [] => []
  | c :: s' => if N.eqb c sep then [] else c :: before_first sep s'
  end.

(** [c.isspace()] for a code point; above U+00FF only the Unicode
    [White_Space]/bidirectional-separator characters Python lists. *)
Definition isspace (c : char) : bool :=
  ((9 <=? c) && (c <=? 13) || (28 <=? c) && (c <=? 32)
   || (c =? 133) || (c =? 160) || (c =? 5760)
   || (8192 <=? c) && (c <=? 8202) || (c =? 8232) || (c =? 8233)
   || (c =? 8239) || (c =? 8287) || (c =? 12288))%N.

Fixpoint lstrip (s : str) : str :=
  match s with
  | c :: s' => if isspace c then lstrip s' else s
  | [] => []
  end.

(** [s.strip()]. *)
Definition strip (s : str) : str := rev (lstrip (rev (lstrip s))).

Definition is_digit (c : char) : bool := ((48 <=? c) && (c <=? 57))%N.

Definition digit_char (d : Z) : char := Z.to_N (48 + d).
Definition digit_val (c : char) : Z := Z.of_N c - 48.

(** The decimal digits of a positive number, most significant first. *)
Fixpoint digits_fuel (fuel : nat) (z : Z) (acc : str) : str :=
  match fuel with
  | O => acc
  | S fuel' =>
      if z <? 10 then digit_char z :: acc
      else digits_fuel fuel' (z / 10) (digit_char (z mod 10) :: acc)
  end.

Definition nat_digits (z : Z) : str :=
  digits_fuel (S (Z.to_nat (Z.log2 z))) z [].

(** [int.__repr__]. *)
Definition int_repr (z : Z) : str :=
  if z <? 0 then ch "-" :: nat_digits (- z) else nat_digits z.

(** [int(ds)] for a run of ASCII digits. *)
Definition digits_val (ds : str) : Z :=
  fold_left (fun acc c => 10 * acc + digit_val c) ds 0.

(** ['%0Nd'] style left padding with ['0']. *)
Definition zfill (width : nat) (s : str) : str :=
  repeat (ch "0") (width - List.length s) ++ s.

Definition hex_char (d : Z) : char :=
  if d <? 10 then Z.to_N (48 + d) else Z.to_N (87 + d).

(** ['{0:04x}'.format(n)] for [n < 0x10000]. *)
Definition hex4 (n : Z) : str :=
  [hex_char (n / 4096 mod 16); hex_char (n / 256 mod 16);
   hex_char (n / 16 mod 16); hex_char (n mod 16)].

(** ['{0:02x}'.format(n)] for [n < 0x100]. *)
Definition hex2 (n : Z) : str :=
  [hex_char (n / 16 mod 16); hex_char (n mod 16)].

Definition hex_val (c : char) : option Z :=
  if is_digit c then Some (Z.of_N c - 48)
  else if ((97 <=? c) && (c <=? 102))%N then Some (Z.of_N c - 87)
  else if ((65 <=? c) && (c <=? 70))%N then Some (Z.of_N c - 55)
  else None.

End Text.

(* ===================================================================== *)
(** * CPython [float]: IEEE binary64 *)
(* ===================================================================== *)

Module Float64.
Import Text.

Definition float := spec_float.

Definition prec : Z := 53.
Definition emax : Z := 1024.

Definition float_eqb (x y : float) : bool :=
  match x, y with
  | S754_zero a, S754_zero b => Bool.eqb a b
  | S754_infinity a, S754_infinity b => Bool.eqb a b
  | S754_nan, S754_nan => true
  | S754_finite a m e, S754_finite b m' e' =>
      Bool.eqb a b && Pos.eqb m m' && Z.eqb e e'
  | _, _ => false
  end.

Definition is_finite (x : float) : bool :=
  match x with
  | S754_zero _ | S754_finite _ _ _ => true
  | _ => false
  end.

(** [float(text)] for the decimal numeral [(-1)^neg * c * 10^k]: the
    nearest binary64 value, ties to even (CPython's correctly rounded
    [strtod]); values beyond the range round to an infinity. *)
Definition of_decimal (neg : bool) (c k : Z) : float :=
  if c <=? 0 then S754_zero neg
  else if 0 <=? k then
    binary_normalize prec emax (if neg then - (c * 10 ^ k) else c * 10 ^ k)
                     0 neg
  else
    let q := 10 ^ (- k) in
    let s := Z.max 0 (Z.log2 q + 56 - Z.log2 c) in
    let p := c * 2 ^ s in
    let r := p mod q in
    let l := if r =? 0 then loc_Exact
             else loc_Inexact (Z.compare (2 * r) q) in
    binary_round_aux prec emax neg (p / q) (- s) l.

(** The positive rational [num / den] a finite non-zero float stands
    for. *)
Definition ratio (m : positive) (e : Z) : Z * Z :=
  if 0 <=? e then (Zpos m * 2 ^ e, 1) else (Zpos m, 2 ^ (- e)).

(** [num / den] scaled by [10^(-t)], as a quotient of integers. *)
Definition scaled (nd : Z * Z) (t : Z) : Z * Z :=
  let '(num, den) := nd in
  if 0 <=? t then (num, den * 10 ^ t) else (num * 10 ^ (- t), den).

(** Is [10^k <= num / den]? *)
Definition pow10_le (nd : Z * Z) (k : Z) : bool :=
  let '(n, d) := scaled nd k in d <=? n.

Fixpoint ilog10_up (fuel : nat) (nd : Z * Z) (k : Z) : Z :=
  match fuel with
  | O => k
  | S fuel' => if pow10_le nd (k + 1) then ilog10_up fuel' nd (k + 1) else k
  end.

(** The decimal exponent [k] with [10^k <= num / den < 10^(k+1)]. *)
Definition ilog10 (nd : Z * Z) : Z :=
  let '(num, den) := nd in
  let l2 := Z.log2 num - Z.log2 den in
  ilog10_up 8 nd ((l2 - 1) * 30102 / 100000 - 1).

(** Drop the trailing zeros of a digit string (at least one digit is
    kept). *)
Fixpoint strip_trailing_zeros (fuel : nat) (c : Z) : Z :=
  match fuel with
  | O => c
  | S fuel' =>
      if (c mod 10 =? 0) && (0 <? c) then strip_trailing_zeros fuel' (c / 10)
      else c
  end.

(** A candidate with [n] significant digits: the two neighbours of the
    value on the grid [10^t], [t = k - n + 1]; the one that reads back
    as [x] is taken, the nearer one first. *)
Definition candidate (x : float) (nd : Z * Z) (k : Z) (n : Z)
  : option (Z * Z) :=
  let t := k - n + 1 in
  let '(a, b) := scaled nd t in
  let lo := a / b in
  let hi := lo + 1 in
  let ok_lo := float_eqb (of_decimal false lo t) x in
  let ok_hi := float_eqb (of_decimal false hi t) x in
  let lo_first :=
    match Z.compare (2 * (a mod b)) b with
    | Lt => true
    | Gt => false
    | Eq => Z.even lo
    end in
  if lo_first then
    if ok_lo then Some (lo, t) else if ok_hi then Some (hi, t) else None
  else
    if ok_hi then Some (hi, t) else if ok_lo then Some (lo, t) else None.

Fixpoint shortest (fuel : nat) (x : float) (nd : Z * Z) (k : Z) (n : Z)
  : Z * Z :=
  match fuel with
  | O => let '(a, b) := scaled nd (k - 16) in (a / b, k - 16)
  | S fuel' =>
      match candidate x nd k n with
      | Some r => r
      | None => shortest fuel' x nd k (n + 1)
      end
  end.

(** The shortest digit string that reads back as the float, as the
    digits and the position [decpt] of the decimal point
    ([0.d1d2... * 10^decpt]). *)
Definition shortest_digits (m : positive) (e : Z) : str * Z :=
  let nd := ratio m e in
  let k := ilog10 nd in
  let '(c, t) := shortest 17 (S754_finite false m e) nd k 1 in
  let ds := nat_digits c in
  (nat_digits (strip_trailing_zeros (List.length ds) c),
   Z.of_nat (List.length ds) + t).

(** The exponent suffix of [repr]: a sign and at least two digits. *)
Definition exp_suffix (x : Z) : str :=
  ch "e" :: (if x <? 0 then ch "-" else ch "+")
         :: zfill 2 (nat_digits (Z.abs x)).

(** The layout of [float.__repr__] (format code ['r']): exponent
    notation when [decpt <= -4] or [decpt > 16], positional otherwise,
    with [.0] added to a numeral that would read as an integer. *)
Definition layout (ds : str) (decpt : Z) : str :=
  let n := Z.of_nat (List.length ds) in
  if (decpt <=? -4) || (16 <? decpt) then
    match ds with
    | [] => []
    | d :: rest =>
        (d :: match rest with [] => [] | _ => ch "." :: rest end)
          ++ exp_suffix (decpt - 1)
    end
  else if decpt <=? 0 then
    py "0." ++ repeat (ch "0") (Z.to_nat (- decpt)) ++ ds
  else if n <=? decpt then
    ds ++ repeat (ch "0") (Z.to_nat (decpt - n)) ++ py ".0"
  else
    firstn (Z.to_nat decpt) ds ++ ch "." :: skipn (Z.to_nat decpt) ds.

(** [float.__repr__], which is also [str(x)] for a float. *)
Definition repr (x : float) : str :=
  match x with
  | S754_nan => py "nan"
  | S754_infinity false => py "inf"
  | S754_infinity true => py "-inf"
  | S754_zero false => py "0.0"
  | S754_zero true => py "-0.0"
  | S754_finite s m e =>
      let '(ds, decpt) := shortest_digits m e in
      (if s then [ch "-"] else []) ++ layout ds decpt
  end.

End Float64.

(* ===================================================================== *)
(** * [decimal.Decimal] *)
(* ===================================================================== *)

Module PyDecimal.
Import Text.

(** A [Decimal]: [_sign], [_int] (held as the number whose digits it
    is) and [_exp], or one of the special values; the diagnostic of a
    NaN is a number too, zero for none. *)
Inductive decimal :=
| DFin (sign : bool) (coef : N) (exp : Z)
| DInf (sign : bool)
| DNaN (sign : bool) (signaling : bool) (diag : N).

(** The longest prefix of ASCII digits and the rest. *)
Fixpoint span_digits (s : str) : str * str :=
  match s with
  | c :: s' =>
      if is_digit c then let '(ds, rest) := span_digits s' in (c :: ds, rest)
      else ([], s)
  | [] => ([], [])
  end.

Definition lower (c : char) : char :=
  if ((65 <=? c) && (c <=? 90))%N then (c + 32)%N else c.

(** An optional exponent part [E[+-]digits] that must end the text. *)
Definition parse_exp (s : str) : option Z :=
  match s with
  | [] => Some 0
  | c :: s' =>
      if (lower c =? ch "e")%N then
        let '(neg, s'') :=
          match s' with
          | d :: t => if (d =? ch "-")%N then (true, t)
                      else if (d =? ch "+")%N then (false, t)
                      else (false, s')
          | [] => (false, s')
          end in
        match span_digits s'' with
        | ((_ :: _) as ds, []) =>
            Some (if neg then - digits_val ds else digits_val ds)
        | _ => None
        end
      else None
  end.

(** [Decimal(text)]: the constructor on a string is exact, whatever
    the context precision.  [None] stands for [InvalidOperation]. *)
Definition of_str (text : str) : option decimal :=
  let s := filter (fun c => negb (c =? ch "_")%N) (strip text) in
  let '(sign, s) :=
    match s with
    | c :: t => if (c =? ch "-")%N then (true, t)
                else if (c =? ch "+")%N then (false, t)
                else (false, s)
    | [] => (false, s)
    end in
  let low := map lower s in
  if str_eqb low (py "inf") || str_eqb low (py "infinity") then
    Some (DInf sign)
  else
    match strip_prefix (py "nan") low, strip_prefix (py "snan") low with
    | Some _, _ =>
        match span_digits (skipn 3 s) with
        | (ds, []) =>
            Some (DNaN sign false (Z.to_N (digits_val ds)))
        | _ => None
        end
    | None, Some _ =>
        match span_digits (skipn 4 s) with
        | (ds, []) =>
            Some (DNaN sign true (Z.to_N (digits_val ds)))
        | _ => None
        end
    | None, None =>
        let '(intpart, r1) := span_digits s in
        let '(fracpart, has_dot, r2) :=
          match r1 with
          | c :: t =>
              if (c =? ch ".")%N then
                let '(fs, r) := span_digits t in (fs, true, r)
              else ([], false, r1)
          | [] => ([], false, r1)
          end in
        match intpart, fracpart with
        | [], [] => None
        | _, _ =>
            match parse_exp r2 with
            | Some e =>
                Some (DFin sign (Z.to_N (digits_val (intpart ++ fracpart)))
                           (e - Z.of_nat (List.length fracpart)))
            | None => None
            end
        end
    end.

Definition sign_str (sign : bool) : str :=
  if sign then [ch "-"] else [].

(** [Decimal.__str__]: the to-scientific-string conversion. *)
Definition to_str (d : decimal) : str :=
  match d with
  | DInf s => sign_str s ++ py "Infinity"
  | DNaN s sig diag =>
      sign_str s ++ (if sig then py "sNaN" else py "NaN")
        ++ (if (diag =? 0)%N then [] else nat_digits (Z.of_N diag))
  | DFin s coef exp =>
      let int := nat_digits (Z.of_N coef) in
      let len := Z.of_nat (List.length int) in
      let leftdigits := exp + len in
      let dotplace :=
        if (exp <=? 0) && (-6 <? leftdigits) then leftdigits else 1 in
      let '(intpart, fracpart) :=
        if dotplace <=? 0 then
          (py "0", ch "." :: repeat (ch "0") (Z.to_nat (- dotplace)) ++ int)
        else if len <=? dotplace then
          (int ++ repeat (ch "0") (Z.to_nat (dotplace - len)), [])
        else
          (firstn (Z.to_nat dotplace) int,
           ch "." :: skipn (Z.to_nat dotplace) int) in
      let e :=
        if leftdigits =? dotplace then []
        else ch "E" :: (if leftdigits - dotplace <? 0 then ch "-" else ch "+")
                    :: nat_digits (Z.abs (leftdigits - dotplace)) in
      sign_str s ++ intpart ++ fracpart ++ e
  end.

End PyDecimal.

(* ===================================================================== *)
(** * Python objects a JSON document decodes to *)
(* ===================================================================== *)

#[warnings="-register-all"]
Inductive pyobj :=
| PyNone
| PyBool (b : bool)
| PyInt (z : Z)
| PyFloat (f : Float64.float)
| PyDecimal (d : PyDecimal.decimal)
| PyStr (s : Text.str)
| PyList (items : list pyobj)
| PyDict (items : list (Text.str * pyobj)).

(** A [dict] with [str] keys, in insertion order. *)
Definition pydict := list (Text.str * pyobj).

Module Dict.
Import Text.

Section Ops.
Context {V : Type}.

(** [d.get(k)]. *)
Fixpoint get (d : list (str * V)) (k : str) : option V :=
  match d with
  | [] => None
  | (k', v) :: d' => if str_eqb k' k then Some v else get d' k
  end.

(** [d[k] = v]: an existing key keeps its position. *)
Fixpoint set (d : list (str * V)) (k : str) (v : V) : list (str * V) :=
  match d with
  | [] => [(k, v)]
  | (k', v') :: d' =>
      if str_eqb k' k then (k', v) :: d' else (k', v') :: set d' k v
  end.

(** [dict(pairs)]. *)
Definition of_pairs (pairs : list (str * V)) : list (str * V) :=
  fold_left (fun d kv => set d (fst kv) (snd kv)) pairs [].

(** [d.keys()]. *)
Definition keys (d : list (str * V)) : list str := map fst d.

Definition mem (k : str) (ks : list str) : bool :=
  existsb (str_eqb k) ks.
End Ops.

End Dict.

(* ===================================================================== *)
(** * The [json] module *)
(* ===================================================================== *)

Module Json.
Import Text.

(** ** Encoding *)

(** One character of [encode_basestring_ascii]: the short escapes of
    [ESCAPE_DCT], printable ASCII unchanged, everything else as a
    [\uXXXX] escape (a surrogate pair above U+FFFF). *)
Definition escape_char (c : char) : str :=
  if (c =? backslash)%N then [backslash; backslash]
  else if (c =? quote)%N then [backslash; quote]
  else if (c =? 8)%N then [backslash; ch "b"]
  else if (c =? 12)%N then [backslash; ch "f"]
  else if (c =? 10)%N then [backslash; ch "n"]
  else if (c =? 13)%N then [backslash; ch "r"]
  else if (c =? 9)%N then [backslash; ch "t"]
  else if ((32 <=? c) && (c <=? 126))%N then [c]
  else
    let n := Z.of_N c in
    if n <? 65536 then backslash :: ch "u" :: hex4 n
    else
      let n' := n - 65536 in
      let s1 := Z.lor 55296 (Z.land (Z.shiftr n' 10) 1023) in
      let s2 := Z.lor 56320 (Z.land n' 1023) in
      (backslash :: ch "u" :: hex4 s1) ++ (backslash :: ch "u" :: hex4 s2).

Definition encode_basestring_ascii (s : str) : str :=
  quote :: flat_map escape_char s ++ [quote].

(** [floatstr] of the encoder ([allow_nan] is on by default). *)
Definition floatstr (f : Float64.float) : str :=
  match f with
  | S754_nan => py "NaN"
  | S754_infinity false => py "Infinity"
  | S754_infinity true => py "-Infinity"
  | _ => Float64.repr f
  end.

Section Encoder.
(** The [default] hook of the encoder class.  Of the objects of
    [pyobj] only a [Decimal] is not encoded by [json] itself and
    reaches the hook; the hooks of the scripts return a [str] for
    it, which the encoder then encodes as any other [str]. *)
Variable default : PyDecimal.decimal -> str.

(** [json.dumps(o, cls=...)] with the default separators [", "] and
    [": "] and [ensure_ascii=True]; [json.dump] writes the same
    text. *)
Fixpoint dumps (o : pyobj) : str :=
  match o with
  | PyNone => py "null"
  | PyBool true => py "true"
  | PyBool false => py "false"
  | PyInt z => int_repr z
  | PyFloat f => floatstr f
  | PyDecimal d => encode_basestring_ascii (default d)
  | PyStr s => encode_basestring_ascii s
  | PyList items =>
      ch "[" :: join (py ", ") (map dumps items) ++ [ch "]"]
  | PyDict items =>
      ch "{" :: join (py ", ")
                  (map (fun kv => encode_basestring_ascii (fst kv)
                                    ++ py ": " ++ dumps (snd kv)) items)
             ++ [ch "}"]
  end.
End Encoder.

(** ** Decoding *)

Definition is_ws (c : char) : bool :=
  ((c =? 32) || (c =? 9) || (c =? 10) || (c =? 13))%N.

(** [WHITESPACE.match(s, end).end()]. *)
Fixpoint skip_ws (s : str) : str :=
  match s with
  | c :: s' => if is_ws c then skip_ws s' else s
  | [] => []
  end.

Definition hex4_val (a b c d : char) : option Z :=
  match hex_val a, hex_val b, hex_val c, hex_val d with
  | Some x, Some y, Some z, Some w => Some (((x * 16 + y) * 16 + z) * 16 + w)
  | _, _, _, _ => None
  end.

(** The [BACKSLASH] table. *)
Definition unescape (esc : char) : option char :=
  if (esc =? quote)%N then Some quote
  else if (esc =? backslash)%N then Some backslash
  else if (esc =? ch "/")%N then Some (ch "/")
  else if (esc =? ch "b")%N then Some 8%N
  else if (esc =? ch "f")%N then Some 12%N
  else if (esc =? ch "n")%N then Some 10%N
  else if (esc =? ch "r")%N then Some 13%N
  else if (esc =? ch "t")%N then Some 9%N
  else None.

Definition push (c : char) (r : option (str * str)) : option (str * str) :=
  match r with
  | Some (s, rest) => Some (c :: s, rest)
  | None => None
  end.

Definition is_high_surrogate (u : Z) : bool := (55296 <=? u) && (u <=? 56319).
Definition is_low_surrogate (u : Z) : bool := (56320 <=? u) && (u <=? 57343).

(** [scanstring(s, end, strict=True)]: the text after the opening
    quote is decoded up to the closing quote; the result is the string
    and the text after the closing quote. *)
Fixpoint scanstring (s : str) : option (str * str) :=
  match s with
  | [] => None
  | c :: s1 =>
      if (c =? quote)%N then Some ([], s1)
      else if (c =? backslash)%N then
        match s1 with
        | [] => None
        | esc :: s2 =>
            if (esc =? ch "u")%N then
              match s2 with
              | h1 :: h2 :: h3 :: h4 :: s3 =>
                  match hex4_val h1 h2 h3 h4 with
                  | None => None
                  | Some uni =>
                      if is_high_surrogate uni then
                        match s3 with
                        | b :: u :: g1 :: g2 :: g3 :: g4 :: s4 =>
                            if ((b =? backslash) && (u =? ch "u"))%N then
                              match hex4_val g1 g2 g3 g4 with
                              | None => None
                              | Some uni2 =>
                                  if is_low_surrogate uni2 then
                                    push (Z.to_N
                                            (65536 + Z.lor
                                               (Z.shiftl (uni - 55296) 10)
                                               (uni2 - 56320)))
                                         (scanstring s4)
                                  else push (Z.to_N uni) (scanstring s3)
                              end
                            else push (Z.to_N uni) (scanstring s3)
                        | _ => push (Z.to_N uni) (scanstring s3)
                        end
                      else push (Z.to_N uni) (scanstring s3)
                  end
              | _ => None
              end
            else
              match unescape esc with
              | Some c' => push c' (scanstring s2)
              | None => None
              end
        end
      else if (c <? 32)%N then None
      else push c (scanstring s1)
  end.

(** The longest prefix of ASCII digits and the rest. *)
Definition span_digits := PyDecimal.span_digits.

(** [NUMBER_RE]: an optional minus sign and either [0] or a digit run
    without a leading zero; then optionally a dot and digits; then
    optionally [e] or [E], an optional sign and digits.  The result is
    the integer part, the fraction and exponent groups (empty when
    they do not match) and the text after the match. *)
Definition match_number (s : str) : option (str * str * str * str) :=
  let '(sign, s1) :=
    match s with
    | c :: t => if (c =? ch "-")%N then ([c], t) else ([], s)
    | [] => ([], s)
    end in
  match s1 with
  | [] => None
  | c :: t =>
      if negb (is_digit c) then None
      else
        let '(intdigits, r1) :=
          if (c =? ch "0")%N then ([c], t)
          else let '(ds, r) := span_digits t in (c :: ds, r) in
        let '(frac, r2) :=
          match r1 with
          | p :: t1 =>
              if (p =? ch ".")%N then
                match span_digits t1 with
                | ([], _) => ([], r1)
                | (fs, r) => (p :: fs, r)
                end
              else ([], r1)
          | [] => ([], r1)
          end in
        let '(exp, r3) :=
          match r2 with
          | e :: t2 =>
              if ((e =? ch "e") || (e =? ch "E"))%N then
                let '(sg, t3) :=
                  match t2 with
                  | g :: t' =>
                      if ((g =? ch "-") || (g =? ch "+"))%N then ([g], t')
                      else ([], t2)
                  | [] => ([], t2)
                  end in
                match span_digits t3 with
                | ([], _) => ([], r2)
                | (es, r) => (e :: sg ++ es, r)
                end
              else ([], r2)
          | [] => ([], r2)
          end in
        Some (sign ++ intdigits, frac, exp, r3)
  end.

(** [int(text)] on an optional minus sign and ASCII digits. *)
Definition int_of_str (text : str) : Z :=
  match text with
  | c :: t => if (c =? ch "-")%N then - digits_val t else digits_val text
  | [] => 0
  end.

(** [float(text)] on a numeral [[-]digits[.digits][(e|E)[+-]digits]]. *)
Definition float_of_str (text : str) : Float64.float :=
  let '(neg, s) :=
    match text with
    | c :: t => if (c =? ch "-")%N then (true, t) else (false, text)
    | [] => (false, text)
    end in
  let '(ip, r1) := span_digits s in
  let '(fp, r2) :=
    match r1 with
    | p :: t => if (p =? ch ".")%N then span_digits t else ([], r1)
    | [] => ([], r1)
    end in
  let e :=
    match r2 with
    | _ :: g :: t =>
        if (g =? ch "-")%N then - digits_val t
        else if (g =? ch "+")%N then digits_val t
        else digits_val (g :: t)
    | _ => 0
    end in
  Float64.of_decimal neg (digits_val (ip ++ fp))
                     (e - Z.of_nat (List.length fp)).

(** What a decoder is configured with: the conversions of the two
    kinds of numerals ([None]: the numeral is rejected), whether the
    constants [NaN], [Infinity] and [-Infinity] are accepted, and the
    hook applied to every decoded object ([None]: the hook raises). *)
Record config := {
  parse_int : str -> option pyobj;
  parse_float : str -> option pyobj;
  constants : bool;
  object_hook : pydict -> option pyobj
}.

Section Decoder.
Variable cfg : config.

(** The elements of an array after the first look-ahead. *)
Fixpoint array_items (scan : str -> option (pyobj * str)) (fuel : nat)
         (s : str) : option (list pyobj * str) :=
  match fuel with
  | O => None
  | S fuel' =>
      match scan s with
      | None => None
      | Some (v, r) =>
          match skip_ws r with
          | c :: r' =>
              if (c =? ch "]")%N then Some ([v], r')
              else if (c =? ch ",")%N then
                match array_items scan fuel' (skip_ws r') with
                | Some (vs, r'') => Some (v :: vs, r'')
                | None => None
                end
              else None
          | [] => None
          end
      end
  end.

(** [JSONArray]: the text after the opening bracket. *)
Definition JSONArray (scan : str -> option (pyobj * str)) (fuel : nat)
           (s : str) : option (list pyobj * str) :=
  match skip_ws s with
  | c :: r =>
      if (c =? ch "]")%N then Some ([], r)
      else array_items scan fuel (c :: r)
  | [] => None
  end.

(** The pairs of an object, from the opening quote of a key. *)
Fixpoint object_pairs (scan : str -> option (pyobj * str)) (fuel : nat)
         (s : str) : option (list (str * pyobj) * str) :=
  match fuel with
  | O => None
  | S fuel' =>
      match s with
      | q :: s1 =>
          if negb (q =? quote)%N then None
          else
            match scanstring s1 with
            | None => None
            | Some (key, r) =>
                match skip_ws r with
                | c :: r1 =>
                    if negb (c =? ch ":")%N then None
                    else
                      match scan (skip_ws r1) with
                      | None => None
                      | Some (v, r2) =>
                          match skip_ws r2 with
                          | c' :: r3 =>
                              if (c' =? ch "}")%N then Some ([(key, v)], r3)
                              else if (c' =? ch ",")%N then
                                match object_pairs scan fuel'
                                                   (skip_ws r3) with
                                | Some (kvs, r4) => Some ((key, v) :: kvs, r4)
                                | None => None
                                end
                              else None
                          | [] => None
                          end
                      end
                | [] => None
                end
            end
      | [] => None
      end
  end.

(** [JSONObject]: the text after the opening brace; the pairs are
    turned into a [dict] and handed to the object hook. *)
Definition JSONObject (scan : str -> option (pyobj * str)) (fuel : nat)
           (s : str) : option (pyobj * str) :=
  match skip_ws s with
  | c :: r =>
      if (c =? ch "}")%N then
        match object_hook cfg [] with
        | Some o => Some (o, r)
        | None => None
        end
      else
        match object_pairs scan fuel (c :: r) with
        | Some (pairs, r') =>
            match object_hook cfg (Dict.of_pairs pairs) with
            | Some o => Some (o, r')
            | None => None
            end
        | None => None
        end
  | [] => None
  end.

Definition literal (lit : string) (v : pyobj) (s : str)
  : option (pyobj * str) :=
  match strip_prefix (py lit) s with
  | Some r => Some (v, r)
  | None => None
  end.

(** [scan_once]: one JSON value at the start of [s].  [None] stands
    for the decoder's error ([StopIteration] turned into
    [JSONDecodeError], or [JSONDecodeError] itself). *)
Fixpoint scan_once (fuel : nat) (s : str) : option (pyobj * str) :=
  match fuel with
  | O => None
  | S fuel' =>
      match s with
      | [] => None
      | c :: s1 =>
          if (c =? quote)%N then
            match scanstring s1 with
            | Some (x, r) => Some (PyStr x, r)
            | None => None
            end
          else if (c =? ch "{")%N then JSONObject (scan_once fuel') fuel' s1
          else if (c =? ch "[")%N then
            match JSONArray (scan_once fuel') fuel' s1 with
            | Some (vs, r) => Some (PyList vs, r)
            | None => None
            end
          else if startswith s (py "null") then literal "null" PyNone s
          else if startswith s (py "true") then
            literal "true" (PyBool true) s
          else if startswith s (py "false") then
            literal "false" (PyBool false) s
          else
            match match_number s with
            | Some (integer, frac, exp, r) =>
                match
                  match frac, exp with
                  | [], [] => parse_int cfg integer
                  | _, _ => parse_float cfg (integer ++ frac ++ exp)
                  end
                with
                | Some v => Some (v, r)
                | None => None
                end
            | None =>
                if constants cfg then
                  if startswith s (py "NaN") then
                    literal "NaN" (PyFloat S754_nan) s
                  else if startswith s (py "Infinity") then
                    literal "Infinity" (PyFloat (S754_infinity false)) s
                  else if startswith s (py "-Infinity") then
                    literal "-Infinity" (PyFloat (S754_infinity true)) s
                  else None
                else None
            end
      end
  end.

(** Enough fuel for a text: a nesting level and an element each take
    at least one character. *)
Definition fuel_for (s : str) : nat := S (List.length s).

(** [JSONDecoder.decode]: one value between optional white space,
    and nothing after it. *)
Definition decode (s : str) : option pyobj :=
  match scan_once (fuel_for s) (skip_ws s) with
  | Some (v, r) =>
      match skip_ws r with
      | [] => Some v
      | _ :: _ => None
      end
  | None => None
  end.
End Decoder.

(** [json.loads(s, object_hook=hook)] with the default [parse_int],
    [parse_float] and [parse_constant]; [None] is [JSONDecodeError],
    or the exception of the hook. *)
Definition loads_hook (hook : pydict -> option pyobj) (s : str)
  : option pyobj :=
  decode {| parse_int := fun t => Some (PyInt (int_of_str t));
            parse_float := fun t => Some (PyFloat (float_of_str t));
            constants := true;
            object_hook := hook |} s.

(** [json.loads(s)]; [None] is [JSONDecodeError]. *)
Definition loads (s : str) : option pyobj :=
  loads_hook (fun d => Some (PyDict d)) s.

End Json.

(* ===================================================================== *)
(** * Exceptions and generators *)
(* ===================================================================== *)

Inductive exception :=
| JSONDecodeError        (* json.JSONDecodeError, a ValueError *)
| IjsonJSONError         (* ijson.JSONError and its subclasses *)
| ValueError
| TypeError
| AttributeError.

(** A generator as its consumer sees it: the objects it yields, in
    order, and the exception that ends it, if one does.  The generators
    of the scripts are functions of a file's content and take nothing
    from their consumer. *)
Record generator := {
  yields : list pyobj;
  raises : option exception
}.

(* ===================================================================== *)
(** * [ijson.items(f, 'item', use_float=...)] *)
(* ===================================================================== *)

Module Ijson.
Import Text.

(** [ijson.common.integer_or_decimal] and [integer_or_float], applied
    to a numeral with a fraction or an exponent: a [Decimal] built from
    the text, or with [use_float] a float, where a numeral beyond the
    float range is an error. *)
Definition number (use_float : bool) (text : str) : option pyobj :=
  if use_float then
    let f := Json.float_of_str text in
    if Float64.is_finite f then Some (PyFloat f) else None
  else
    match PyDecimal.of_str text with
    | Some d => Some (PyDecimal d)
    | None => None
    end.

(** Modelled from ijson's documented behaviour (the package is not part
    of the repository): the grammar of RFC 8259 without the constants
    [NaN] and [Infinity]; integers become [int], objects become
    [dict]. *)
Definition config (use_float : bool) : Json.config :=
  {| Json.parse_int := fun t => Some (PyInt (Json.int_of_str t));
     Json.parse_float := number use_float;
     Json.constants := false;
     Json.object_hook := fun d => Some (PyDict d) |}.

(** Nothing but white space may follow the top-level value. *)
Definition trailing (s : str) : option exception :=
  match Json.skip_ws s with
  | [] => None
  | _ :: _ => Some IjsonJSONError
  end.

(** The elements of the top-level array, from the start of an
    element: each one is yielded when it is complete; the first syntax
    error ends the generator with [ijson.JSONError]. *)
Fixpoint elements (scan : str -> option (pyobj * str)) (fuel : nat)
         (s : str) : generator :=
  match fuel with
  | O => {| yields := []; raises := Some IjsonJSONError |}
  | S fuel' =>
      match scan s with
      | None => {| yields := []; raises := Some IjsonJSONError |}
      | Some (v, r) =>
          match Json.skip_ws r with
          | c :: r' =>
              if (c =? ch "]")%N then
                {| yields := [v]; raises := trailing r' |}
              else if (c =? ch ",")%N then
                let g := elements scan fuel' (Json.skip_ws r') in
                {| yields := v :: yields g; raises := raises g |}
              else {| yields := [v]; raises := Some IjsonJSONError |}
          | [] => {| yields := [v]; raises := Some IjsonJSONError |}
          end
      end
  end.

(** [ijson.items(f, 'item', use_float=use_float)] over a file with
    content [data]: the elements of a top-level array; a top-level
    value of another kind yields nothing. *)
Definition items (use_float : bool) (data : str) : generator :=
  let fuel := Json.fuel_for data in
  let scan := Json.scan_once (config use_float) fuel in
  match Json.skip_ws data with
  | [] => {| yields := []; raises := Some IjsonJSONError |}
  | c :: r =>
      if (c =? ch "[")%N then
        match Json.skip_ws r with
        | c' :: r' =>
            if (c' =? ch "]")%N then {| yields := []; raises := trailing r' |}
            else elements scan fuel (c' :: r')
        | [] => {| yields := []; raises := Some IjsonJSONError |}
        end
      else
        match scan (c :: r) with
        | Some (_, r') => {| yields := []; raises := trailing r' |}
        | None => {| yields := []; raises := Some IjsonJSONError |}
        end
  end.

End Ijson.

(* ===================================================================== *)
(** * [str()] and [repr()] of the objects *)
(* ===================================================================== *)

Module PyObject.
Import Text.

Definition printable (c : char) : bool :=
  (if c <? 256 then
     (32 <=? c) && (c <=? 126) || (161 <=? c) && negb (c =? 173)
   else negb ((55296 <=? c) && (c <=? 57343)))%N.

Definition hex8 (n : Z) : str := hex4 (n / 65536) ++ hex4 (n mod 65536).

(** One character of [repr] of a [str] quoted with [q].  The test for
    printable characters is exact below U+0100; above, every code
    point but the surrogates is taken as printable. *)
Definition repr_char (q : char) (c : char) : str :=
  if ((c =? q) || (c =? backslash))%N then [backslash; c]
  else if (c =? 9)%N then [backslash; ch "t"]
  else if (c =? 10)%N then [backslash; ch "n"]
  else if (c =? 13)%N then [backslash; ch "r"]
  else if printable c then [c]
  else if (c <? 256)%N then backslash :: ch "x" :: hex2 (Z.of_N c)
  else if (c <? 65536)%N then backslash :: ch "u" :: hex4 (Z.of_N c)
  else backslash :: ch "U" :: hex8 (Z.of_N c).

Definition has (c : char) (s : str) : bool := existsb (N.eqb c) s.

(** [repr] of a [str]: single quotes, unless the text has a single
    quote and no double quote. *)
Definition repr_str (s : str) : str :=
  let q := if has apostrophe s && negb (has quote s) then quote
           else apostrophe in
  q :: flat_map (repr_char q) s ++ [q].

Fixpoint repr (o : pyobj) : str :=
  match o with
  | PyNone => py "None"
  | PyBool true => py "True"
  | PyBool false => py "False"
  | PyInt z => int_repr z
  | PyFloat f => Float64.repr f
  | PyDecimal d => py "Decimal('" ++ PyDecimal.to_str d ++ py "')"
  | PyStr s => repr_str s
  | PyList items => ch "[" :: join (py ", ") (map repr items) ++ [ch "]"]
  | PyDict items =>
      ch "{" :: join (py ", ")
                  (map (fun kv => repr_str (fst kv) ++ py ": "
                                    ++ repr (snd kv)) items)
             ++ [ch "}"]
  end.

(** [str(o)]. *)
Definition to_str (o : pyobj) : str :=
  match o with
  | PyStr s => s
  | PyDecimal d => PyDecimal.to_str d
  | _ => repr o
  end.

End PyObject.

(* ===================================================================== *)
(** * [csv.DictWriter] with the default ([excel]) dialect *)
(* ===================================================================== *)

Module Csv.
Import Text.

(** The text of a field: a [str] as it is, [None] as the empty text,
    anything else through [str()]. *)
Definition field_text (o : pyobj) : str :=
  match o with
  | PyNone => []
  | _ => PyObject.to_str o
  end.

Definition special (c : char) : bool :=
  ((c =? ch ",") || (c =? quote) || (c =? CR) || (c =? LF))%N.

(** [QUOTE_MINIMAL] with [doublequote]: a field with a delimiter, a
    quote or a line break is quoted, its quotes doubled. *)
Definition quote_field (s : str) : str :=
  if existsb special s then
    quote :: flat_map (fun c => if (c =? quote)%N then [quote; quote]
                                else [c]) s ++ [quote]
  else s.

(** [csv.writer.writerow]: the text of one record.  A record that
    would be empty (one empty field) is written as a quoted empty
    field. *)
Definition writerow (fields : list pyobj) : str :=
  let rec := join [ch ","] (map (fun f => quote_field (field_text f)) fields) in
  match fields, rec with
  | _ :: _, [] => [quote; quote; CR; LF]
  | _, _ => rec ++ [CR; LF]
  end.

(** [DictWriter._dict_to_list] with [extrasaction="raise"] and
    an empty [restval]: a key outside the field names is a [ValueError];
    a missing field takes [restval]. *)
Definition dict_to_list (fieldnames : list str) (rowdict : pydict)
  : exception + list pyobj :=
  if forallb (fun k => Dict.mem k fieldnames) (Dict.keys rowdict) then
    inr (map (fun key => match Dict.get rowdict key with
                         | Some v => v
                         | None => PyStr []
                         end) fieldnames)
  else inl ValueError.

(** [DictWriter.writerow]. *)
Definition dict_writerow (fieldnames : list str) (rowdict : pydict)
  : exception + str :=
  match dict_to_list fieldnames rowdict with
  | inr fields => inr (writerow fields)
  | inl e => inl e
  end.

(** [DictWriter.writeheader]: the row [dict(zip(fieldnames,
    fieldnames))]. *)
Definition writeheader (fieldnames : list str) : str :=
  writerow (map PyStr fieldnames).

End Csv.

(* ===================================================================== *)
(** * Text files *)
(* ===================================================================== *)

Module File.
Import Text.

(** Universal newlines of a file opened in text mode: [\r\n] and a
    lone [\r] are read as [\n]. *)
Fixpoint translate (s : str) : str :=
  match s with
  | [] => []
  | c :: s' =>
      if (c =? CR)%N then
        LF :: match s' with
              | d :: s'' => if (d =? LF)%N then translate s'' else translate s'
              | [] => []
              end
      else c :: translate s'
  end.

(** The lines of a text, each with its line break. *)
Fixpoint split_lines (s : str) : list str :=
  match s with
  | [] => []
  | c :: s' =>
      if (c =? LF)%N then [c] :: split_lines s'
      else match split_lines s' with
           | [] => [[c]]
           | l :: ls => (c :: l) :: ls
           end
  end.

(** [for line in f] on a file opened with [open(path, 'r')]. *)
Definition lines (data : str) : list str := split_lines (translate data).

(** [f.read(1)] at the start of the file. *)
Definition read1 (data : str) : str := firstn 1 (translate data).

End File.

(* ===================================================================== *)
(** * Logging *)
(* ===================================================================== *)

Inductive level := DEBUG | INFO | WARNING | ERROR | CRITICAL.

(* ===================================================================== *)
(** * convert_json_ndjson.py *)
(* ===================================================================== *)

Module ConvertJsonNdjson.
Import Text.

(** The messages of the script, with the values they interpolate
    (paths and exception texts are left out). *)
Inductive message :=
| StartingNdjsonToJson
| StartingJsonToNdjson
| Parameters (batch_size : Z)
| SkippingEmptyLine (line_num : Z)
| WritingBatch (size : Z)
| WritingFinalBatch (size : Z)
| ErrorDecodingLine (line_num : Z)
| ProblematicLine (line : str)
| ErrorParsingJson
| ConversionComplete (object_count : Z).

Definition record := (level * message)%type.

(** [DecimalEncoder.default]: [str(o)] for a [Decimal]; the branch to
    the base class, which raises [TypeError], is for objects outside
    [pyobj]. *)
Definition DecimalEncoder_default (o : PyDecimal.decimal) : str :=
  PyDecimal.to_str o.

(** [json.dumps(obj, cls=DecimalEncoder)]. *)
Definition dumps : pyobj -> str := Json.dumps DecimalEncoder_default.

Definition len (batch : list pyobj) : Z := Z.of_nat (List.length batch).

(** What a run leaves behind: the content of the output file, the log,
    and the batches written, in the order of writing. *)
Record result := {
  outfile : str;
  log : list record;
  written : list (list pyobj)
}.

(** [write_batch(outfile, batch, is_first_object)], as the new content
    of [outfile]. *)
Definition write_batch (outfile : str) (batch : list pyobj)
           (is_first_object : bool) : str :=
  match batch with
  | [] => outfile
  | _ :: _ =>
      let output_string :=
        join [ch ","; LF] (map (fun obj => py "    " ++ dumps obj) batch) in
      (if negb is_first_object then outfile ++ [ch ","; LF] else outfile)
        ++ output_string
  end.

(** The variables of the loop of [convert_ndjson_to_json]. *)
Record ndjson_state := {
  n_outfile : str;
  n_is_first_object : bool;
  n_batch : list pyobj;
  n_object_count : Z;
  n_log : list record;
  n_written : list (list pyobj)
}.

(** One iteration of [for line_num, line in enumerate(infile, 1)]. *)
Definition ndjson_step (batch_size : Z) (st : ndjson_state)
           (line_num : Z) (line : str) : ndjson_state :=
  match strip line with
  | [] =>
      {| n_outfile := n_outfile st;
         n_is_first_object := n_is_first_object st;
         n_batch := n_batch st;
         n_object_count := n_object_count st;
         n_log := n_log st ++ [(DEBUG, SkippingEmptyLine line_num)];
         n_written := n_written st |}
  | _ :: _ =>
      match Json.loads line with
      | Some obj =>
          let batch := n_batch st ++ [obj] in
          if len batch >=? batch_size then
            {| n_outfile :=
                 write_batch (n_outfile st) batch (n_is_first_object st);
               n_is_first_object := false;
               n_batch := [];
               n_object_count := n_object_count st + len batch;
               n_log := n_log st ++ [(DEBUG, WritingBatch (len batch))];
               n_written := n_written st ++ [batch] |}
          else
            {| n_outfile := n_outfile st;
               n_is_first_object := n_is_first_object st;
               n_batch := batch;
               n_object_count := n_object_count st;
               n_log := n_log st;
               n_written := n_written st |}
      | None =>
          {| n_outfile := n_outfile st;
             n_is_first_object := n_is_first_object st;
             n_batch := n_batch st;
             n_object_count := n_object_count st;
             n_log := n_log st ++ [(ERROR, ErrorDecodingLine line_num);
                                   (ERROR, ProblematicLine (strip line))];
             n_written := n_written st |}
      end
  end.

Fixpoint ndjson_loop (batch_size : Z) (st : ndjson_state) (line_num : Z)
         (infile : list str) : ndjson_state :=
  match infile with
  | [] => st
  | line :: rest =>
      ndjson_loop batch_size (ndjson_step batch_size st line_num line)
                  (line_num + 1) rest
  end.

(** The body of [convert_ndjson_to_json] on the lines of the input
    file. *)
Definition convert_ndjson_lines (infile : list str) (batch_size : Z)
  : result :=
  let st0 :=
    {| n_outfile := [ch "["; LF];
       n_is_first_object := true;
       n_batch := [];
       n_object_count := 0;
       n_log := [(INFO, StartingNdjsonToJson);
                 (DEBUG, Parameters batch_size)];
       n_written := [] |} in
  let st := ndjson_loop batch_size st0 1 infile in
  let st' :=
    match n_batch st with
    | [] => st
    | _ :: _ =>
        {| n_outfile :=
             write_batch (n_outfile st) (n_batch st) (n_is_first_object st);
           n_is_first_object := n_is_first_object st;
           n_batch := n_batch st;
           n_object_count := n_object_count st + len (n_batch st);
           n_log := n_log st
                      ++ [(DEBUG, WritingFinalBatch (len (n_batch st)))];
           n_written := n_written st ++ [n_batch st] |}
    end in
  {| outfile := n_outfile st' ++ [LF; ch "]"];
     log := n_log st' ++ [(INFO, ConversionComplete (n_object_count st'))];
     written := n_written st' |}.

(** [convert_ndjson_to_json(input_file_path, output_file_path,
    batch_size)] for an input file with content [data]. *)
Definition convert_ndjson_to_json (data : str) (batch_size : Z) : result :=
  convert_ndjson_lines (File.lines data) batch_size.

(** [for item in batch: json.dump(item, outfile, cls=DecimalEncoder);
    outfile.write('\n')]. *)
Definition dump_batch (outfile : str) (batch : list pyobj) : str :=
  fold_left (fun out item => out ++ dumps item ++ [LF]) batch outfile.

(** The variables of the loop of [convert_json_to_ndjson]. *)
Record json_state := {
  j_outfile : str;
  j_batch : list pyobj;
  j_object_count : Z;
  j_log : list record;
  j_written : list (list pyobj)
}.

(** One iteration of [for obj in ijson.items(...)]. *)
Definition json_step (batch_size : Z) (st : json_state) (obj : pyobj)
  : json_state :=
  let batch := j_batch st ++ [obj] in
  if len batch >=? batch_size then
    {| j_outfile := dump_batch (j_outfile st) batch;
       j_batch := [];
       j_object_count := j_object_count st + len batch;
       j_log := j_log st ++ [(DEBUG, WritingBatch (len batch))];
       j_written := j_written st ++ [batch] |}
  else
    {| j_outfile := j_outfile st;
       j_batch := batch;
       j_object_count := j_object_count st;
       j_log := j_log st;
       j_written := j_written st |}.

(** The body of [convert_json_to_ndjson] on the generator of the
    items.  When the generator raises, the [except ijson.JSONError]
    clause logs the error and returns; the batch in memory is lost. *)
Definition convert_items (items : generator) (batch_size : Z) : result :=
  let st0 :=
    {| j_outfile := [];
       j_batch := [];
       j_object_count := 0;
       j_log := [(INFO, StartingJsonToNdjson);
                 (DEBUG, Parameters batch_size)];
       j_written := [] |} in
  let st := fold_left (json_step batch_size) (yields items) st0 in
  match raises items with
  | Some _ =>
      {| outfile := j_outfile st;
         log := j_log st ++ [(ERROR, ErrorParsingJson)];
         written := j_written st |}
  | None =>
      let st' :=
        match j_batch st with
        | [] => st
        | _ :: _ =>
            {| j_outfile := dump_batch (j_outfile st) (j_batch st);
               j_batch := j_batch st;
               j_object_count := j_object_count st + len (j_batch st);
               j_log := j_log st
                          ++ [(DEBUG, WritingFinalBatch (len (j_batch st)))];
               j_written := j_written st ++ [j_batch st] |}
        end in
      {| outfile := j_outfile st';
         log := j_log st'
                  ++ [(INFO, ConversionComplete (j_object_count st'))];
         written := j_written st' |}
  end.

(** [convert_json_to_ndjson(input_file_path, output_file_path,
    batch_size)] for an input file with content [data]. *)
Definition convert_json_to_ndjson (data : str) (batch_size : Z) : result :=
  convert_items (Ijson.items true data) batch_size.

(** The command line: the conversion, the content of the input file
    and the value of [--batch-size] ([type=int, default=1000]) when it
    is given. *)
Inductive conversion_type := json_to_ndjson | ndjson_to_json.

Record args := {
  arg_conversion_type : conversion_type;
  arg_input : str;
  arg_batch_size : option Z
}.

Definition default_batch_size : Z := 1000.

(** The [__main__] block after argument parsing. *)
Definition main (a : args) : result :=
  let batch_size :=
    match arg_batch_size a with
    | Some b => b
    | None => default_batch_size
    end in
  match arg_conversion_type a with
  | json_to_ndjson => convert_json_to_ndjson (arg_input a) batch_size
  | ndjson_to_json => convert_ndjson_to_json (arg_input a) batch_size
  end.

End ConvertJsonNdjson.

(* ===================================================================== *)
(** * flatten_json.py *)
(* ===================================================================== *)

Module FlattenJson.
Import Text.

Inductive mode := JsonArray | Ndjson.

(** The messages of the script, with the values they interpolate. *)
Inductive message :=
| Detected (m : mode)
| SkippingItem (i : Z)
| SuccessfullyFlattened
| ErrorDuringFlattening (e : exception)
| ConvertingToFormats
| SuccessfullyConverted
| ErrorDuringConversion (e : exception).

Definition record := (level * message)%type.

(** [DecimalEncoder.default] of this script, the same as the one of
    [convert_json_ndjson.py]: [str(obj)] for a [Decimal]. *)
Definition DecimalEncoder_default (obj : PyDecimal.decimal) : str :=
  PyDecimal.to_str obj.

(** [decimal_object_hook]: every float value of the object is
    replaced by [Decimal(str(value))]; the other values stay.  [None]
    stands for the [InvalidOperation] of the [Decimal] constructor. *)
Fixpoint decimal_object_hook (obj : pydict) : option pyobj :=
  match obj with
  | [] => Some (PyDict [])
  | (key, value) :: rest =>
      match
        match value with
        | PyFloat f =>
            match PyDecimal.of_str (Float64.repr f) with
            | Some d => Some (PyDecimal d)
            | None => None
            end
        | _ => Some value
        end,
        decimal_object_hook rest
      with
      | Some value', Some (PyDict rest') => Some (PyDict ((key, value') :: rest'))
      | _, _ => None
      end
  end.

(** What [_write_to_csv] leaves behind: the content of the CSV file,
    the log, and the exception that ended it, if one did. *)
Record csv_result := {
  csv_file : str;
  csv_log : list record;
  csv_raised : option exception
}.

(** The variables of the loop of [_write_to_csv]; [writer] holds the
    field names of the [DictWriter] once it exists. *)
Record csv_state := {
  c_file : str;
  c_writer : option (list str);
  c_header_written : bool;
  c_log : list record
}.

(** [{k: str(v) if isinstance(v, Decimal) else v for k, v in
    item.items()}]. *)
Definition stringify_decimals (item : pydict) : pydict :=
  map (fun kv => (fst kv,
                  match snd kv with
                  | PyDecimal d => PyStr (PyDecimal.to_str d)
                  | v => v
                  end)) item.

(** One iteration of [for i, item in enumerate(items)]: the new state,
    or the exception of [writer.writerow] with the state it leaves. *)
Definition csv_step (st : csv_state) (i : Z) (item : pyobj)
  : csv_state * option exception :=
  match item with
  | PyDict d =>
      let st1 :=
        if c_header_written st then st
        else
          let headers := Dict.keys d in
          {| c_file := c_file st ++ Csv.writeheader headers;
             c_writer := Some headers;
             c_header_written := true;
             c_log := c_log st |} in
      let row := stringify_decimals d in
      match c_writer st1 with
      | Some fieldnames =>
          match Csv.dict_writerow fieldnames row with
          | inr text =>
              ({| c_file := c_file st1 ++ text;
                  c_writer := c_writer st1;
                  c_header_written := c_header_written st1;
                  c_log := c_log st1 |}, None)
          | inl e => (st1, Some e)
          end
      | None => (st1, Some AttributeError)
      end
  | _ =>
      ({| c_file := c_file st;
          c_writer := c_writer st;
          c_header_written := c_header_written st;
          c_log := c_log st ++ [(WARNING, SkippingItem i)] |}, None)
  end.

Fixpoint csv_loop (st : csv_state) (i : Z) (items : list pyobj)
  : csv_state * option exception :=
  match items with
  | [] => (st, None)
  | item :: rest =>
      match csv_step st i item with
      | (st', None) => csv_loop st' (i + 1) rest
      | (st', Some e) => (st', Some e)
      end
  end.

(** [_write_to_csv(items, csv_file_path)]. *)
Definition _write_to_csv (items : generator) : csv_result :=
  let st0 := {| c_file := []; c_writer := None;
                c_header_written := false; c_log := [] |} in
  match csv_loop st0 0 (yields items) with
  | (st, Some e) =>
      {| csv_file := c_file st; csv_log := c_log st; csv_raised := Some e |}
  | (st, None) =>
      {| csv_file := c_file st; csv_log := c_log st;
         csv_raised := raises items |}
  end.

(** The generator [(json.loads(line, object_hook=decimal_object_hook)
    for line in json_file)]: it ends with the first line that does not
    decode. *)
Fixpoint ndjson_items (json_file : list str) : generator :=
  match json_file with
  | [] => {| yields := []; raises := None |}
  | line :: rest =>
      match Json.loads_hook decimal_object_hook line with
      | Some v =>
          let g := ndjson_items rest in
          {| yields := v :: yields g; raises := raises g |}
      | None => {| yields := []; raises := Some JSONDecodeError |}
      end
  end.

(** The format test of [flatten_json_stream]: [first_char == '[']. *)
Definition detect (data : str) : mode :=
  if str_eqb (File.read1 data) [ch "["] then JsonArray else Ndjson.

(** What [flatten_json_stream] leaves behind. *)
Record flatten_result := {
  csv : str;
  log : list record
}.

(** [flatten_json_stream(json_file_path, csv_file_path)] for an input
    file with content [data]. *)
Definition flatten_json_stream (data : str) : flatten_result :=
  let m := detect data in
  let items :=
    match m with
    | JsonArray => Ijson.items false data
    | Ndjson => ndjson_items (File.lines data)
    end in
  let r := _write_to_csv items in
  {| csv := csv_file r;
     log := (INFO, Detected m) :: csv_log r
              ++ [match csv_raised r with
                  | None => (INFO, SuccessfullyFlattened)
                  | Some e => (ERROR, ErrorDuringFlattening e)
                  end] |}.

(** ** The Avro schema *)

(** A value of an Avro type given as a [dict]. *)
Inductive avro_value :=
| AvStr (s : str)
| AvInt (z : Z).

(** An Avro type of the schema: a name, or a [dict] of attributes. *)
Inductive avro :=
| AvroName (name : str)
| AvroDict (attrs : list (str * avro_value)).

(** A field [{"name": ..., "type": [...]}] of the schema; its type is
    the union list. *)
Record field := {
  field_name : str;
  field_type : list avro
}.

Definition type_mapping : list (str * avro) :=
  [ (py "VARCHAR", AvroName (py "string"));
    (py "BIGINT", AvroName (py "long"));
    (py "DOUBLE", AvroName (py "double"));
    (py "BOOLEAN", AvroName (py "boolean"));
    (py "DATE", AvroDict [(py "type", AvStr (py "int"));
                          (py "logicalType", AvStr (py "date"))]);
    (py "DECIMAL", AvroDict [(py "type", AvStr (py "bytes"));
                             (py "logicalType", AvStr (py "decimal"))]) ].

(** The loop of [infer_avro_schema_from_duckdb] over the rows of
    [DESCRIBE] (column name and column type).  The type object of a
    [DECIMAL] column is the one held by the mapping: setting its
    precision and scale changes the mapping, which is threaded through
    the loop.  The assignment to an item of a [str] is a
    [TypeError]. *)
Fixpoint infer_fields (mapping : list (str * avro))
         (description : list (str * str)) : exception + list field :=
  match description with
  | [] => inr []
  | (col_name, col_type) :: rest =>
      let key := before_first (ch "(") col_type in
      let avro_type :=
        match Dict.get mapping key with
        | Some t => t
        | None => AvroName (py "string")
        end in
      let step (mapping' : list (str * avro)) (t : avro) :=
        match infer_fields mapping' rest with
        | inr fields =>
            inr ({| field_name := col_name;
                    field_type := [AvroName (py "null"); t] |} :: fields)
        | inl e => inl e
        end in
      if startswith col_type (py "DECIMAL") then
        match avro_type with
        | AvroDict attrs =>
            let t := AvroDict (Dict.set (Dict.set attrs (py "precision")
                                                  (AvInt 18))
                                        (py "scale") (AvInt 2)) in
            step (match Dict.get mapping key with
                  | Some _ => Dict.set mapping key t
                  | None => mapping
                  end) t
        | AvroName _ => inl TypeError
        end
      else step mapping avro_type
  end.

(** [infer_avro_schema_from_duckdb(con, table_name)], on the rows the
    engine returns for [DESCRIBE]: the fields of the record schema
    [InferredSchema]. *)
Definition infer_avro_schema_from_duckdb (description : list (str * str))
  : exception + list field :=
  infer_fields type_mapping description.

Definition is_decimal_type (t : avro) : bool :=
  match t with
  | AvroDict attrs =>
      match Dict.get attrs (py "logicalType") with
      | Some (AvStr s) => str_eqb s (py "decimal")
      | _ => false
      end
  | AvroName _ => false
  end.

(** [if isinstance(field["type"][1], dict) and
    field["type"][1].get("logicalType") == "decimal":
    field["type"][1] = "string"]. *)
Definition demote (f : field) : field :=
  match field_type f with
  | t0 :: t1 :: ts =>
      if is_decimal_type t1 then
        {| field_name := field_name f;
           field_type := t0 :: AvroName (py "string") :: ts |}
      else f
  | _ => f
  end.

(** What [convert_ndjson_to_formats] hands to the Avro writer: the
    schema given to [parse_schema] and the records. *)
Record avro_job := {
  schema_fields : list field;
  avro_records : list pydict
}.

(** The Avro part of [convert_ndjson_to_formats], on what the engine
    returns: the rows of [DESCRIBE] and the records of the table. *)
Definition convert_ndjson_to_formats (description : list (str * str))
           (records : list pydict) : exception + avro_job :=
  match infer_avro_schema_from_duckdb description with
  | inl e => inl e
  | inr fields =>
      inr {| schema_fields := map demote fields;
             avro_records := map stringify_decimals records |}
  end.

End FlattenJson.

(* ===================================================================== *)
(** * Properties of the scripts *)
(* ===================================================================== *)

(** ** Batching *)

(** [len(l)]. *)
Definition blen {A : Type} (l : list A) : Z := Z.of_nat (List.length l).

Lemma blen_app {A : Type} (l l' : list A) : blen (l ++ l') = blen l + blen l'.
Proof. unfold blen. rewrite length_app. lia. Qed.

Lemma blen_nonneg {A : Type} (l : list A) : 0 <= blen l.
Proof. unfold blen. lia. Qed.

Lemma blen_nil_iff {A : Type} (l : list A) : blen l = 0 <-> l = [].
Proof.
  unfold blen. destruct l; simpl; split; intros; try reflexivity; try lia.
  discriminate.
Qed.

Section Batching.
Context {A : Type}.

(** The two loops of [convert_json_ndjson.py] share their batching: an
    object is appended to the batch, and a batch that has reached the
    batch size is written and emptied. *)
Definition push (B : Z) (acc : list (list A) * list A) (x : A)
  : list (list A) * list A :=
  let batch := snd acc ++ [x] in
  if blen batch >=? B then (fst acc ++ [batch], []) else (fst acc, batch).

(** The batches written once the input is exhausted. *)
Definition flush (acc : list (list A) * list A) : list (list A) :=
  match snd acc with
  | [] => fst acc
  | _ :: _ => fst acc ++ [snd acc]
  end.



(** The invariant of the batching: the written batches are full, the
    batch in memory is not, and together they are the objects pushed so
    far, in order. *)
Definition batching (B : Z) (xs : list A) (acc : list (list A) * list A)
  : Prop :=
  concat (fst acc) ++ snd acc = xs
  /\ Forall (fun b => blen b = B) (fst acc)
  /\ blen (snd acc) < B.

Lemma push_batching (B : Z) xs acc x :
  batching B xs acc -> batching B (xs ++ [x]) (push B acc x).
Proof.
  destruct acc as [W cur]. intros (Hc & Hf & Hl). unfold push.
  cbn [fst snd] in *.
  pose proof (blen_app cur [x]) as H. change (blen [x]) with 1 in H.
  pose proof (blen_nonneg cur) as Hcur.
  destruct (Z.geb_spec (blen (cur ++ [x])) B); unfold batching; cbn [fst snd].
  - split; [|split].
    + rewrite concat_app. cbn [concat]. rewrite !app_nil_r.
      rewrite app_assoc, Hc. reflexivity.
    + apply Forall_app. split; [assumption|]. constructor; [lia|constructor].
    + change (blen []) with 0. lia.
  - split; [|split].
    + rewrite app_assoc, Hc. reflexivity.
    + assumption.
    + lia.
Qed.

Lemma fold_push_batching (B : Z) xs : forall pre acc,
  batching B pre acc -> batching B (pre ++ xs) (fold_left (push B) xs acc).
Proof.
  induction xs as [|x xs IH]; intros pre acc H; simpl.
  - rewrite app_nil_r. assumption.
  - replace (pre ++ x :: xs) with ((pre ++ [x]) ++ xs)
      by (rewrite <- app_assoc; reflexivity).
    apply IH, push_batching, H.
Qed.

Lemma batching_start (B : Z) : 0 < B -> batching B [] ([], []).
Proof.
  intros HB. split; [reflexivity|]. split; [constructor|].
  change (blen []) with 0. assumption.
Qed.





(** Whatever the batch size, the written batches are never empty and
    the batches, with the one in memory, are the objects pushed. *)
Lemma fold_push_concat (B : Z) xs : forall acc,
  let acc' := fold_left (push B) xs acc in
  concat (fst acc') ++ snd acc' = (concat (fst acc) ++ snd acc) ++ xs
  /\ (Forall (fun b => b <> []) (fst acc) ->
      Forall (fun b => b <> []) (fst acc')).
Proof.
  induction xs as [|x xs IH]; intros acc; simpl.
  - rewrite app_nil_r. auto.
  - destruct (IH (push B acc x)) as [H1 H2]. split.
    + rewrite H1. unfold push.
      destruct (blen (snd acc ++ [x]) >=? B); simpl.
      * rewrite concat_app; simpl. rewrite !app_nil_r, <- !app_assoc.
        reflexivity.
      * rewrite <- !app_assoc. reflexivity.
    + intros H. apply H2. unfold push.
      destruct (blen (snd acc ++ [x]) >=? B); simpl; [|assumption].
      apply Forall_app. split; [assumption|]. constructor; [|constructor].
      destruct (snd acc); discriminate.
Qed.

End Batching.

(** ** Joining *)

Lemma join_cons (sep : Text.str) (p : Text.str) (ps : list Text.str) :
  ps <> [] -> Text.join sep (p :: ps) = p ++ sep ++ Text.join sep ps.
Proof. destruct ps; [congruence|reflexivity]. Qed.

Lemma join_app (sep : Text.str) (xs ys : list Text.str) :
  xs <> [] -> ys <> [] ->
  Text.join sep (xs ++ ys) = Text.join sep xs ++ sep ++ Text.join sep ys.
Proof.
  intros Hx Hy. induction xs as [|x xs IH]; [congruence|].
  destruct xs as [|x' xs].
  - simpl app. rewrite join_cons by assumption. reflexivity.
  - change ((x :: x' :: xs) ++ ys) with (x :: (x' :: xs) ++ ys).
    rewrite join_cons by (simpl; discriminate).
    rewrite IH by discriminate.
    rewrite (join_cons sep x (x' :: xs)) by discriminate.
    rewrite <- !app_assoc. reflexivity.
Qed.

Lemma concat_nonempty {A : Type} (W : list (list A)) :
  Forall (fun b => b <> []) W -> W <> [] -> concat W <> [].
Proof.
  intros H HW. destruct H as [|b W Hb _]; [congruence|].
  simpl. destruct b; [congruence|discriminate].
Qed.

(** ** The loops of convert_json_ndjson.py *)

Module ConvertFacts.
Import Text ConvertJsonNdjson.

(** What the loop of [convert_ndjson_to_json] makes of a line. *)
Inductive line_kind :=
| Blank
| Decoded (obj : pyobj)
| Malformed.

Definition classify (line : str) : line_kind :=
  match strip line with
  | [] => Blank
  | _ :: _ =>
      match Json.loads line with
      | Some obj => Decoded obj
      | None => Malformed
      end
  end.

(** The objects of the lines that decode, in the order of the lines. *)
Definition records_of (lines : list str) : list pyobj :=
  flat_map (fun line => match classify line with
                        | Decoded obj => [obj]
                        | _ => []
                        end) lines.

(** The error records the loop logs: two for each line that does not
    decode, with the number of the line. *)
Fixpoint decode_errors (line_num : Z) (lines : list str) : list record :=
  match lines with
  | [] => []
  | line :: rest =>
      match classify line with
      | Malformed => [(ERROR, ErrorDecodingLine line_num);
                      (ERROR, ProblematicLine (strip line))]
      | _ => []
      end ++ decode_errors (line_num + 1) rest
  end.

(** The records for the blank lines. *)
Fixpoint skipped_lines (line_num : Z) (lines : list str) : list record :=
  match lines with
  | [] => []
  | line :: rest =>
      match classify line with
      | Blank => [(DEBUG, SkippingEmptyLine line_num)]
      | _ => []
      end ++ skipped_lines (line_num + 1) rest
  end.

(** The records the loop logs for the lines themselves. *)
Fixpoint line_records (line_num : Z) (lines : list str) : list record :=
  match lines with
  | [] => []
  | line :: rest =>
      match classify line with
      | Blank => [(DEBUG, SkippingEmptyLine line_num)]
      | Malformed => [(ERROR, ErrorDecodingLine line_num);
                      (ERROR, ProblematicLine (strip line))]
      | Decoded _ => []
      end ++ line_records (line_num + 1) rest
  end.

Definition is_error (r : record) : bool :=
  match fst r with
  | ERROR | CRITICAL => true
  | _ => false
  end.

Definition is_skip (r : record) : bool :=
  match snd r with
  | SkippingEmptyLine _ => true
  | _ => false
  end.

(** One object of the array, as [write_batch] lays it out. *)
Definition item_text (obj : pyobj) : str := py "    " ++ dumps obj.

Definition item_sep : str := [ch ","; LF].

(** The array text of a sequence of objects. *)
Definition array_text (objs : list pyobj) : str :=
  [ch "["; LF] ++ join item_sep (map item_text objs) ++ [LF; ch "]"].

(** The invariant of the loop that does not depend on the batch size. *)
Definition consistent (st : ndjson_state) : Prop :=
  n_outfile st
  = [ch "["; LF] ++ join item_sep (map item_text (concat (n_written st)))
  /\ n_is_first_object st
     = match n_written st with [] => true | _ :: _ => false end
  /\ n_object_count st = blen (concat (n_written st))
  /\ Forall (fun b => b <> []) (n_written st).

Definition batches_of (st : ndjson_state) : list (list pyobj) * list pyobj :=
  (n_written st, n_batch st).

Lemma write_batch_consistent (st : ndjson_state) (batch : list pyobj) :
  consistent st -> batch <> [] ->
  write_batch (n_outfile st) batch (n_is_first_object st)
  = [ch "["; LF]
      ++ join item_sep (map item_text (concat (n_written st ++ [batch]))).
Proof.
  intros (Hout & Hfirst & _ & Hne) Hb.
  unfold write_batch. destruct batch as [|b batch]; [congruence|].
  rewrite concat_app. cbn [concat]. rewrite app_nil_r.
  rewrite Hout, Hfirst.
  fold (item_text). change [ch ","; LF] with item_sep.
  destruct (n_written st) as [|w W] eqn:HW.
  - reflexivity.
  - cbn [negb]. rewrite map_app.
    rewrite join_app.
    + rewrite <- !app_assoc. reflexivity.
    + intros H. apply map_eq_nil in H.
      revert H. apply concat_nonempty; [assumption|discriminate].
    + discriminate.
Qed.

Lemma ndjson_step_spec (B : Z) (st : ndjson_state) (k : Z) (line : str) :
  let st' := ndjson_step B st k line in
  batches_of st'
  = match classify line with
    | Decoded obj => push B (batches_of st) obj
    | _ => batches_of st
    end
  /\ (consistent st -> consistent st')
  /\ (forall P : record -> bool,
         P (DEBUG, WritingBatch (len (n_batch st ++ records_of [line])))
         = false ->
         filter P (n_log st')
         = filter P (n_log st) ++ filter P (line_records k [line])).
Proof.
  unfold ndjson_step, classify, records_of, batches_of.
  cbn [flat_map line_records]. unfold classify.
  destruct (strip line) as [|c s] eqn:Hs.
  - cbn. split; [reflexivity|]. split; [auto|].
    intros P _. rewrite filter_app. reflexivity.
  - destruct (Json.loads line) as [obj|] eqn:Hl.
    + unfold push. cbn [fst snd]. change (@blen pyobj) with len.
      rewrite !app_nil_r.
      destruct (len (n_batch st ++ [obj]) >=? B) eqn:Hge; cbn.
      * split; [reflexivity|]. split.
        -- intros Hc. pose proof Hc as (Hout & Hfirst & Hcnt & Hne).
           unfold consistent; cbn.
           split; [apply write_batch_consistent;
                   [assumption|destruct (n_batch st); discriminate]|].
           split; [destruct (n_written st); reflexivity|].
           split.
           ++ rewrite Hcnt, concat_app. cbn [concat].
              rewrite app_nil_r, blen_app. reflexivity.
           ++ apply Forall_app. split; [assumption|].
              constructor; [destruct (n_batch st); discriminate|constructor].
        -- intros P HP. rewrite filter_app. cbn [filter]. rewrite HP.
           rewrite !app_nil_r. reflexivity.
      * split; [reflexivity|]. split; [auto|].
        intros P _. rewrite app_nil_r. reflexivity.
    + cbn. split; [reflexivity|]. split; [auto|].
      intros P _. rewrite filter_app. reflexivity.
Qed.

Lemma ndjson_loop_spec (B : Z) (lines : list str) :
  forall (st : ndjson_state) (k : Z),
  let st' := ndjson_loop B st k lines in
  batches_of st' = fold_left (push B) (records_of lines) (batches_of st)
  /\ (consistent st -> consistent st')
  /\ (forall P : record -> bool,
         (forall n, P (DEBUG, WritingBatch n) = false) ->
         filter P (n_log st')
         = filter P (n_log st) ++ filter P (line_records k lines)).
Proof.
  induction lines as [|line lines IH]; intros st k; cbn zeta.
  - cbn. split; [reflexivity|]. split; [auto|]. intros P _.
    rewrite app_nil_r. reflexivity.
  - cbn [ndjson_loop].
    destruct (ndjson_step_spec B st k line) as (Hb & Hc & Hlog).
    destruct (IH (ndjson_step B st k line) (k + 1)) as (Hb' & Hc' & Hlog').
    split; [|split].
    + rewrite Hb', Hb. unfold records_of. cbn [flat_map].
      rewrite fold_left_app.
      destruct (classify line); reflexivity.
    + auto.
    + intros P HP. rewrite (Hlog' P HP), (Hlog P (HP _)).
      cbn [line_records].
      rewrite !filter_app, !app_nil_r, <- !app_assoc. reflexivity.
Qed.

Lemma errors_of_line_records (k : Z) (lines : list str) :
  filter is_error (line_records k lines) = decode_errors k lines.
Proof.
  revert k; induction lines as [|line lines IH]; intros k; cbn.
  - reflexivity.
  - rewrite filter_app, IH. destruct (classify line); reflexivity.
Qed.

Lemma skips_of_line_records (k : Z) (lines : list str) :
  filter is_skip (line_records k lines) = skipped_lines k lines.
Proof.
  revert k; induction lines as [|line lines IH]; intros k; cbn.
  - reflexivity.
  - rewrite filter_app, IH. destruct (classify line); reflexivity.
Qed.

Lemma concat_flush {A : Type} (acc : list (list A) * list A) :
  concat (flush acc) = concat (fst acc) ++ snd acc.
Proof.
  destruct acc as [W [|c cur]]; unfold flush; cbn [fst snd].
  - rewrite app_nil_r. reflexivity.
  - rewrite concat_app. cbn [concat]. rewrite app_nil_r. reflexivity.
Qed.

(** What a run of [convert_ndjson_to_json] leaves, for any lines and
    any batch size. *)
Lemma convert_ndjson_lines_spec (lines : list str) (B : Z) :
  let r := convert_ndjson_lines lines B in
  let recs := records_of lines in
  written r = flush (fold_left (push B) recs ([], []))
  /\ concat (written r) = recs
  /\ outfile r = array_text recs
  /\ log r
     = removelast (log r) ++ [(INFO, ConversionComplete (blen recs))]
  /\ filter is_error (log r) = decode_errors 1 lines
  /\ filter is_skip (log r) = skipped_lines 1 lines.
Proof.
  cbn zeta. unfold convert_ndjson_lines.
  set (st0 := {| n_outfile := [ch "["; LF]; n_is_first_object := true;
                 n_batch := []; n_object_count := 0;
                 n_log := [(INFO, StartingNdjsonToJson);
                           (DEBUG, Parameters B)];
                 n_written := [] |}).
  destruct (ndjson_loop_spec B lines st0 1) as (Hb & Hc & Hlog).
  set (st := ndjson_loop B st0 1 lines) in *.
  assert (Hc0 : consistent st0).
  { unfold consistent, st0; cbn. repeat split. constructor. }
  specialize (Hc Hc0).
  change (batches_of st0) with (@nil (list pyobj), @nil pyobj) in Hb.
  unfold batches_of in Hb.
  destruct (fold_push_concat B (records_of lines) ([], [])) as [Hcat _].
  rewrite <- Hb in Hcat. cbn [fst snd concat app] in Hcat.
  pose proof Hc as (Hout & Hfirst & Hcnt & Hne).
  assert (Herr : filter is_error (n_log st) = decode_errors 1 lines).
  { rewrite (Hlog is_error) by reflexivity.
    rewrite errors_of_line_records. reflexivity. }
  assert (Hskip : filter is_skip (n_log st) = skipped_lines 1 lines).
  { rewrite (Hlog is_skip) by reflexivity.
    rewrite skips_of_line_records. reflexivity. }
  rewrite <- Hb. unfold flush. cbn [fst snd].
  destruct (n_batch st) as [|b batch] eqn:Hbatch; cbn [outfile log written
    n_outfile n_log n_written n_object_count].
  - rewrite app_nil_r in Hcat.
    split; [reflexivity|]. split; [assumption|].
    split; [rewrite Hout, Hcat; unfold array_text;
            rewrite <- app_assoc; reflexivity|].
    split; [rewrite removelast_last, Hcnt, Hcat; reflexivity|].
    split; [rewrite filter_app, Herr; cbn; apply app_nil_r|].
    rewrite filter_app, Hskip; cbn; apply app_nil_r.
  - assert (Hcat' : concat (n_written st ++ [b :: batch]) = records_of lines).
    { rewrite concat_app. cbn [concat]. rewrite app_nil_r. exact Hcat. }
    split; [reflexivity|]. split; [assumption|].
    split.
    { rewrite write_batch_consistent by (assumption || discriminate).
      rewrite Hcat'. unfold array_text. rewrite <- app_assoc. reflexivity. }
    split.
    { rewrite removelast_last, Hcnt. change len with (@blen pyobj).
      rewrite <- blen_app, Hcat. reflexivity. }
    split; [rewrite !filter_app, Herr; cbn; rewrite !app_nil_r; reflexivity|].
    rewrite !filter_app, Hskip; cbn; rewrite !app_nil_r; reflexivity.
Qed.

(** The NDJSON text of a sequence of objects. *)
Definition ndjson_text (objs : list pyobj) : str :=
  concat (map (fun obj => dumps obj ++ [LF]) objs).

Lemma ndjson_text_app (xs ys : list pyobj) :
  ndjson_text (xs ++ ys) = ndjson_text xs ++ ndjson_text ys.
Proof. unfold ndjson_text. rewrite map_app, concat_app. reflexivity. Qed.

Lemma dump_batch_spec (batch : list pyobj) : forall out,
  dump_batch out batch = out ++ ndjson_text batch.
Proof.
  unfold dump_batch.
  induction batch as [|obj batch IH]; intros out; cbn [fold_left].
  - cbn. rewrite app_nil_r. reflexivity.
  - rewrite IH. unfold ndjson_text. cbn [map concat].
    rewrite <- !app_assoc. reflexivity.
Qed.

Definition batch_record (batch : list pyobj) : record :=
  (DEBUG, WritingBatch (len batch)).

Definition start_log (B : Z) : list record :=
  [(INFO, StartingJsonToNdjson); (DEBUG, Parameters B)].

(** The invariant of the loop of [convert_json_to_ndjson]. *)
Definition j_consistent (B : Z) (st : json_state) : Prop :=
  j_outfile st = ndjson_text (concat (j_written st))
  /\ j_object_count st = blen (concat (j_written st))
  /\ j_log st = start_log B ++ map batch_record (j_written st).

Lemma json_step_spec (B : Z) (st : json_state) (obj : pyobj) :
  let st' := json_step B st obj in
  (j_written st', j_batch st') = push B (j_written st, j_batch st) obj
  /\ (j_consistent B st -> j_consistent B st').
Proof.
  unfold json_step, push. cbn [fst snd]. change (@blen pyobj) with len.
  destruct (len (j_batch st ++ [obj]) >=? B);
    cbn [j_outfile j_written j_object_count j_log j_batch].
  - split; [reflexivity|]. intros (Hout & Hcnt & Hlog).
    unfold j_consistent; cbn [j_outfile j_written j_object_count j_log].
    rewrite concat_app. cbn [concat]. rewrite app_nil_r.
    split; [rewrite dump_batch_spec, Hout, <- ndjson_text_app; reflexivity|].
    split; [rewrite Hcnt, blen_app; reflexivity|].
    rewrite Hlog, map_app, <- app_assoc. reflexivity.
  - split; [reflexivity|auto].
Qed.

Lemma json_fold_spec (B : Z) (objs : list pyobj) : forall st,
  let st' := fold_left (json_step B) objs st in
  (j_written st', j_batch st')
  = fold_left (push B) objs (j_written st, j_batch st)
  /\ (j_consistent B st -> j_consistent B st').
Proof.
  induction objs as [|obj objs IH]; intros st; cbn zeta; cbn [fold_left].
  - auto.
  - destruct (json_step_spec B st obj) as [H1 H2].
    destruct (IH (json_step B st obj)) as [H3 H4].
    split; [rewrite H3, H1; reflexivity|auto].
Qed.

(** What a run of [convert_json_to_ndjson] leaves, for any generator
    and any batch size. *)
Lemma convert_items_spec (items : generator) (B : Z) :
  let r := convert_items items B in
  let acc := fold_left (push B) (yields items) ([], []) in
  match raises items with
  | Some _ =>
      written r = fst acc
      /\ outfile r = ndjson_text (concat (fst acc))
      /\ log r = start_log B ++ map batch_record (fst acc)
                   ++ [(ERROR, ErrorParsingJson)]
  | None =>
      written r = flush acc
      /\ concat (written r) = yields items
      /\ outfile r = ndjson_text (yields items)
      /\ log r = removelast (log r)
                   ++ [(INFO, ConversionComplete (blen (yields items)))]
  end.
Proof.
  cbn zeta. unfold convert_items.
  set (st0 := {| j_outfile := []; j_batch := []; j_object_count := 0;
                 j_log := [(INFO, StartingJsonToNdjson);
                           (DEBUG, Parameters B)];
                 j_written := [] |}).
  destruct (json_fold_spec B (yields items) st0) as [Hb Hc].
  set (st := fold_left (json_step B) (yields items) st0) in *.
  assert (Hc0 : j_consistent B st0) by (repeat split).
  specialize (Hc Hc0). destruct Hc as (Hout & Hcnt & Hlog).
  change (j_written st0, j_batch st0) with (@nil (list pyobj), @nil pyobj)
    in Hb.
  destruct (fold_push_concat B (yields items) ([], [])) as [Hcat _].
  rewrite <- Hb in Hcat. cbn [fst snd concat app] in Hcat.
  rewrite <- Hb. cbn [fst snd].
  destruct (raises items).
  - cbn. split; [reflexivity|]. split; [assumption|].
    rewrite Hlog, <- app_assoc. reflexivity.
  - unfold flush. cbn [fst snd].
    destruct (j_batch st) as [|b batch] eqn:Hbatch; cbn [outfile log written
      j_outfile j_log j_written j_object_count].
    + rewrite app_nil_r in Hcat.
      split; [reflexivity|]. split; [assumption|].
      split; [rewrite Hout, Hcat; reflexivity|].
      rewrite removelast_last, Hcnt, Hcat. reflexivity.
    + split; [reflexivity|].
      split; [rewrite concat_app; cbn [concat]; rewrite app_nil_r;
              exact Hcat|].
      split; [rewrite dump_batch_spec, Hout, <- ndjson_text_app, Hcat;
              reflexivity|].
      rewrite removelast_last, Hcnt. change len with (@blen pyobj).
      rewrite <- blen_app, Hcat. reflexivity.
Qed.

End ConvertFacts.

(** ** convert_json_ndjson.py: batches, errors and the batch size *)

Module ConvertClaims.
Import Text ConvertJsonNdjson ConvertFacts.














(** ** The batch size is not validated *)

Lemma geb_max (n B : Z) : 1 <= n -> (n >=? B) = (n >=? Z.max 1 B).
Proof.
  intros Hn. destruct (Z.geb_spec n B); destruct (Z.geb_spec n (Z.max 1 B));
    try reflexivity; lia.
Qed.

Lemma len_snoc (batch : list pyobj) (obj : pyobj) : 1 <= len (batch ++ [obj]).
Proof. unfold len. rewrite length_app. cbn [List.length]. lia. Qed.

Lemma ndjson_step_max (B : Z) st k line :
  ndjson_step B st k line = ndjson_step (Z.max 1 B) st k line.
Proof.
  unfold ndjson_step. destruct (strip line); [reflexivity|].
  destruct (Json.loads line); [|reflexivity].
  rewrite <- geb_max by apply len_snoc. reflexivity.
Qed.

Lemma ndjson_loop_max (B : Z) lines : forall st k,
  ndjson_loop B st k lines = ndjson_loop (Z.max 1 B) st k lines.
Proof.
  induction lines as [|line lines IH]; intros st k; cbn [ndjson_loop].
  - reflexivity.
  - rewrite IH, <- ndjson_step_max. reflexivity.
Qed.

Lemma json_step_max (B : Z) st obj :
  json_step B st obj = json_step (Z.max 1 B) st obj.
Proof.
  unfold json_step. rewrite <- geb_max by apply len_snoc. reflexivity.
Qed.

Lemma json_fold_max (B : Z) objs : forall st,
  fold_left (json_step B) objs st
  = fold_left (json_step (Z.max 1 B)) objs st.
Proof.
  induction objs as [|obj objs IH]; intros st; cbn [fold_left].
  - reflexivity.
  - rewrite IH, <- json_step_max. reflexivity.
Qed.

(** The loops only append to the log: records put in front of it stay
    in front. *)
Definition n_prepend (p : list record) (st : ndjson_state) : ndjson_state :=
  {| n_outfile := n_outfile st;
     n_is_first_object := n_is_first_object st;
     n_batch := n_batch st;
     n_object_count := n_object_count st;
     n_log := p ++ n_log st;
     n_written := n_written st |}.

Lemma ndjson_step_prepend (B : Z) p st k line :
  ndjson_step B (n_prepend p st) k line
  = n_prepend p (ndjson_step B st k line).
Proof.
  unfold ndjson_step, n_prepend. destruct (strip line); cbn.
  - rewrite app_assoc. reflexivity.
  - destruct (Json.loads line); cbn.
    + destruct (len (n_batch st ++ [p0]) >=? B); cbn;
        rewrite ?app_assoc; reflexivity.
    + rewrite app_assoc. reflexivity.
Qed.

Lemma ndjson_loop_prepend (B : Z) p lines : forall st k,
  ndjson_loop B (n_prepend p st) k lines
  = n_prepend p (ndjson_loop B st k lines).
Proof.
  induction lines as [|line lines IH]; intros st k; cbn [ndjson_loop].
  - reflexivity.
  - rewrite ndjson_step_prepend, IH. reflexivity.
Qed.

Definition j_prepend (p : list record) (st : json_state) : json_state :=
  {| j_outfile := j_outfile st;
     j_batch := j_batch st;
     j_object_count := j_object_count st;
     j_log := p ++ j_log st;
     j_written := j_written st |}.

Lemma json_step_prepend (B : Z) p st obj :
  json_step B (j_prepend p st) obj = j_prepend p (json_step B st obj).
Proof.
  unfold json_step, j_prepend. cbn.
  destruct (len (j_batch st ++ [obj]) >=? B); cbn;
    rewrite ?app_assoc; reflexivity.
Qed.

Lemma json_fold_prepend (B : Z) p objs : forall st,
  fold_left (json_step B) objs (j_prepend p st)
  = j_prepend p (fold_left (json_step B) objs st).
Proof.
  induction objs as [|obj objs IH]; intros st; cbn [fold_left].
  - reflexivity.
  - rewrite json_step_prepend, IH. reflexivity.
Qed.

(** The log of a run with the record of the parameters replaced. *)
Definition with_batch_size (B : Z) (l : list record) : list record :=
  match l with
  | start :: _ :: rest => start :: (DEBUG, Parameters B) :: rest
  | _ => l
  end.

Lemma convert_ndjson_lines_max (lines : list str) (B : Z) :
  let r := convert_ndjson_lines lines B in
  let r1 := convert_ndjson_lines lines (Z.max 1 B) in
  outfile r = outfile r1
  /\ written r = written r1
  /\ log r = with_batch_size B (log r1).
Proof.
  cbn zeta. unfold convert_ndjson_lines.
  set (e := {| n_outfile := [ch "["; LF]; n_is_first_object := true;
               n_batch := []; n_object_count := 0; n_log := [];
               n_written := [] |}).
  change {| n_outfile := [ch "["; LF]; n_is_first_object := true;
            n_batch := []; n_object_count := 0;
            n_log := [(INFO, StartingNdjsonToJson); (DEBUG, Parameters B)];
            n_written := [] |}
    with (n_prepend [(INFO, StartingNdjsonToJson); (DEBUG, Parameters B)] e).
  change {| n_outfile := [ch "["; LF]; n_is_first_object := true;
            n_batch := []; n_object_count := 0;
            n_log := [(INFO, StartingNdjsonToJson);
                      (DEBUG, Parameters (Z.max 1 B))];
            n_written := [] |}
    with (n_prepend [(INFO, StartingNdjsonToJson);
                     (DEBUG, Parameters (Z.max 1 B))] e).
  rewrite !ndjson_loop_prepend, (ndjson_loop_max B).
  set (st := ndjson_loop (Z.max 1 B) e 1 lines).
  unfold n_prepend. cbn [n_batch n_outfile n_log n_written n_object_count
                         n_is_first_object].
  destruct (n_batch st); cbn; auto.
Qed.

Lemma convert_items_max (items : generator) (B : Z) :
  let r := convert_items items B in
  let r1 := convert_items items (Z.max 1 B) in
  outfile r = outfile r1
  /\ written r = written r1
  /\ log r = with_batch_size B (log r1).
Proof.
  cbn zeta. unfold convert_items.
  set (e := {| j_outfile := []; j_batch := []; j_object_count := 0;
               j_log := []; j_written := [] |}).
  change {| j_outfile := []; j_batch := []; j_object_count := 0;
            j_log := [(INFO, StartingJsonToNdjson); (DEBUG, Parameters B)];
            j_written := [] |}
    with (j_prepend [(INFO, StartingJsonToNdjson); (DEBUG, Parameters B)] e).
  change {| j_outfile := []; j_batch := []; j_object_count := 0;
            j_log := [(INFO, StartingJsonToNdjson);
                      (DEBUG, Parameters (Z.max 1 B))];
            j_written := [] |}
    with (j_prepend [(INFO, StartingJsonToNdjson);
                     (DEBUG, Parameters (Z.max 1 B))] e).
  rewrite !json_fold_prepend, (json_fold_max B).
  set (st := fold_left (json_step (Z.max 1 B)) (yields items) e).
  unfold j_prepend. cbn [j_batch j_outfile j_log j_written j_object_count].
  destruct (raises items); [cbn; auto|].
  destruct (j_batch st); cbn; auto.
Qed.

Lemma singleton_batches (objs : list pyobj) :
  let acc := fold_left (push 1) objs ([], []) in
  Forall (fun b : list pyobj => blen b = 1) (fst acc) /\ snd acc = [].
Proof.
  intros acc.
  destruct (fold_push_batching 1 objs [] ([], [])) as (_ & Hf & Hl).
  { apply batching_start. lia. }
  fold acc in Hf, Hl. split; [assumption|].
  apply blen_nil_iff. pose proof (blen_nonneg (snd acc)). lia.
Qed.

(** C8, as the code has it.  The batch size is an integer, 1000 when
    the option is not given, and it is not validated: with a batch size
    of zero or less the conversion runs, and it runs as with a batch
    size of one.  The output file and the batches are those of a run
    with batch size one, every batch holds one object, and the log
    differs only in the record that echoes the parameters. *)
Theorem nonpositive_batch_size_runs
        (conversion : conversion_type) (data : str) (b : Z) :
  b <= 0 ->
  let run := fun size =>
    main {| arg_conversion_type := conversion;
            arg_input := data;
            arg_batch_size := size |} in
  outfile (run (Some b)) = outfile (run (Some 1))
  /\ written (run (Some b)) = written (run (Some 1))
  /\ log (run (Some b)) = with_batch_size b (log (run (Some 1)))
  /\ Forall (fun batch => blen batch = 1) (written (run (Some b)))
  /\ run None = run (Some 1000).
Proof.
  intros Hb run. subst run. unfold main.
  cbn [arg_conversion_type arg_input arg_batch_size].
  assert (Hmax : Z.max 1 b = 1) by lia.
  destruct conversion.
  - unfold convert_json_to_ndjson.
    destruct (convert_items_max (Ijson.items true data) b) as (Ho & Hw & Hl).
    rewrite Hmax in Ho, Hw, Hl.
    split; [assumption|]. split; [assumption|]. split; [assumption|].
    split; [|reflexivity].
    rewrite Hw.
    pose proof (convert_items_spec (Ijson.items true data) 1) as H.
    cbn zeta in H.
    destruct (singleton_batches (yields (Ijson.items true data)))
      as [Hf Hnil].
    destruct (raises (Ijson.items true data)).
    + destruct H as (-> & _). assumption.
    + destruct H as (-> & _). unfold flush. rewrite Hnil. assumption.
  - unfold convert_ndjson_to_json.
    destruct (convert_ndjson_lines_max (File.lines data) b) as (Ho & Hw & Hl).
    rewrite Hmax in Ho, Hw, Hl.
    split; [assumption|]. split; [assumption|]. split; [assumption|].
    split; [|reflexivity].
    rewrite Hw.
    destruct (convert_ndjson_lines_spec (File.lines data) 1) as (-> & _).
    destruct (singleton_batches (records_of (File.lines data)))
      as [Hf Hnil].
    unfold flush. rewrite Hnil. assumption.
Qed.

End ConvertClaims.

(** ** Dictionaries *)

Module DictFacts.
Import Text.

Lemma str_eqb_sym (a b : str) : str_eqb a b = str_eqb b a.
Proof.
  destruct (str_eqb a b) eqn:E1, (str_eqb b a) eqn:E2; try reflexivity.
  - apply str_eqb_spec in E1. subst. rewrite str_eqb_refl in E2. discriminate.
  - apply str_eqb_spec in E2. subst. rewrite str_eqb_refl in E1. discriminate.
Qed.

Lemma get_set {V : Type} (d : list (str * V)) (k k' : str) (v : V) :
  Dict.get (Dict.set d k v) k'
  = if str_eqb k k' then Some v else Dict.get d k'.
Proof.
  induction d as [|[k0 v0] d IH]; cbn [Dict.set Dict.get].
  - reflexivity.
  - destruct (str_eqb k0 k) eqn:E; cbn [Dict.get].
    + apply str_eqb_spec in E. subst k0.
      destruct (str_eqb k k'); reflexivity.
    + destruct (str_eqb k0 k') eqn:E'; [|exact IH].
      apply str_eqb_spec in E'. subst k0. rewrite str_eqb_sym, E.
      reflexivity.
Qed.

Lemma get_map {V W : Type} (f : V -> W) (d : list (str * V)) (k : str) :
  Dict.get (map (fun kv => (fst kv, f (snd kv))) d) k
  = option_map f (Dict.get d k).
Proof.
  induction d as [|[k0 v0] d IH]; cbn; [reflexivity|].
  destruct (str_eqb k0 k); [reflexivity|exact IH].
Qed.

Lemma keys_map {V W : Type} (f : V -> W) (d : list (str * V)) :
  Dict.keys (map (fun kv => (fst kv, f (snd kv))) d) = Dict.keys d.
Proof. unfold Dict.keys. rewrite map_map. reflexivity. Qed.

Lemma mem_in (k : str) (ks : list str) : In k ks -> Dict.mem k ks = true.
Proof.
  intros H. unfold Dict.mem. apply existsb_exists. exists k.
  split; [assumption|apply str_eqb_refl].
Qed.

Lemma mem_keys_self (ks : list str) :
  forallb (fun k => Dict.mem k ks) ks = true.
Proof. apply forallb_forall. intros k Hk. apply mem_in, Hk. Qed.

End DictFacts.

(** ** flatten_json.py *)

Module FlattenClaims.
Import Text FlattenJson DictFacts.

Lemma keys_stringify (item : pydict) :
  Dict.keys (stringify_decimals item) = Dict.keys item.
Proof.
  unfold Dict.keys, stringify_decimals. rewrite map_map. reflexivity.
Qed.

Lemma get_stringify_none (item : pydict) (key : str) :
  Dict.get item key = None ->
  Dict.get (stringify_decimals item) key = None.
Proof.
  induction item as [|[k v] item IH]; cbn; [reflexivity|].
  destruct (str_eqb k key); [discriminate|exact IH].
Qed.

Lemma read1_cons (c : char) (s : str) :
  File.read1 (c :: s) = [if (c =? CR)%N then LF else c].
Proof.
  unfold File.read1. cbn [File.translate].
  destruct (c =? CR)%N; reflexivity.
Qed.

Lemma detect_spec (data : str) :
  detect data = JsonArray <-> exists rest, data = ch "[" :: rest.
Proof.
  unfold detect. destruct data as [|c s].
  - cbn. split; [discriminate|]. intros [rest H]. discriminate.
  - rewrite read1_cons. destruct (N.eqb_spec c CR) as [->|Hc].
    + cbn. split; [discriminate|]. intros [rest H]. discriminate.
    + cbn [str_eqb]. rewrite andb_true_r.
      destruct (N.eqb_spec c (ch "[")) as [->|Hb].
      * split; [|reflexivity]. intros _. exists s. reflexivity.
      * split; [discriminate|]. intros [rest H]. congruence.
Qed.

(** C3, as the code has it.  The format test reads the first character
    of the file, white space included: the input is processed as a JSON
    array exactly when that character is an opening bracket, and as
    NDJSON line by line in every other case (an empty file, or any text
    before the bracket). *)
Theorem format_detection (data : str) :
  let r := flatten_json_stream data in
  (detect data = JsonArray <-> exists rest, data = ch "[" :: rest)
  /\ hd_error (log r) = Some (INFO, Detected (detect data))
  /\ csv r = csv_file (_write_to_csv
                         match detect data with
                         | JsonArray => Ijson.items false data
                         | Ndjson => ndjson_items (File.lines data)
                         end).
Proof.
  cbn zeta. split; [apply detect_spec|]. split; reflexivity.
Qed.

(** *** The header of the CSV file *)

(** A record all of whose fields are in the header. *)
Definition conforms (header : list str) (item : pydict) : bool :=
  forallb (fun k => Dict.mem k header) (Dict.keys item).

(** The cell of a record in the column [key]. *)
Definition cell (item : pydict) (key : str) : pyobj :=
  match Dict.get (stringify_decimals item) key with
  | Some v => v
  | None => PyStr []
  end.

(** The row of a record under a header. *)
Definition row_text (header : list str) (item : pydict) : str :=
  Csv.writerow (map (cell item) header).

(** The records up to the first one with a field outside the header. *)
Fixpoint conforming_prefix (header : list str) (items : list pydict)
  : list pydict :=
  match items with
  | [] => []
  | item :: rest =>
      if conforms header item then item :: conforming_prefix header rest
      else []
  end.

Lemma dict_writerow_spec (header : list str) (item : pydict) :
  Csv.dict_writerow header (stringify_decimals item)
  = if conforms header item then inr (row_text header item)
    else inl ValueError.
Proof.
  unfold Csv.dict_writerow, Csv.dict_to_list, conforms, row_text.
  rewrite keys_stringify.
  destruct (forallb _ (Dict.keys item)); reflexivity.
Qed.

Lemma csv_loop_written (header : list str) (items : list pydict) :
  forall (st : csv_state) (i : Z),
  c_header_written st = true ->
  c_writer st = Some header ->
  let '(st', e) := csv_loop st i (map PyDict items) in
  c_file st'
  = c_file st ++ concat (map (row_text header)
                             (conforming_prefix header items))
  /\ c_log st' = c_log st
  /\ e = if forallb (conforms header) items then None else Some ValueError.
Proof.
  induction items as [|item items IH]; intros st i Hh Hw.
  - cbn. rewrite app_nil_r. auto.
  - cbn [map csv_loop]. unfold csv_step. rewrite Hh, Hw.
    rewrite dict_writerow_spec. cbn [conforming_prefix forallb].
    destruct (conforms header item); cbn [andb].
    + set (st1 := {| c_file := c_file st ++ row_text header item;
                     c_writer := Some header;
                     c_header_written := c_header_written st;
                     c_log := c_log st |}).
      specialize (IH st1 (i + 1) Hh eq_refl).
      destruct (csv_loop st1 (i + 1) (map PyDict items)) as [st' e].
      destruct IH as (Hf & Hl & He). cbn [map concat].
      rewrite Hf, Hl, He. subst st1. cbn. rewrite <- app_assoc. auto.
    + cbn. rewrite app_nil_r. auto.
Qed.

(** C2, as the code has it.  The header of the CSV file is the field
    names of the first record, in their order.  A later record all of
    whose fields are in the header is written as one row, with an empty
    cell in the column of a field it does not have.  The first record
    with a field outside the header makes the [DictWriter] raise
    [ValueError]: neither its row nor any later record is written, the
    rows written before stay in the file, and [_write_to_csv] ends with
    that exception. *)
Theorem header_freeze
        (first : pydict) (rest : list pydict) (raised : option exception) :
  let header := Dict.keys first in
  let r := _write_to_csv {| yields := map PyDict (first :: rest);
                            raises := raised |} in
  csv_file r
  = Csv.writeheader header
      ++ concat (map (row_text header)
                     (first :: conforming_prefix header rest))
  /\ csv_raised r
     = (if forallb (conforms header) rest then raised else Some ValueError)
  /\ (forall item key,
         Dict.get item key = None ->
         cell item key = PyStr [] /\ Csv.field_text (cell item key) = []).
Proof.
  cbn zeta. unfold _write_to_csv. cbn [yields raises map csv_loop].
  unfold csv_step. cbn [c_header_written c_writer c_file c_log].
  rewrite dict_writerow_spec.
  assert (Hc : conforms (Dict.keys first) first = true)
    by apply mem_keys_self.
  rewrite Hc.
  set (st1 := {| c_file := ([] ++ Csv.writeheader (Dict.keys first))
                             ++ row_text (Dict.keys first) first;
                 c_writer := Some (Dict.keys first);
                 c_header_written := true;
                 c_log := [] |}).
  pose proof (csv_loop_written (Dict.keys first) rest st1 (0 + 1)
                               eq_refl eq_refl) as H.
  destruct (csv_loop st1 (0 + 1) (map PyDict rest)) as [st' e].
  destruct H as (Hf & Hl & He). split; [|split].
  - assert (Hfile : c_file st'
                    = Csv.writeheader (Dict.keys first)
                        ++ concat (map (row_text (Dict.keys first))
                                       (first :: conforming_prefix
                                                   (Dict.keys first) rest))).
    { rewrite Hf. subst st1. cbn [c_file app map concat].
      rewrite <- app_assoc. reflexivity. }
    destruct e; cbn [csv_file]; exact Hfile.
  - rewrite He. destruct (forallb _ rest); reflexivity.
  - intros item key Hget. unfold cell.
    rewrite (get_stringify_none _ _ Hget). split; reflexivity.
Qed.


(** *** The Avro schema *)

Definition string_union : list avro :=
  [AvroName (py "null"); AvroName (py "string")].

(** Every type the mapping holds under a key that starts with
    [DECIMAL] is the decimal logical type. *)
Definition decimal_keys (mapping : list (str * avro)) : Prop :=
  forall key t,
    Dict.get mapping key = Some t ->
    startswith key (py "DECIMAL") = true ->
    is_decimal_type t = true.

Lemma strip_prefix_before (sep : char) (p : str) : forall s r,
  ~ In sep p ->
  strip_prefix p s = Some r ->
  strip_prefix p (before_first sep s) = Some (before_first sep r).
Proof.
  induction p as [|x p IH]; intros s r Hsep H; cbn [strip_prefix] in *.
  - injection H as <-. reflexivity.
  - destruct s as [|y s]; [discriminate|].
    destruct (N.eqb_spec x y) as [<-|]; [|discriminate].
    cbn [before_first]. destruct (N.eqb_spec x sep) as [->|_].
    + exfalso. apply Hsep. left. reflexivity.
    + cbn [strip_prefix]. rewrite N.eqb_refl. apply IH; [|assumption].
      intros Hin. apply Hsep. right. assumption.
Qed.

Lemma startswith_before_paren (s : str) :
  startswith s (py "DECIMAL") = true ->
  startswith (before_first (ch "(") s) (py "DECIMAL") = true.
Proof.
  unfold startswith.
  destruct (strip_prefix (py "DECIMAL") s) as [r|] eqn:E; [|discriminate].
  intros _. rewrite (strip_prefix_before _ _ _ r); [reflexivity| |exact E].
  intros H. cbv in H. intuition discriminate.
Qed.

Lemma decimal_keys_type_mapping : decimal_keys type_mapping.
Proof.
  intros key t H Hs. unfold type_mapping in H. cbn [Dict.get] in H.
  repeat match type of H with
         | context [str_eqb ?a key] =>
             destruct (str_eqb a key) eqn:E;
             [apply str_eqb_spec in E; subst key; injection H as <-;
              first [reflexivity | vm_compute in Hs; discriminate Hs]
             |clear E]
         end.
  discriminate H.
Qed.

Lemma is_decimal_type_set (attrs : list (str * avro_value)) :
  is_decimal_type
    (AvroDict (Dict.set (Dict.set attrs (py "precision") (AvInt 18))
                        (py "scale") (AvInt 2)))
  = is_decimal_type (AvroDict attrs).
Proof. unfold is_decimal_type. rewrite !get_set. reflexivity. Qed.

Lemma demote_no_decimal (f : field) :
  (exists t, field_type f = [AvroName (py "null"); t]) ->
  Forall (fun t => is_decimal_type t = false) (field_type (demote f)).
Proof.
  intros [t Ht]. unfold demote. rewrite Ht.
  destruct (is_decimal_type t) eqn:E; cbn [field_type].
  - repeat constructor.
  - rewrite Ht. repeat constructor. exact E.
Qed.

Lemma infer_fields_spec (description : list (str * str)) :
  forall mapping fields,
  decimal_keys mapping ->
  infer_fields mapping description = inr fields ->
  map field_name fields = map fst description
  /\ Forall (fun f => exists t, field_type f = [AvroName (py "null"); t])
            fields
  /\ Forall2 (fun col f =>
                startswith (snd col) (py "DECIMAL") = true ->
                exists t, field_type f = [AvroName (py "null"); t]
                          /\ is_decimal_type t = true)
             description fields.
Proof.
  induction description as [|[col_name col_type] description IH];
    intros mapping fields Hm H; cbn [infer_fields] in H.
  - injection H as <-. repeat split; constructor.
  - set (key := before_first (ch "(") col_type) in *.
    destruct (startswith col_type (py "DECIMAL")) eqn:Hdec.
    + destruct (Dict.get mapping key) as [t|] eqn:Hget; [|discriminate].
      destruct t as [name|attrs]; [discriminate|].
      set (t := AvroDict (Dict.set (Dict.set attrs (py "precision")
                                             (AvInt 18))
                                   (py "scale") (AvInt 2))) in *.
      assert (Ht : is_decimal_type t = true).
      { subst t. rewrite is_decimal_type_set.
        apply (Hm key); [assumption|].
        apply startswith_before_paren, Hdec. }
      destruct (infer_fields (Dict.set mapping key t) description)
        as [e|fields'] eqn:Hrest; [discriminate|].
      injection H as <-.
      destruct (IH (Dict.set mapping key t) fields') as (H1 & H2 & H3);
        [|assumption|].
      { intros k' t' Hk' Hs. rewrite get_set in Hk'.
        destruct (str_eqb key k'); [injection Hk' as <-; exact Ht|].
        apply (Hm k'); assumption. }
      cbn [map field_name fst]. rewrite H1.
      split; [reflexivity|]. split.
      * constructor; [exists t; reflexivity|assumption].
      * constructor; [|assumption]. intros _. exists t. auto.
    + destruct (infer_fields mapping description) as [e|fields'] eqn:Hrest;
        [discriminate|].
      injection H as <-.
      destruct (IH mapping fields' Hm Hrest) as (H1 & H2 & H3).
      cbn [map field_name fst]. rewrite H1.
      split; [reflexivity|]. split.
      * constructor; [eexists; reflexivity|assumption].
      * constructor; [|assumption]. cbn [snd]. congruence.
Qed.

Lemma stringify_no_decimal (record : pydict) :
  Forall (fun kv => forall d, snd kv <> PyDecimal d)
         (stringify_decimals record).
Proof.
  unfold stringify_decimals. apply Forall_forall. intros kv Hin.
  apply in_map_iff in Hin. destruct Hin as ([k v] & <- & _).
  cbn [fst snd]. intros d. destruct v; discriminate.
Qed.

Lemma stringify_decimal_text (record : pydict) (k : str)
      (d : PyDecimal.decimal) :
  In (k, PyDecimal d) record ->
  In (k, PyStr (PyDecimal.to_str d)) (stringify_decimals record).
Proof.
  intros Hin. unfold stringify_decimals. apply in_map_iff.
  exists (k, PyDecimal d). split; [reflexivity|assumption].
Qed.

(** C9 (Avro schema demotion).  When the schema is inferred, the
    schema handed to the Avro encoder has one field for each column, in
    order; the field of every column whose engine type starts with
    [DECIMAL] has the type ["null", "string"]; no field of the schema
    keeps the decimal logical type; and in the records handed to the
    encoder every [Decimal] value is replaced by its [str], so none is
    left. *)
Theorem avro_decimal_demotion
        (description : list (str * str)) (records : list pydict)
        (job : avro_job) :
  convert_ndjson_to_formats description records = inr job ->
  map field_name (schema_fields job) = map fst description
  /\ Forall2 (fun col f =>
                startswith (snd col) (py "DECIMAL") = true ->
                field_type f = string_union)
             description (schema_fields job)
  /\ Forall (fun f => Forall (fun t => is_decimal_type t = false)
                             (field_type f))
            (schema_fields job)
  /\ avro_records job = map stringify_decimals records
  /\ Forall (Forall (fun kv => forall d, snd kv <> PyDecimal d))
            (avro_records job)
  /\ (forall record k d,
         In record records -> In (k, PyDecimal d) record ->
         In (k, PyStr (PyDecimal.to_str d)) (stringify_decimals record)).
Proof.
  unfold convert_ndjson_to_formats, infer_avro_schema_from_duckdb.
  destruct (infer_fields type_mapping description) as [e|fields] eqn:Hinf;
    [discriminate|].
  intros [= <-]. cbn [schema_fields avro_records].
  destruct (infer_fields_spec description type_mapping fields
                              decimal_keys_type_mapping Hinf)
    as (H1 & H2 & H3).
  split; [|split; [|split; [|split; [reflexivity|split]]]].
  - rewrite map_map. rewrite <- H1. apply map_ext.
    intros f. unfold demote. destruct (field_type f) as [|t0 [|t1 ts]];
      try reflexivity. destruct (is_decimal_type t1); reflexivity.
  - clear H1 H2 Hinf. induction H3 as [|col f cols fs H _ IH];
      cbn [map]; constructor; [|assumption].
    intros Hd. destruct (H Hd) as (t & Ht & Hdt).
    unfold demote. rewrite Ht, Hdt. reflexivity.
  - apply Forall_forall. intros f Hin. apply in_map_iff in Hin.
    destruct Hin as (f0 & <- & Hin0).
    apply demote_no_decimal. rewrite Forall_forall in H2. apply H2, Hin0.
  - apply Forall_forall. intros r Hin. apply in_map_iff in Hin.
    destruct Hin as (r0 & <- & _). apply stringify_no_decimal.
  - intros record k d _ Hin. apply stringify_decimal_text, Hin.
Qed.

End FlattenClaims.

(** ** Decimal digits *)

Module DigitFacts.
Import Text.

Definition digits (s : str) : Prop := Forall (fun c => is_digit c = true) s.

(** A digit string without a leading zero, or the string [0]. *)
Definition canonical (s : str) : Prop :=
  match s with
  | [] => False
  | [c] => True
  | c :: _ :: _ => c <> ch "0"
  end.

Lemma is_digit_range (c : char) :
  is_digit c = true <-> (48 <= c <= 57)%N.
Proof.
  unfold is_digit. rewrite andb_true_iff, !N.leb_le. reflexivity.
Qed.



Lemma digit_val_char (d : Z) : 0 <= d <= 9 -> digit_val (digit_char d) = d.
Proof. unfold digit_char, digit_val. lia. Qed.

Lemma is_digit_char (d : Z) : 0 <= d <= 9 -> is_digit (digit_char d) = true.
Proof. intros H. apply is_digit_range. unfold digit_char. lia. Qed.

Lemma digits_val_snoc (ds : str) (c : char) :
  digits_val (ds ++ [c]) = 10 * digits_val ds + digit_val c.
Proof. unfold digits_val. rewrite fold_left_app. reflexivity. Qed.




Lemma digits_val_zeros (n : nat) (ds : str) :
  digits_val (repeat (ch "0") n ++ ds) = digits_val ds.
Proof.
  induction n as [|n IH]; [reflexivity|].
  cbn [repeat app]. unfold digits_val in *. cbn [fold_left].
  exact IH.
Qed.



(** [digits_fuel] with enough fuel. *)
Lemma digits_fuel_spec (fuel : nat) : forall z acc,
  (1 <= fuel)%nat ->
  0 <= z < 2 ^ Z.of_nat fuel ->
  exists ds,
    digits_fuel fuel z acc = ds ++ acc
    /\ digits ds /\ canonical ds /\ digits_val ds = z.
Proof.
  induction fuel as [|fuel IH]; intros z acc Hf Hz.
  - lia.
  - cbn [digits_fuel]. destruct (Z.ltb_spec z 10) as [Hlt|Hge].
    + exists [digit_char z]. split; [reflexivity|].
      split; [constructor; [apply is_digit_char; lia|constructor]|].
      split; [exact I|].
      unfold digits_val. cbn [fold_left]. rewrite digit_val_char; lia.
    + rewrite Nat2Z.inj_succ, Z.pow_succ_r in Hz by lia.
      destruct (IH (z / 10) (digit_char (z mod 10) :: acc)) as
        (ds & Hds & Hdig & Hcan & Hval).
      { destruct fuel; [cbn in Hz; lia|lia]. }
      { split; [apply Z.div_pos; lia|].
        apply Z.div_lt_upper_bound; lia. }
      exists (ds ++ [digit_char (z mod 10)]).
      pose proof (Z.mod_pos_bound z 10 ltac:(lia)) as Hm.
      split; [rewrite Hds, <- app_assoc; reflexivity|].
      split; [apply Forall_app; split; [assumption|];
              constructor; [apply is_digit_char; lia|constructor]|].
      split.
      * destruct ds as [|c [|c' ds]]; [contradiction| |exact Hcan].
        cbn [app canonical]. intros ->.
        unfold digits_val in Hval. cbn in Hval.
        assert (1 <= z / 10) by (apply Z.div_le_lower_bound; lia). lia.
      * rewrite digits_val_snoc, Hval, digit_val_char by lia.
        rewrite (Z.div_mod z 10) at 3 by lia. reflexivity.
Qed.

Lemma nat_digits_spec (z : Z) :
  0 <= z ->
  digits (nat_digits z) /\ canonical (nat_digits z)
  /\ digits_val (nat_digits z) = z.
Proof.
  intros Hz. unfold nat_digits.
  destruct (digits_fuel_spec (S (Z.to_nat (Z.log2 z))) z []) as
    (ds & Hds & H).
  - lia.
  - split; [assumption|]. rewrite Nat2Z.inj_succ, Z2Nat.id
      by apply Z.log2_nonneg.
    destruct (Z.eq_dec z 0) as [->|Hnz]; [cbn; lia|].
    apply Z.log2_spec. lia.
  - rewrite Hds, app_nil_r. exact H.
Qed.




(** The visible ASCII characters are not white space. *)
Lemma isspace_graphic (c : char) :
  (33 <= c <= 126)%N -> isspace c = false.
Proof.
  intros Hc. unfold isspace.
  repeat match goal with
         | |- context [(?a <=? ?b)%N] =>
             first [rewrite (proj2 (N.leb_le a b)) by lia
                   |rewrite (proj2 (N.leb_gt a b)) by lia]
         | |- context [(?a =? ?b)%N] =>
             rewrite (proj2 (N.eqb_neq a b)) by lia
         end.
  reflexivity.
Qed.
End DigitFacts.

(** ** Strings of plain characters *)

Module EncodeFacts.
Import Text DigitFacts.

(** A printable ASCII character other than the quote and the
    backslash: the encoder writes it as it is, the decoder reads it as
    it is. *)
Definition plain (c : char) : bool :=
  ((32 <=? c) && (c <=? 126) && negb (c =? quote)
   && negb (c =? backslash))%N.

Definition plain_str (s : str) : Prop := Forall (fun c => plain c = true) s.

Lemma plain_spec (c : char) :
  plain c = true <-> (32 <= c <= 126 /\ c <> 34 /\ c <> 92)%N.
Proof.
  unfold plain, quote, backslash.
  rewrite !andb_true_iff, !negb_true_iff, !N.leb_le, !N.eqb_neq. tauto.
Qed.

Lemma escape_plain (c : char) : plain c = true -> Json.escape_char c = [c].
Proof.
  intros H. apply plain_spec in H. unfold Json.escape_char.
  unfold quote, backslash.
  repeat match goal with
         | |- context [(c =? ?n)%N] =>
             destruct (N.eqb_spec c n); [lia|]
         end.
  destruct (N.leb_spec 32 c); [|lia].
  destruct (N.leb_spec c 126); [|lia]. reflexivity.
Qed.

Lemma encode_plain (s : str) :
  plain_str s -> Json.encode_basestring_ascii s = quote :: s ++ [quote].
Proof.
  intros H. unfold Json.encode_basestring_ascii. f_equal. f_equal.
  induction H as [|c s Hc _ IH]; [reflexivity|].
  cbn [flat_map]. rewrite escape_plain, IH by assumption. reflexivity.
Qed.

Lemma scanstring_plain (s rest : str) :
  plain_str s -> Json.scanstring (s ++ quote :: rest) = Some (s, rest).
Proof.
  induction 1 as [|c s Hc _ IH]; cbn [app Json.scanstring].
  - rewrite N.eqb_refl. reflexivity.
  - apply plain_spec in Hc. unfold quote, backslash in *.
    destruct (N.eqb_spec c 34); [lia|].
    destruct (N.eqb_spec c 92); [lia|].
    destruct (N.ltb_spec c 32); [lia|].
    rewrite IH. reflexivity.
Qed.

Lemma digits_plain (ds : str) : digits ds -> plain_str ds.
Proof.
  apply Forall_impl. intros c H. apply is_digit_range in H.
  apply plain_spec. lia.
Qed.

Lemma plain_firstn (n : nat) (s : str) : plain_str s -> plain_str (firstn n s).
Proof.
  unfold plain_str. intros H. rewrite <- (firstn_skipn n s) in H.
  apply Forall_app in H. apply H.
Qed.

Lemma plain_skipn (n : nat) (s : str) : plain_str s -> plain_str (skipn n s).
Proof.
  unfold plain_str. intros H. rewrite <- (firstn_skipn n s) in H.
  apply Forall_app in H. apply H.
Qed.

Lemma plain_repeat (c : char) (n : nat) :
  plain c = true -> plain_str (repeat c n).
Proof. intros H. induction n; constructor; assumption. Qed.

Lemma plain_nat_digits (z : Z) : 0 <= z -> plain_str (nat_digits z).
Proof. intros H. apply digits_plain, nat_digits_spec, H. Qed.

Ltac plain_tac :=
  repeat first
    [ assumption
    | apply Forall_nil
    | apply Forall_cons; [reflexivity|]
    | apply Forall_app; split
    | apply plain_firstn
    | apply plain_skipn
    | apply plain_repeat; reflexivity
    | apply plain_nat_digits; lia ].

Lemma to_str_plain (d : PyDecimal.decimal) : plain_str (PyDecimal.to_str d).
Proof.
  destruct d as [s coef exp|s|s sig diag]; unfold PyDecimal.to_str.
  - assert (Hint : plain_str (nat_digits (Z.of_N coef)))
      by (apply plain_nat_digits; lia).
    set (int := nat_digits (Z.of_N coef)) in *.
    set (len := Z.of_nat (List.length int)).
    set (leftdigits := exp + len).
    set (dotplace := if (exp <=? 0) && (-6 <? leftdigits)
                     then leftdigits else 1).
    destruct (dotplace <=? 0); [|destruct (len <=? dotplace)];
      destruct (leftdigits =? dotplace);
      destruct (leftdigits - dotplace <? 0); destruct s;
      cbn [PyDecimal.sign_str]; plain_tac.
  - destruct s; cbn [PyDecimal.sign_str]; plain_tac.
  - destruct s, sig, (diag =? 0)%N; cbn [PyDecimal.sign_str]; plain_tac.
Qed.

End EncodeFacts.

(** ** The encoder class of the scripts *)

Module EncoderClaims.
Import Text EncodeFacts.

(** C10 (a Decimal is encoded as a JSON string).  With the encoder
    class of the scripts, a [Decimal] is written as a JSON string token:
    a double quote, the [str] of the Decimal unchanged, and a double
    quote.  Read back by [json.loads], the token is a [str], not a
    number. *)
Theorem decimal_encoded_as_string (d : PyDecimal.decimal) :
  ConvertJsonNdjson.dumps (PyDecimal d)
  = quote :: PyDecimal.to_str d ++ [quote]
  /\ Json.dumps FlattenJson.DecimalEncoder_default (PyDecimal d)
     = quote :: PyDecimal.to_str d ++ [quote]
  /\ Json.loads (ConvertJsonNdjson.dumps (PyDecimal d))
     = Some (PyStr (PyDecimal.to_str d)).
Proof.
  assert (H : ConvertJsonNdjson.dumps (PyDecimal d)
              = quote :: PyDecimal.to_str d ++ [quote])
    by apply encode_plain, to_str_plain.
  split; [exact H|]. split; [apply encode_plain, to_str_plain|].
  rewrite H. unfold Json.loads, Json.loads_hook, Json.decode.
  cbn [Json.skip_ws]. change (Json.is_ws quote) with false. cbv iota.
  unfold Json.fuel_for. cbn [Json.scan_once]. rewrite N.eqb_refl.
  rewrite scanstring_plain by apply to_str_plain. reflexivity.
Qed.

End EncoderClaims.

(** ** Numerals *)

Module NumeralFacts.
Import Text DigitFacts.

Definition sign_text (neg : bool) : str := if neg then [ch "-"] else [].

(** The groups of [NUMBER_RE]. *)
Definition int_part (i : str) : Prop :=
  exists neg ip, i = sign_text neg ++ ip /\ digits ip /\ canonical ip.

Definition frac_part (fr : str) : Prop :=
  fr = [] \/ exists fp, fr = ch "." :: fp /\ digits fp /\ fp <> [].

Definition exp_part (ex : str) : Prop :=
  ex = []
  \/ exists e sg es,
       ex = e :: sg ++ es
       /\ (e = ch "e" \/ e = ch "E")
       /\ (sg = [] \/ sg = [ch "+"] \/ sg = [ch "-"])
       /\ digits es /\ es <> [].

(** What may follow a numeral: the end of the text, or a character
    that cannot continue it. *)
Definition delim (rest : str) : Prop :=
  match rest with
  | [] => True
  | c :: _ => is_digit c = false /\ c <> ch "." /\ c <> ch "e" /\ c <> ch "E"
  end.

Definition no_digit_head (rest : str) : Prop :=
  match rest with
  | [] => True
  | c :: _ => is_digit c = false
  end.

Lemma span_digits_spec (s : str) :
  let '(ds, r) := PyDecimal.span_digits s in
  s = ds ++ r /\ digits ds /\ no_digit_head r.
Proof.
  induction s as [|c s IH]; cbn [PyDecimal.span_digits].
  - split; [reflexivity|]. split; [constructor|exact I].
  - destruct (is_digit c) eqn:Hc.
    + destruct (PyDecimal.span_digits s) as [ds r].
      destruct IH as (-> & Hd & Hr).
      split; [reflexivity|]. split; [constructor; assumption|assumption].
    + split; [reflexivity|]. split; [constructor|exact Hc].
Qed.

Lemma span_digits_app (ds rest : str) :
  digits ds -> no_digit_head rest ->
  PyDecimal.span_digits (ds ++ rest) = (ds, rest).
Proof.
  intros Hd Hr. induction Hd as [|c ds Hc _ IH]; cbn [app].
  - destruct rest as [|c rest]; [reflexivity|].
    cbn [PyDecimal.span_digits]. cbn in Hr. rewrite Hr. reflexivity.
  - cbn [PyDecimal.span_digits]. rewrite Hc, IH. reflexivity.
Qed.

Lemma delim_no_digit (rest : str) : delim rest -> no_digit_head rest.
Proof. destruct rest; [auto|]. cbn. tauto. Qed.

Lemma exp_delim_no_digit (ex rest : str) :
  exp_part ex -> delim rest -> no_digit_head (ex ++ rest).
Proof.
  intros [->|(e & sg & es & -> & [->| ->] & _)] Hr;
    [apply delim_no_digit, Hr|reflexivity|reflexivity].
Qed.

Lemma frac_exp_no_digit (fr ex rest : str) :
  frac_part fr -> exp_part ex -> delim rest ->
  no_digit_head (fr ++ ex ++ rest).
Proof.
  intros [->|(fp & -> & _)] He Hr;
    [apply (exp_delim_no_digit ex rest); assumption|reflexivity].
Qed.

Lemma digit_head (c : char) (P : char -> bool) :
  is_digit c = true -> (forall d, is_digit d = true -> P d = false) ->
  P c = false.
Proof. auto. Qed.

Lemma digit_not (c : char) (n : N) :
  is_digit c = true -> (n < 48 \/ 57 < n)%N -> (c =? n)%N = false.
Proof.
  intros H Hn. apply is_digit_range in H. apply N.eqb_neq. lia.
Qed.

(** The exponent group. *)
Lemma match_exp (ex rest : str) :
  exp_part ex -> delim rest ->
  match ex ++ rest with
  | e :: t2 =>
      if ((e =? ch "e") || (e =? ch "E"))%N then
        let '(sg, t3) :=
          match t2 with
          | g :: t' =>
              if ((g =? ch "-") || (g =? ch "+"))%N then ([g], t')
              else ([], t2)
          | [] => ([], t2)
          end in
        match Json.span_digits t3 with
        | ([], _) => ([], ex ++ rest)
        | (es, r) => (e :: sg ++ es, r)
        end
      else ([], ex ++ rest)
  | [] => ([], ex ++ rest)
  end = (ex, rest).
Proof.
  intros [->|(e & sg & es & -> & He & Hsg & Hes & Hne)] Hr.
  - cbn [app]. destruct rest as [|c rest]; [reflexivity|].
    destruct Hr as (_ & _ & H1 & H2).
    apply N.eqb_neq in H1, H2. rewrite H1, H2. reflexivity.
  - cbn [app].
    assert (Hee : ((e =? ch "e") || (e =? ch "E"))%N = true).
    { destruct He as [->| ->]; reflexivity. }
    rewrite Hee.
    assert (Hspan : Json.span_digits (es ++ rest) = (es, rest)).
    { apply span_digits_app; [assumption|apply delim_no_digit, Hr]. }
    destruct es as [|d es]; [congruence|].
    inversion Hes as [|? ? Hd _]; subst.
    destruct Hsg as [->|[->| ->]]; cbn [app].
    + rewrite (digit_not d (ch "-")), (digit_not d (ch "+"))
        by (assumption || (cbn; lia)).
      cbn [orb]. cbn [app] in Hspan. rewrite Hspan. reflexivity.
    + change ((ch "+" =? ch "-")%N || (ch "+" =? ch "+")%N) with true.
      cbv iota. cbn [app] in Hspan. rewrite Hspan. reflexivity.
    + change ((ch "-" =? ch "-")%N || (ch "-" =? ch "+")%N) with true.
      cbv iota. cbn [app] in Hspan. rewrite Hspan. reflexivity.
Qed.

(** The fraction group. *)
Lemma match_frac (fr ex rest : str) :
  frac_part fr -> exp_part ex -> delim rest ->
  (let r1 := fr ++ ex ++ rest in
   match r1 with
   | p :: t1 =>
       if (p =? ch ".")%N then
         match Json.span_digits t1 with
         | ([], _) => ([], r1)
         | (fs, r) => (p :: fs, r)
         end
       else ([], r1)
   | [] => ([], r1)
   end) = (fr, ex ++ rest).
Proof.
  intros [->|(fp & -> & Hfp & Hne)] He Hr; cbn zeta; cbn [app].
  - destruct He as [->|(e & sg & es & -> & Hee & _)]; cbn [app].
    + destruct rest as [|c rest]; [reflexivity|].
      destruct Hr as (_ & H1 & _). apply N.eqb_neq in H1.
      rewrite H1. reflexivity.
    + destruct Hee as [->| ->]; reflexivity.
  - rewrite N.eqb_refl.
    unfold Json.span_digits.
    rewrite span_digits_app;
      [|assumption|apply (exp_delim_no_digit ex rest); assumption].
    destruct fp; [congruence|reflexivity].
Qed.

(** [NUMBER_RE] on a numeral followed by a text that cannot continue
    it. *)
Lemma match_number_numeral (i fr ex rest : str) :
  int_part i -> frac_part fr -> exp_part ex -> delim rest ->
  Json.match_number (i ++ fr ++ ex ++ rest) = Some (i, fr, ex, rest).
Proof.
  intros (neg & ip & -> & Hip & Hcan) Hfr Hex Hr.
  pose proof (match_frac fr ex rest Hfr Hex Hr) as Hf.
  pose proof (match_exp ex rest Hex Hr) as He.
  cbn zeta in Hf.
  assert (Hgo : forall sign,
             (match ip ++ fr ++ ex ++ rest with
              | [] => None
              | c :: t =>
                  if negb (is_digit c) then None
                  else
                    let '(intdigits, r1) :=
                      if (c =? ch "0")%N then ([c], t)
                      else let '(ds, r) := Json.span_digits t in
                           (c :: ds, r) in
                    let '(frac, r2) :=
                      match r1 with
                      | p :: t1 =>
                          if (p =? ch ".")%N then
                            match Json.span_digits t1 with
                            | ([], _) => ([], r1)
                            | (fs, r) => (p :: fs, r)
                            end
                          else ([], r1)
                      | [] => ([], r1)
                      end in
                    let '(exp, r3) :=
                      match r2 with
                      | e :: t2 =>
                          if ((e =? ch "e") || (e =? ch "E"))%N then
                            let '(sg, t3) :=
                              match t2 with
                              | g :: t' =>
                                  if ((g =? ch "-") || (g =? ch "+"))%N
                                  then ([g], t')
                                  else ([], t2)
                              | [] => ([], t2)
                              end in
                            match Json.span_digits t3 with
                            | ([], _) => ([], r2)
                            | (es, r) => (e :: sg ++ es, r)
                            end
                          else ([], r2)
                      | [] => ([], r2)
                      end in
                    Some (sign ++ intdigits, frac, exp, r3)
              end) = Some (sign ++ ip, fr, ex, rest)).
  { intros sign. destruct ip as [|c ds]; [contradiction|].
    inversion Hip as [|? ? Hc Hds]; subst. cbn [app]. rewrite Hc.
    cbn [negb].
    assert (Hr1 : (if (c =? ch "0")%N then ([c], ds ++ fr ++ ex ++ rest)
                   else let '(ds0, r) :=
                          Json.span_digits (ds ++ fr ++ ex ++ rest) in
                        (c :: ds0, r))
                  = (c :: ds, fr ++ ex ++ rest)).
    { destruct (N.eqb_spec c (ch "0")) as [->|Hc0].
      - destruct ds as [|c' ds]; [reflexivity|]. cbn in Hcan. congruence.
      - unfold Json.span_digits. rewrite span_digits_app;
          [reflexivity|assumption
          |apply (frac_exp_no_digit fr ex rest); assumption]. }
    rewrite Hr1. rewrite Hf. cbv beta iota zeta. rewrite He.
    reflexivity. }
  unfold Json.match_number. destruct neg; cbn [sign_text app].
  - rewrite N.eqb_refl. exact (Hgo [ch "-"]).
  - specialize (Hgo []). cbn [app] in Hgo.
    destruct ip as [|c ds]; [contradiction|]. cbn [app] in *.
    inversion Hip as [|? ? Hc Hds]; subst.
    rewrite (digit_not c (ch "-")) by (assumption || (cbn; lia)).
    exact Hgo.
Qed.


Lemma frac_inv (r1 fr r2 : str) :
  match r1 with
  | p :: t1 =>
      if (p =? ch ".")%N then
        match Json.span_digits t1 with
        | ([], _) => ([], r1)
        | (fs, r) => (p :: fs, r)
        end
      else ([], r1)
  | [] => ([], r1)
  end = (fr, r2) ->
  frac_part fr /\ r1 = fr ++ r2.
Proof.
  destruct r1 as [|p t1]; [intros [= <- <-]; split; [left|]; reflexivity|].
  destruct (N.eqb_spec p (ch ".")) as [->|_];
    [|intros [= <- <-]; split; [left|]; reflexivity].
  unfold Json.span_digits. pose proof (span_digits_spec t1) as Hs.
  destruct (PyDecimal.span_digits t1) as [[|f fs] r].
  - intros [= <- <-]. split; [left|]; reflexivity.
  - destruct Hs as (-> & Hd & _). intros [= <- <-].
    split; [|reflexivity]. right. exists (f :: fs).
    split; [reflexivity|]. split; [assumption|discriminate].
Qed.

Lemma exp_inv (r2 ex r3 : str) :
  match r2 with
  | e :: t2 =>
      if ((e =? ch "e") || (e =? ch "E"))%N then
        let '(sg, t3) :=
          match t2 with
          | g :: t' =>
              if ((g =? ch "-") || (g =? ch "+"))%N then ([g], t')
              else ([], t2)
          | [] => ([], t2)
          end in
        match Json.span_digits t3 with
        | ([], _) => ([], r2)
        | (es, r) => (e :: sg ++ es, r)
        end
      else ([], r2)
  | [] => ([], r2)
  end = (ex, r3) ->
  exp_part ex /\ r2 = ex ++ r3.
Proof.
  destruct r2 as [|e t2]; [intros [= <- <-]; split; [left|]; reflexivity|].
  destruct ((e =? ch "e") || (e =? ch "E"))%N eqn:He;
    [|intros [= <- <-]; split; [left|]; reflexivity].
  assert (Hee : e = ch "e" \/ e = ch "E").
  { apply orb_true_iff in He. rewrite !N.eqb_eq in He. exact He. }
  assert (Hsg : exists sg t3,
             match t2 with
             | g :: t' =>
                 if ((g =? ch "-") || (g =? ch "+"))%N then ([g], t')
                 else ([], t2)
             | [] => ([], t2)
             end = (sg, t3)
             /\ t2 = sg ++ t3
             /\ (sg = [] \/ sg = [ch "+"] \/ sg = [ch "-"])).
  { destruct t2 as [|g t'].
    - exists [], []. auto.
    - destruct ((g =? ch "-") || (g =? ch "+"))%N eqn:Hg.
      + exists [g], t'. split; [reflexivity|]. split; [reflexivity|].
        apply orb_true_iff in Hg. rewrite !N.eqb_eq in Hg.
        destruct Hg as [->| ->]; auto.
      + exists [], (g :: t'). auto. }
  destruct Hsg as (sg & t3 & -> & -> & Hsg).
  unfold Json.span_digits. pose proof (span_digits_spec t3) as Hs.
  destruct (PyDecimal.span_digits t3) as [[|d es] r].
  - intros [= <- <-]. split; [left|]; reflexivity.
  - destruct Hs as (-> & Hd & _). intros [= <- <-].
    split; [|cbn [app]; rewrite <- app_assoc; reflexivity].
    right. exists e, sg, (d :: es).
    split; [reflexivity|]. split; [assumption|]. split; [assumption|].
    split; [assumption|discriminate].
Qed.

(** What [NUMBER_RE] matches is a numeral. *)
Lemma match_number_inv (t i fr ex r : str) :
  Json.match_number t = Some (i, fr, ex, r) ->
  int_part i /\ frac_part fr /\ exp_part ex /\ t = i ++ fr ++ ex ++ r.
Proof.
  unfold Json.match_number.
  set (sp := match t with
             | c :: t' => if (c =? ch "-")%N then ([c], t') else ([], t)
             | [] => ([], t)
             end).
  assert (Hsp : exists neg, sp = (sign_text neg, snd sp)
                            /\ t = sign_text neg ++ snd sp).
  { subst sp. destruct t as [|c t']; [exists false; auto|].
    destruct (N.eqb_spec c (ch "-")) as [->|_];
      [exists true|exists false]; auto. }
  destruct Hsp as (neg & Hsp & Ht). rewrite Hsp.
  set (s1 := snd sp) in *. clearbody s1. clear sp Hsp. subst t.
  destruct s1 as [|c t]; [discriminate|].
  destruct (is_digit c) eqn:Hc; [|discriminate]. cbn [negb].
  set (ir := if (c =? ch "0")%N then ([c], t)
             else let '(ds, r0) := Json.span_digits t in (c :: ds, r0)).
  assert (Hir : digits (fst ir) /\ canonical (fst ir)
                /\ c :: t = fst ir ++ snd ir).
  { subst ir. destruct (N.eqb_spec c (ch "0")) as [->|Hc0]; cbn [fst snd].
    - split; [constructor; [reflexivity|constructor]|]. split; [exact I|].
      reflexivity.
    - unfold Json.span_digits. pose proof (span_digits_spec t) as Hs.
      destruct (PyDecimal.span_digits t) as [ds r0].
      destruct Hs as (-> & Hd & _). cbn [fst snd].
      split; [constructor; assumption|]. split; [|reflexivity].
      destruct ds; [exact I|exact Hc0]. }
  destruct ir as [intdigits r1]. cbn [fst snd] in Hir.
  destruct Hir as (Hd & Hcan & Heq).
  match goal with
  | |- context [let '(frac, r2) := ?M in _] =>
      destruct M as [frac r2] eqn:Hfrac
  end.
  match goal with
  | |- context [let '(exp, r3) := ?M in _] =>
      destruct M as [exp r3] eqn:Hexp
  end.
  intros [= <- <- <- <-].
  apply frac_inv in Hfrac. destruct Hfrac as [Hfr ->].
  apply exp_inv in Hexp. destruct Hexp as [Hex ->].
  split; [exists neg, intdigits; auto|]. split; [assumption|].
  split; [assumption|]. rewrite Heq, <- !app_assoc. reflexivity.
Qed.

(** A numeral matched to the end of a text is matched in the same way
    before a text that cannot continue it. *)
Lemma match_number_ext (t i fr ex rest : str) :
  Json.match_number t = Some (i, fr, ex, []) ->
  delim rest ->
  Json.match_number (t ++ rest) = Some (i, fr, ex, rest).
Proof.
  intros H Hr. apply match_number_inv in H.
  destruct H as (Hi & Hfr & Hex & ->). rewrite app_nil_r.
  rewrite <- !app_assoc. apply match_number_numeral; assumption.
Qed.

End NumeralFacts.

(** ** Escaped strings *)

Module StringFacts.
Import Text DigitFacts.

Lemma hex_val_char (d : Z) : 0 <= d < 16 -> hex_val (hex_char d) = Some d.
Proof.
  intros H. unfold hex_char, hex_val, is_digit.
  destruct (Z.ltb_spec d 10).
  - replace ((48 <=? Z.to_N (48 + d))%N && (Z.to_N (48 + d) <=? 57)%N)
      with true
      by (symmetry; apply andb_true_iff; rewrite !N.leb_le; lia).
    f_equal. lia.
  - replace ((48 <=? Z.to_N (87 + d))%N && (Z.to_N (87 + d) <=? 57)%N)
      with false
      by (symmetry; apply andb_false_iff; right; apply N.leb_gt; lia).
    replace ((97 <=? Z.to_N (87 + d))%N && (Z.to_N (87 + d) <=? 102)%N)
      with true
      by (symmetry; apply andb_true_iff; rewrite !N.leb_le; lia).
    f_equal. lia.
Qed.

Lemma hex4_val_hex4 (n : Z) (rest : str) :
  0 <= n < 65536 ->
  exists a b c d,
    hex4 n ++ rest = a :: b :: c :: d :: rest
    /\ Json.hex4_val a b c d = Some n.
Proof.
  intros H. unfold hex4. do 4 eexists. split; [reflexivity|].
  unfold Json.hex4_val.
  rewrite !hex_val_char by (apply Z.mod_pos_bound; lia).
  f_equal.
  assert (H1 : n = 16 * (n / 16) + n mod 16) by (apply Z.div_mod; lia).
  assert (H2 : n / 16 = 16 * (n / 256) + (n / 16) mod 16).
  { replace (n / 256) with (n / 16 / 16)
      by (rewrite Z.div_div by lia; reflexivity).
    apply Z.div_mod; lia. }
  assert (H3 : n / 256 = 16 * (n / 4096) + (n / 256) mod 16).
  { replace (n / 4096) with (n / 256 / 16)
      by (rewrite Z.div_div by lia; reflexivity).
    apply Z.div_mod; lia. }
  assert (H4 : 0 <= n / 4096 < 16).
  { split; [apply Z.div_pos; lia|apply Z.div_lt_upper_bound; lia]. }
  rewrite (Z.mod_small (n / 4096) 16) by lia. lia.
Qed.

(** Joining a pair of surrogates. *)
Lemma lor_shifted (k b : Z) :
  0 <= k -> 0 <= b < 1024 -> Z.lor (Z.shiftl k 10) b = k * 1024 + b.
Proof.
  intros Hk Hb.
  assert (Hland : Z.land (Z.shiftl k 10) b = 0).
  { apply Z.bits_inj'. intros i Hi.
    rewrite Z.land_spec, Z.bits_0, Z.shiftl_spec by assumption.
    destruct (Z.ltb_spec i 10).
    - rewrite Z.testbit_neg_r by lia. reflexivity.
    - rewrite (Z.bits_above_log2 b i); [apply andb_false_r|lia|].
      destruct (Z.eq_dec b 0) as [->|]; [cbn; lia|].
      assert (Z.log2 b < 10) by (apply Z.log2_lt_pow2; lia). lia. }
  rewrite <- Z.lxor_lor by assumption.
  rewrite <- Z.add_nocarry_lxor by assumption.
  rewrite Z.shiftl_mul_pow2 by lia. reflexivity.
Qed.

Lemma surrogate_pair (n : Z) :
  0 <= n < 1048576 ->
  let s1 := Z.lor 55296 (Z.land (Z.shiftr n 10) 1023) in
  let s2 := Z.lor 56320 (Z.land n 1023) in
  s1 = 55296 + n / 1024 /\ s2 = 56320 + n mod 1024
  /\ 65536 + Z.lor (Z.shiftl (s1 - 55296) 10) (s2 - 56320) = 65536 + n.
Proof.
  intros H. cbn zeta.
  assert (Hq : 0 <= n / 1024 < 1024).
  { split; [apply Z.div_pos; lia|apply Z.div_lt_upper_bound; lia]. }
  pose proof (Z.mod_pos_bound n 1024 ltac:(lia)) as Hm.
  change 1023 with (Z.ones 10).
  rewrite !Z.land_ones by lia. change (2 ^ 10) with 1024.
  rewrite Z.shiftr_div_pow2 by lia. change (2 ^ 10) with 1024.
  rewrite (Z.mod_small (n / 1024) 1024) by assumption.
  assert (E1 : Z.lor 55296 (n / 1024) = 55296 + n / 1024).
  { change 55296 with (Z.shiftl 54 10) at 1.
    rewrite lor_shifted by lia. lia. }
  assert (E2 : Z.lor 56320 (n mod 1024) = 56320 + n mod 1024).
  { change 56320 with (Z.shiftl 55 10) at 1.
    rewrite lor_shifted by lia. lia. }
  rewrite E1, E2.
  split; [reflexivity|]. split; [reflexivity|].
  replace (55296 + n / 1024 - 55296) with (n / 1024) by lia.
  replace (56320 + n mod 1024 - 56320) with (n mod 1024) by lia.
  rewrite lor_shifted by lia.
  pose proof (Z.div_mod n 1024 ltac:(lia)). lia.
Qed.


Definition is_high (c : char) : bool := ((55296 <=? c) && (c <=? 56319))%N.
Definition is_low (c : char) : bool := ((56320 <=? c) && (c <=? 57343))%N.

(** A string of code points (below U+110000) in which no high
    surrogate is followed by a low one: the strings that a decoder can
    return. *)
Fixpoint str_stable (s : str) : bool :=
  match s with
  | [] => true
  | c :: s' =>
      (c <? 1114112)%N
      && negb (is_high c && match s' with
                            | c' :: _ => is_low c'
                            | [] => false
                            end)
      && str_stable s'
  end.

(** The text does not start with the escape of a low surrogate. *)
Definition no_low_escape (s3 : str) : Prop :=
  match s3 with
  | b :: u :: g1 :: g2 :: g3 :: g4 :: _ =>
      b = backslash -> u = ch "u" ->
      exists n, Json.hex4_val g1 g2 g3 g4 = Some n
                /\ Json.is_low_surrogate n = false
  | _ => True
  end.

Lemma look_keep (uni : Z) (s3 : str) :
  no_low_escape s3 ->
  match s3 with
  | b :: u :: g1 :: g2 :: g3 :: g4 :: s4 =>
      if ((b =? backslash) && (u =? ch "u"))%N then
        match Json.hex4_val g1 g2 g3 g4 with
        | None => None
        | Some uni2 =>
            if Json.is_low_surrogate uni2 then
              Json.push (Z.to_N
                           (65536 + Z.lor
                              (Z.shiftl (uni - 55296) 10)
                              (uni2 - 56320)))
                        (Json.scanstring s4)
            else Json.push (Z.to_N uni) (Json.scanstring s3)
        end
      else Json.push (Z.to_N uni) (Json.scanstring s3)
  | _ => Json.push (Z.to_N uni) (Json.scanstring s3)
  end = Json.push (Z.to_N uni) (Json.scanstring s3).
Proof.
  intros H.
  destruct s3 as [|b [|u [|g1 [|g2 [|g3 [|g4 s4]]]]]]; try reflexivity.
  cbn [no_low_escape] in H.
  destruct (N.eqb_spec b backslash) as [Hb|]; [|reflexivity].
  destruct (N.eqb_spec u (ch "u")) as [Hu|]; [|reflexivity].
  destruct (H Hb Hu) as (n & -> & ->). reflexivity.
Qed.

(** The four ways a character is written. *)
Lemma escape_char_cases (c : char) :
  (exists x, Json.escape_char c = [backslash; x]
             /\ Json.unescape x = Some c /\ x <> ch "u")
  \/ (Json.escape_char c = [c] /\ EncodeFacts.plain c = true)
  \/ (Json.escape_char c = backslash :: ch "u" :: hex4 (Z.of_N c)
      /\ (c < 65536)%N)
  \/ ((65536 <= c)%N
      /\ Json.escape_char c
         = (backslash :: ch "u"
              :: hex4 (Z.lor 55296
                         (Z.land (Z.shiftr (Z.of_N c - 65536) 10) 1023)))
             ++ (backslash :: ch "u"
                   :: hex4 (Z.lor 56320 (Z.land (Z.of_N c - 65536) 1023)))).
Proof.
  unfold Json.escape_char.
  destruct (N.eqb_spec c backslash) as [->|H1];
    [left; exists backslash; repeat split; discriminate|].
  destruct (N.eqb_spec c quote) as [->|H2];
    [left; exists quote; repeat split; discriminate|].
  destruct (N.eqb_spec c 8) as [->|H3];
    [left; exists (ch "b"); repeat split; discriminate|].
  destruct (N.eqb_spec c 12) as [->|H4];
    [left; exists (ch "f"); repeat split; discriminate|].
  destruct (N.eqb_spec c 10) as [->|H5];
    [left; exists (ch "n"); repeat split; discriminate|].
  destruct (N.eqb_spec c 13) as [->|H6];
    [left; exists (ch "r"); repeat split; discriminate|].
  destruct (N.eqb_spec c 9) as [->|H7];
    [left; exists (ch "t"); repeat split; discriminate|].
  destruct ((32 <=? c) && (c <=? 126))%N eqn:Hp.
  - right. left. split; [reflexivity|].
    apply andb_true_iff in Hp. rewrite !N.leb_le in Hp.
    apply EncodeFacts.plain_spec. unfold quote, backslash in *. lia.
  - destruct (Z.ltb_spec (Z.of_N c) 65536).
    + right. right. left. split; [reflexivity|lia].
    + right. right. right. split; [lia|reflexivity].
Qed.

Lemma high_iff (c : char) :
  Json.is_high_surrogate (Z.of_N c) = is_high c.
Proof.
  unfold Json.is_high_surrogate, is_high.
  destruct (Z.leb_spec 55296 (Z.of_N c)), (N.leb_spec 55296 c);
    destruct (Z.leb_spec (Z.of_N c) 56319), (N.leb_spec c 56319);
    try reflexivity; lia.
Qed.

Lemma low_iff (c : char) :
  Json.is_low_surrogate (Z.of_N c) = is_low c.
Proof.
  unfold Json.is_low_surrogate, is_low.
  destruct (Z.leb_spec 56320 (Z.of_N c)), (N.leb_spec 56320 c);
    destruct (Z.leb_spec (Z.of_N c) 57343), (N.leb_spec c 57343);
    try reflexivity; lia.
Qed.

(** Reading one escaped character. *)
Lemma scan_one (c : char) (tail : str) :
  (c < 1114112)%N ->
  (is_high c = true -> no_low_escape tail) ->
  Json.scanstring (Json.escape_char c ++ tail)
  = Json.push c (Json.scanstring tail).
Proof.
  intros Hc Hhigh.
  destruct (escape_char_cases c)
    as [(x & -> & Hx & Hu)|[(-> & Hp)|[(-> & Hb)|(Ha & ->)]]].
  - cbn [app Json.scanstring].
    change (backslash =? quote)%N with false.
    change (backslash =? backslash)%N with true. cbv iota.
    destruct (N.eqb_spec x (ch "u")); [contradiction|].
    rewrite Hx. reflexivity.
  - cbn [app Json.scanstring]. apply EncodeFacts.plain_spec in Hp.
    unfold quote, backslash.
    destruct (N.eqb_spec c 34); [lia|].
    destruct (N.eqb_spec c 92); [lia|].
    destruct (N.ltb_spec c 32); [lia|]. reflexivity.
  - destruct (hex4_val_hex4 (Z.of_N c) tail) as (h1 & h2 & h3 & h4 & E & Hv);
      [lia|].
    cbn [app]. rewrite E. cbn [Json.scanstring].
    change (backslash =? quote)%N with false.
    change (backslash =? backslash)%N with true.
    change (ch "u" =? ch "u")%N with true. cbv iota.
    rewrite Hv, high_iff.
    destruct (is_high c) eqn:Hh; [|rewrite N2Z.id; reflexivity].
    rewrite look_keep by auto. rewrite N2Z.id. reflexivity.
  - set (n := Z.of_N c - 65536).
    destruct (surrogate_pair n) as (E1 & E2 & E3); [subst n; lia|].
    fold n. fold n in E1, E2, E3.
    set (s1 := Z.lor 55296 (Z.land (Z.shiftr n 10) 1023)) in *.
    set (s2 := Z.lor 56320 (Z.land n 1023)) in *.
    assert (Hq : 0 <= n / 1024 < 1024).
    { split; [apply Z.div_pos; subst n; lia|].
      apply Z.div_lt_upper_bound; subst n; lia. }
    pose proof (Z.mod_pos_bound n 1024 ltac:(lia)) as Hm.
    rewrite <- app_assoc. cbn [app].
    destruct (hex4_val_hex4 s1 (backslash :: ch "u" :: hex4 s2 ++ tail))
      as (h1 & h2 & h3 & h4 & F & Hv); [lia|].
    rewrite F.
    destruct (hex4_val_hex4 s2 tail)
      as (g1 & g2 & g3 & g4 & G & Hw); [lia|].
    rewrite G. cbn [Json.scanstring].
    change (backslash =? quote)%N with false.
    change (backslash =? backslash)%N with true.
    change (ch "u" =? ch "u")%N with true. cbv iota. cbn [andb].
    rewrite Hv, Hw.
    replace (Json.is_high_surrogate s1) with true
      by (symmetry; unfold Json.is_high_surrogate;
          apply andb_true_iff; rewrite !Z.leb_le; lia).
    replace (Json.is_low_surrogate s2) with true
      by (symmetry; unfold Json.is_low_surrogate;
          apply andb_true_iff; rewrite !Z.leb_le; lia).
    rewrite E3. replace (65536 + n) with (Z.of_N c) by (subst n; lia).
    rewrite N2Z.id. reflexivity.
Qed.

Lemma no_low_escape_quote (rest : str) : no_low_escape (quote :: rest).
Proof.
  destruct rest as [|u [|g1 [|g2 [|g3 [|g4 s4]]]]]; try exact I.
  cbn. intros H. discriminate.
Qed.

Lemma no_low_escape_char (c : char) (more : str) :
  (c < 1114112)%N -> is_low c = false ->
  no_low_escape (Json.escape_char c ++ more).
Proof.
  intros Hc Hlow.
  destruct (escape_char_cases c)
    as [(x & -> & Hx & Hu)|[(-> & Hp)|[(-> & Hb)|(Ha & ->)]]].
  - cbn [app]. destruct more as [|g1 [|g2 [|g3 [|g4 s4]]]]; try exact I.
    cbn. intros _ H. contradiction.
  - cbn [app]. destruct more as [|u [|g1 [|g2 [|g3 [|g4 s4]]]]];
      try exact I.
    cbn. intros H. apply EncodeFacts.plain_spec in Hp.
    unfold backslash in H. lia.
  - destruct (hex4_val_hex4 (Z.of_N c) more) as (h1 & h2 & h3 & h4 & E & Hv);
      [lia|].
    cbn [app]. rewrite E. cbn. intros _ _. exists (Z.of_N c).
    split; [assumption|]. rewrite low_iff. assumption.
  - set (n := Z.of_N c - 65536).
    destruct (surrogate_pair n) as (E1 & E2 & E3); [subst n; lia|].
    fold n. fold n in E1, E2, E3.
    set (s1 := Z.lor 55296 (Z.land (Z.shiftr n 10) 1023)) in *.
    assert (Hq : 0 <= n / 1024 < 1024).
    { split; [apply Z.div_pos; subst n; lia|].
      apply Z.div_lt_upper_bound; subst n; lia. }
    rewrite <- app_assoc. cbn [app].
    match goal with
    | |- no_low_escape (_ :: _ :: hex4 s1 ++ ?m) =>
        destruct (hex4_val_hex4 s1 m) as (h1 & h2 & h3 & h4 & F & Hv);
        [lia|]; rewrite F
    end.
    cbn. intros _ _. exists s1. split; [assumption|].
    unfold Json.is_low_surrogate. apply andb_false_iff. left.
    apply Z.leb_gt. lia.
Qed.

(** A stable string is read back from its escaped form. *)
Lemma scan_escaped (s rest : str) :
  str_stable s = true ->
  Json.scanstring (flat_map Json.escape_char s ++ quote :: rest)
  = Some (s, rest).
Proof.
  induction s as [|c s IH]; intros H.
  - cbn [flat_map app Json.scanstring]. rewrite N.eqb_refl. reflexivity.
  - cbn [str_stable] in H. apply andb_true_iff in H. destruct H as [H Hs].
    apply andb_true_iff in H. destruct H as [Hc Hpair].
    apply N.ltb_lt in Hc. apply negb_true_iff in Hpair.
    cbn [flat_map]. rewrite <- app_assoc. rewrite scan_one.
    + rewrite IH by assumption. reflexivity.
    + assumption.
    + intros Hh. rewrite Hh in Hpair. cbn [andb] in Hpair.
      destruct s as [|c' s'].
      * apply no_low_escape_quote.
      * cbn [flat_map]. rewrite <- app_assoc.
        cbn [str_stable] in Hs. apply andb_true_iff in Hs.
        destruct Hs as [Hs _]. apply andb_true_iff in Hs.
        destruct Hs as [Hc' _]. apply N.ltb_lt in Hc'.
        apply no_low_escape_char; assumption.
Qed.

Lemma encoded_str_reads (s rest : str) :
  str_stable s = true ->
  Json.scanstring (tl (Json.encode_basestring_ascii s) ++ rest)
  = Some (s, rest).
Proof.
  intros H. unfold Json.encode_basestring_ascii. cbn [tl].
  rewrite <- app_assoc. apply scan_escaped, H.
Qed.

End StringFacts.

(** ** Reading back what the encoder writes *)

Module ParseFacts.
Import Text DigitFacts NumeralFacts StringFacts.

(** Literals and comparisons of characters are evaluated. *)
Ltac eval_chars :=
  repeat match goal with
         | |- context [py ?l] =>
             let v := eval vm_compute in (py l) in change (py l) with v
         | |- context [ch ?a] =>
             let v := eval vm_compute in (ch a) in change (ch a) with v
         end;
  unfold quote, backslash, LF, CR in *.

(** The first character of the text of a value: no white space and no
    closing bracket. *)
Definition starts_value (text : str) : Prop :=
  match text with
  | c :: _ => Json.is_ws c = false /\ c <> ch "]" /\ c <> ch "}"
  | [] => False
  end.

(** [text] is read as [v] by a scanner with fuel [n] or more, before
    any text that cannot continue a numeral. *)
Definition reads (cfg : Json.config) (n : nat) (text : str) (v : pyobj)
  : Prop :=
  starts_value text
  /\ forall fuel rest,
       (n <= fuel)%nat -> delim rest ->
       Json.scan_once cfg fuel (text ++ rest) = Some (v, rest).

Lemma reads_mono cfg n m text v :
  reads cfg n text v -> (n <= m)%nat -> reads cfg m text v.
Proof.
  intros [Hs H] Hnm. split; [assumption|].
  intros fuel rest Hf Hr. apply H; [lia|assumption].
Qed.

Lemma skip_ws_value (text rest : str) :
  starts_value text -> Json.skip_ws (text ++ rest) = text ++ rest.
Proof.
  destruct text as [|c text]; [contradiction|].
  intros (Hc & _). cbn [app Json.skip_ws]. rewrite Hc. reflexivity.
Qed.

Lemma skip_ws_space (s : str) : Json.skip_ws (32%N :: s) = Json.skip_ws s.
Proof. reflexivity. Qed.

Lemma skip_ws_char (c : char) (s : str) :
  Json.is_ws c = false -> Json.skip_ws (c :: s) = c :: s.
Proof. intros H. cbn [Json.skip_ws]. rewrite H. reflexivity. Qed.

Ltac ws := repeat first [ rewrite skip_ws_space
                        | rewrite skip_ws_char by reflexivity ].

Ltac eqb_consts :=
  repeat match goal with
         | |- context [N.eqb ?a ?b] =>
             let v := eval vm_compute in (N.eqb a b) in
             match v with
             | true => change (N.eqb a b) with true
             | false => change (N.eqb a b) with false
             end
         end.

Ltac step := ws; eqb_consts; cbv iota; cbn [negb].

(** *** Scalars *)

Lemma strip_prefix_app (p rest : str) : strip_prefix p (p ++ rest) = Some rest.
Proof.
  induction p as [|c p IH]; [reflexivity|].
  cbn [app strip_prefix]. rewrite N.eqb_refl. exact IH.
Qed.

Lemma reads_null cfg : reads cfg 1 (py "null") PyNone.
Proof.
  split; [vm_compute; repeat split; discriminate|].
  intros fuel rest Hf _. destruct fuel as [|fuel]; [lia|].
  assert (Hp : strip_prefix (py "null") (py "null" ++ rest) = Some rest)
    by apply strip_prefix_app.
  revert Hp. eval_chars. intros Hp. cbn [app] in *.
  cbn [Json.scan_once]. eval_chars.
  change (110 =? 34)%N with false. change (110 =? 123)%N with false.
  change (110 =? 91)%N with false. cbv iota.
  unfold startswith, Json.literal. eval_chars. rewrite Hp. reflexivity.
Qed.

Lemma reads_true cfg : reads cfg 1 (py "true") (PyBool true).
Proof.
  split; [vm_compute; repeat split; discriminate|].
  intros fuel rest Hf _. destruct fuel as [|fuel]; [lia|].
  assert (Hp : strip_prefix (py "true") (py "true" ++ rest) = Some rest)
    by apply strip_prefix_app.
  revert Hp. eval_chars. intros Hp. cbn [app] in *.
  cbn [Json.scan_once]. eval_chars.
  change (116 =? 34)%N with false. change (116 =? 123)%N with false.
  change (116 =? 91)%N with false. cbv iota.
  unfold startswith, Json.literal. eval_chars.
  change (strip_prefix [110; 117; 108; 108]%N
            (116 :: 114 :: 117 :: 101 :: rest)%N) with (@None str).
  cbv iota. rewrite Hp. reflexivity.
Qed.

Lemma reads_false cfg : reads cfg 1 (py "false") (PyBool false).
Proof.
  split; [vm_compute; repeat split; discriminate|].
  intros fuel rest Hf _. destruct fuel as [|fuel]; [lia|].
  assert (Hp : strip_prefix (py "false") (py "false" ++ rest) = Some rest)
    by apply strip_prefix_app.
  revert Hp. eval_chars. intros Hp. cbn [app] in *.
  cbn [Json.scan_once]. eval_chars.
  change (102 =? 34)%N with false. change (102 =? 123)%N with false.
  change (102 =? 91)%N with false. cbv iota.
  unfold startswith, Json.literal. eval_chars.
  change (strip_prefix [110; 117; 108; 108]%N
            (102 :: 97 :: 108 :: 115 :: 101 :: rest)%N) with (@None str).
  change (strip_prefix [116; 114; 117; 101]%N
            (102 :: 97 :: 108 :: 115 :: 101 :: rest)%N) with (@None str).
  cbv iota. rewrite Hp. reflexivity.
Qed.

Lemma reads_str cfg (s : str) :
  str_stable s = true ->
  reads cfg 1 (Json.encode_basestring_ascii s) (PyStr s).
Proof.
  intros Hs. split; [vm_compute; repeat split; discriminate|].
  intros fuel rest Hf _. destruct fuel as [|fuel]; [lia|].
  unfold Json.encode_basestring_ascii. cbn [app Json.scan_once].
  rewrite N.eqb_refl. rewrite <- app_assoc.
  cbn [app]. rewrite scan_escaped by assumption. reflexivity.
Qed.

(** The first character of a numeral. *)
Lemma numeral_head (t i fr ex r : str) :
  Json.match_number t = Some (i, fr, ex, r) ->
  exists c t', t = c :: t' /\ (c = ch "-" \/ is_digit c = true).
Proof.
  intros H. apply match_number_inv in H.
  destruct H as ((neg & ip & -> & Hd & Hc) & _ & _ & ->).
  destruct neg; cbn [sign_text app].
  - eexists _, _. split; [reflexivity|left; reflexivity].
  - destruct ip as [|c ip]; [contradiction|]. inversion Hd; subst.
    cbn [app]. eexists _, _. split; [reflexivity|right; assumption].
Qed.

Lemma head_not (c : char) (n : N) :
  (c = ch "-" \/ is_digit c = true) -> (n < 45 \/ 57 < n)%N ->
  (c =? n)%N = false.
Proof.
  intros [->|H] Hn; apply N.eqb_neq.
  - change (ch "-") with 45%N. lia.
  - apply is_digit_range in H. lia.
Qed.

Lemma reads_numeral cfg (t i fr ex : str) (v : pyobj) :
  Json.match_number t = Some (i, fr, ex, []) ->
  match fr, ex with
  | [], [] => Json.parse_int cfg i
  | _, _ => Json.parse_float cfg (i ++ fr ++ ex)
  end = Some v ->
  reads cfg 1 t v.
Proof.
  intros Hm Hv. destruct (numeral_head _ _ _ _ _ Hm) as (c & t' & -> & Hc).
  split.
  { cbn. unfold Json.is_ws. eval_chars.
    rewrite !(head_not c) by (assumption || lia).
    repeat split; try reflexivity; intros ->; destruct Hc as [Hc|Hc];
      discriminate. }
  intros fuel rest Hf Hr. destruct fuel as [|fuel]; [lia|].
  pose proof (match_number_ext _ _ _ _ rest Hm Hr) as Hext.
  cbn [app] in *. cbn [Json.scan_once]. eval_chars.
  rewrite !(head_not c) by (assumption || lia).
  unfold startswith. cbn [strip_prefix].
  rewrite ?(N.eqb_sym 110 c), ?(N.eqb_sym 116 c), ?(N.eqb_sym 102 c).
  rewrite !(head_not c 110), !(head_not c 116), !(head_not c 102)
    by (assumption || lia).
  rewrite Hext, Hv. reflexivity.
Qed.


(** *** Arrays *)

Lemma delim_char (c : char) (rest : str) :
  (c = 44 \/ c = 93 \/ c = 125 \/ c = 10)%N -> delim (c :: rest).
Proof.
  intros H. cbn. eval_chars. unfold is_digit.
  repeat split; try lia.
  destruct H as [->|[->|[->| ->]]]; reflexivity.
Qed.

Lemma array_items_reads cfg (n : nat) (entries : list (str * pyobj)) :
  Forall (fun e => reads cfg n (fst e) (snd e)) entries ->
  entries <> [] ->
  forall f f' rest,
    (n <= f')%nat -> (List.length entries <= f)%nat ->
    Json.array_items (Json.scan_once cfg f') f
                     (join (py ", ") (map fst entries) ++ ch "]" :: rest)
    = Some (map snd entries, rest).
Proof.
  induction 1 as [|[t v] entries [Hs Hr] Hrest IH]; [congruence|].
  intros _ f f' rest Hf' Hf. cbn [List.length] in Hf.
  destruct f as [|f]; [lia|]. cbn [fst snd] in *.
  destruct entries as [|e2 more].
  - cbn [map join Json.array_items fst snd]. eval_chars.
    rewrite Hr by (assumption || apply delim_char; lia).
    step. reflexivity.
  - change (map fst ((t, v) :: e2 :: more))
      with (t :: map fst (e2 :: more)).
    rewrite join_cons by discriminate. rewrite <- !app_assoc.
    cbn [Json.array_items]. eval_chars. cbn [app].
    rewrite Hr by (assumption || apply delim_char; lia).
    step.
    assert (Hsv : starts_value (fst e2)).
    { inversion Hrest as [|? ? [H2 _] _]; subst. exact H2. }
    specialize (IH ltac:(discriminate) f f' rest Hf' ltac:(cbn in *; lia)).
    revert IH. eval_chars. intros IH.
    cbn [map] in *. destruct more as [|e3 more'].
    + cbn [join] in *. rewrite skip_ws_value by assumption.
      rewrite IH. reflexivity.
    + rewrite join_cons in * by discriminate.
      rewrite <- !app_assoc in *.
      rewrite skip_ws_value by assumption.
      rewrite IH. reflexivity.
Qed.

Lemma reads_list cfg (n : nat) (entries : list (str * pyobj)) :
  Forall (fun e => reads cfg n (fst e) (snd e)) entries ->
  reads cfg (S (Nat.max n (List.length entries)))
        (ch "[" :: join (py ", ") (map fst entries) ++ [ch "]"])
        (PyList (map snd entries)).
Proof.
  intros H. split; [vm_compute; repeat split; discriminate|].
  intros fuel rest Hf _. destruct fuel as [|fuel]; [lia|].
  cbn [app Json.scan_once]. eval_chars. step.
  rewrite <- app_assoc. cbn [app]. unfold Json.JSONArray.
  destruct entries as [|e entries].
  - cbn [map join app]. step. reflexivity.
  - assert (Hsv : starts_value (fst e)).
    { inversion H as [|? ? [H2 _] _]; subst. exact H2. }
    pose proof (array_items_reads cfg n (e :: entries) H
                  ltac:(discriminate) fuel fuel rest
                  ltac:(lia) ltac:(lia)) as Hitems.
    revert Hitems. eval_chars. intros Hitems.
    match goal with
    | |- context [Json.skip_ws ?X] =>
        assert (Hjoin : exists c r,
                   X = c :: r /\ Json.is_ws c = false /\ c <> 93%N)
    end.
    { cbn [map]. destruct (fst e) as [|c t] eqn:E; [contradiction|].
      destruct Hsv as (H1 & H2 & _). revert H2. eval_chars. intros H2.
      destruct (map fst entries); cbn [join app];
        eexists _, _; repeat split; eassumption. }
    destruct Hjoin as (c & r & Ej & Hws & Hc).
    rewrite Ej in Hitems |- *. cbn [Json.skip_ws]. rewrite Hws.
    apply N.eqb_neq in Hc. rewrite Hc. rewrite Hitems. reflexivity.
Qed.

(** *** Objects *)

Fixpoint nodup_keys {V : Type} (d : list (str * V)) : bool :=
  match d with
  | [] => true
  | (k, _) :: d' => negb (Dict.mem k (Dict.keys d')) && nodup_keys d'
  end.

Lemma set_fresh {V : Type} (d : list (str * V)) (k : str) (v : V) :
  Dict.mem k (Dict.keys d) = false -> Dict.set d k v = d ++ [(k, v)].
Proof.
  induction d as [|[k' v'] d IH]; intros H; [reflexivity|].
  cbn in H. apply orb_false_iff in H. destruct H as [H1 H2].
  cbn [Dict.set]. rewrite DictFacts.str_eqb_sym, H1.
  cbn [app]. f_equal. apply IH. exact H2.
Qed.

Lemma mem_app (k : str) (a b : list str) :
  Dict.mem k (a ++ b) = Dict.mem k a || Dict.mem k b.
Proof. unfold Dict.mem. apply existsb_app. Qed.

Lemma fold_set_fresh {V : Type} (kvs : list (str * V)) : forall acc,
  nodup_keys kvs = true ->
  (forall k, In k (Dict.keys kvs) -> Dict.mem k (Dict.keys acc) = false) ->
  fold_left (fun d kv => Dict.set d (fst kv) (snd kv)) kvs acc = acc ++ kvs.
Proof.
  induction kvs as [|[k v] kvs IH]; intros acc Hn Hacc.
  - cbn. rewrite app_nil_r. reflexivity.
  - cbn [fold_left fst snd]. cbn [nodup_keys] in Hn.
    apply andb_true_iff in Hn. destruct Hn as [Hk Hn].
    apply negb_true_iff in Hk.
    rewrite set_fresh by (apply Hacc; left; reflexivity).
    rewrite IH; [rewrite <- app_assoc; reflexivity|assumption|].
    intros k' Hin.
    replace (Dict.keys (acc ++ [(k, v)])) with (Dict.keys acc ++ [k])
      by (unfold Dict.keys; rewrite map_app; reflexivity).
    rewrite mem_app.
    rewrite (Hacc k') by (right; exact Hin). cbn.
    rewrite orb_false_r.
    unfold Dict.mem in Hk.
    destruct (str_eqb k' k) eqn:E; [|reflexivity].
    apply str_eqb_spec in E. subst k'.
    assert (existsb (str_eqb k) (Dict.keys kvs) = true).
    { apply existsb_exists. exists k. split; [assumption|].
      apply str_eqb_refl. }
    congruence.
Qed.

Lemma of_pairs_nodup {V : Type} (kvs : list (str * V)) :
  nodup_keys kvs = true -> Dict.of_pairs kvs = kvs.
Proof.
  intros H. unfold Dict.of_pairs. rewrite fold_set_fresh; auto.
Qed.

Lemma scan_escaped_lit (s rest : str) :
  str_stable s = true ->
  Json.scanstring (flat_map Json.escape_char s ++ (34%N : char) :: rest)
  = Some (s, rest).
Proof. apply scan_escaped. Qed.

(** The text of a pair of an object. *)
Definition pair_text (e : str * (str * pyobj)) : str :=
  Json.encode_basestring_ascii (fst e) ++ py ": " ++ fst (snd e).

Definition pair_value (e : str * (str * pyobj)) : str * pyobj :=
  (fst e, snd (snd e)).

Definition reads_pair cfg (n : nat) (e : str * (str * pyobj)) : Prop :=
  str_stable (fst e) = true /\ reads cfg n (fst (snd e)) (snd (snd e)).

Lemma object_pairs_reads cfg (n : nat)
      (entries : list (str * (str * pyobj))) :
  Forall (reads_pair cfg n) entries ->
  entries <> [] ->
  forall f f' rest,
    (n <= f')%nat -> (List.length entries <= f)%nat ->
    Json.object_pairs (Json.scan_once cfg f') f
                      (join (py ", ") (map pair_text entries)
                         ++ ch "}" :: rest)
    = Some (map pair_value entries, rest).
Proof.
  induction 1 as [|[k [t v]] entries [Hk [Hs Hr]] Hrest IH]; [congruence|].
  intros _ f f' rest Hf' Hf. cbn [List.length] in Hf.
  destruct f as [|f]; [lia|]. cbn [fst snd] in *.
  assert (Hone : forall X,
             delim X ->
             Json.object_pairs (Json.scan_once cfg f') (S f)
                               (pair_text (k, (t, v)) ++ X)
             = match Json.skip_ws X with
               | c' :: r3 =>
                   if (c' =? ch "}")%N then Some ([(k, v)], r3)
                   else if (c' =? ch ",")%N then
                     match Json.object_pairs (Json.scan_once cfg f') f
                                             (Json.skip_ws r3) with
                     | Some (kvs, r4) => Some ((k, v) :: kvs, r4)
                     | None => None
                     end
                   else None
               | [] => None
               end).
  { intros X HX. unfold pair_text, Json.encode_basestring_ascii.
    cbn [fst snd]. eval_chars. rewrite <- !app_assoc. cbn [app].
    cbn [Json.object_pairs]. step.
    rewrite <- app_assoc. cbn [app].
    rewrite scan_escaped_lit by assumption. step.
    rewrite skip_ws_value by assumption.
    rewrite Hr by assumption. reflexivity. }
  destruct entries as [|e2 more].
  - cbn [map join]. rewrite Hone by (apply delim_char; eval_chars; lia).
    eval_chars. step. reflexivity.
  - change (map pair_text ((k, (t, v)) :: e2 :: more))
      with (pair_text (k, (t, v)) :: map pair_text (e2 :: more)).
    rewrite join_cons by discriminate. rewrite <- !app_assoc.
    rewrite Hone by (eval_chars; apply delim_char; lia).
    eval_chars. cbn [app]. step.
    specialize (IH ltac:(discriminate) f f' rest Hf' ltac:(cbn in *; lia)).
    revert IH. eval_chars. intros IH.
    assert (Hq : forall Y, Json.skip_ws (pair_text e2 ++ Y)
                           = pair_text e2 ++ Y).
    { intros Y. unfold pair_text, Json.encode_basestring_ascii.
      unfold quote. cbn [app]. step. reflexivity. }
    destruct more as [|e3 more'].
    + cbn [map join] in IH |- *. rewrite Hq, IH. reflexivity.
    + cbn [map] in IH |- *.
      rewrite join_cons in IH |- * by discriminate.
      rewrite <- !app_assoc in IH |- *. rewrite Hq, IH. reflexivity.
Qed.

Lemma reads_dict cfg (n : nat) (entries : list (str * (str * pyobj))) :
  Forall (reads_pair cfg n) entries ->
  nodup_keys (map pair_value entries) = true ->
  (forall d, Json.object_hook cfg d = Some (PyDict d)) ->
  reads cfg (S (Nat.max n (List.length entries)))
        (ch "{" :: join (py ", ") (map pair_text entries) ++ [ch "}"])
        (PyDict (map pair_value entries)).
Proof.
  intros H Hnd Hhook. split; [vm_compute; repeat split; discriminate|].
  intros fuel rest Hf _. destruct fuel as [|fuel]; [lia|].
  cbn [app Json.scan_once]. eval_chars. step.
  rewrite <- app_assoc. cbn [app]. unfold Json.JSONObject.
  destruct entries as [|e entries].
  - cbn [map join app]. step. rewrite Hhook. reflexivity.
  - pose proof (object_pairs_reads cfg n (e :: entries) H
                  ltac:(discriminate) fuel fuel rest
                  ltac:(lia) ltac:(lia)) as Hitems.
    revert Hitems. eval_chars. intros Hitems.
    match goal with
    | |- context [Json.skip_ws ?X] =>
        assert (Hjoin : exists r, X = (34%N : char) :: r)
    end.
    { cbn [map]. unfold pair_text at 1, Json.encode_basestring_ascii.
      unfold quote.
      destruct (map pair_text entries); cbn [join app];
        eexists; reflexivity. }
    destruct Hjoin as (r & Ej).
    rewrite Ej in Hitems |- *. step.
    rewrite Hitems, of_pairs_nodup by assumption.
    rewrite Hhook. reflexivity.
Qed.

End ParseFacts.

(** ** Objects that survive encoding and decoding *)

Module RoundTrip.
Import Text DigitFacts NumeralFacts StringFacts ParseFacts.

(** A finite float whose [repr] is a JSON numeral with a fraction or
    an exponent that reads back as the float.  CPython's [repr] is the
    shortest string with that property for every finite float; here
    the property is a test on the value. *)
Definition float_stable (f : Float64.float) : bool :=
  Float64.is_finite f
  && match Json.match_number (Float64.repr f) with
     | Some (i, fr, ex, []) =>
         negb (match fr, ex with [], [] => true | _, _ => false end)
         && Float64.float_eqb (Json.float_of_str (i ++ fr ++ ex)) f
     | _ => false
     end.

(** The objects that are read back as they are: no [Decimal] (written
    as a string), stable floats and strings, objects without repeated
    keys. *)
Fixpoint stable (v : pyobj) : bool :=
  match v with
  | PyNone | PyBool _ | PyInt _ => true
  | PyFloat f => float_stable f
  | PyDecimal _ => false
  | PyStr s => str_stable s
  | PyList items => forallb stable items
  | PyDict items =>
      forallb (fun kv => str_stable (fst kv) && stable (snd kv)) items
      && nodup_keys items
  end.

(** The fuel the scanner needs for an object. *)
Fixpoint need (v : pyobj) : nat :=
  match v with
  | PyList items =>
      S (Nat.max (list_max (map need items)) (List.length items))
  | PyDict items =>
      S (Nat.max (list_max (map (fun kv => need (snd kv)) items))
                 (List.length items))
  | _ => 1
  end.

(** A decoder with the conversions of [json.loads]: integers to [int],
    other numerals to [float] when the float is finite, objects to
    [dict]. *)
Record standard (cfg : Json.config) : Prop := {
  std_int : forall t, Json.parse_int cfg t = Some (PyInt (Json.int_of_str t));
  std_float : forall t,
    Float64.is_finite (Json.float_of_str t) = true ->
    Json.parse_float cfg t = Some (PyFloat (Json.float_of_str t));
  std_hook : forall d, Json.object_hook cfg d = Some (PyDict d)
}.

Definition loads_config : Json.config :=
  {| Json.parse_int := fun t => Some (PyInt (Json.int_of_str t));
     Json.parse_float := fun t => Some (PyFloat (Json.float_of_str t));
     Json.constants := true;
     Json.object_hook := fun d => Some (PyDict d) |}.

Lemma standard_loads : standard loads_config.
Proof. split; reflexivity. Qed.


(** Induction on objects, with the hypothesis for the items of lists
    and objects. *)
Section Induction.
Variable P : pyobj -> Prop.
Hypothesis HNone : P PyNone.
Hypothesis HBool : forall b, P (PyBool b).
Hypothesis HInt : forall z, P (PyInt z).
Hypothesis HFloat : forall f, P (PyFloat f).
Hypothesis HDecimal : forall d, P (PyDecimal d).
Hypothesis HStr : forall s, P (PyStr s).
Hypothesis HList : forall items, Forall P items -> P (PyList items).
Hypothesis HDict :
  forall items, Forall (fun kv => P (snd kv)) items -> P (PyDict items).

Fixpoint pyobj_nested_ind (v : pyobj) : P v :=
  match v with
  | PyNone => HNone
  | PyBool b => HBool b
  | PyInt z => HInt z
  | PyFloat f => HFloat f
  | PyDecimal d => HDecimal d
  | PyStr s => HStr s
  | PyList items =>
      HList items
            ((fix go (l : list pyobj) : Forall P l :=
                match l with
                | [] => Forall_nil P
                | x :: l' => Forall_cons x (pyobj_nested_ind x) (go l')
                end) items)
  | PyDict items =>
      HDict items
            ((fix go (l : list (str * pyobj))
               : Forall (fun kv => P (snd kv)) l :=
                match l with
                | [] => Forall_nil _
                | kv :: l' =>
                    Forall_cons kv (pyobj_nested_ind (snd kv)) (go l')
                end) items)
  end.
End Induction.

Lemma float_eqb_eq (x y : Float64.float) :
  Float64.float_eqb x y = true -> x = y.
Proof.
  destruct x, y; cbn; try discriminate; intros H;
    try (apply Bool.eqb_prop in H; subst; reflexivity); try reflexivity.
  apply andb_true_iff in H. destruct H as [H He].
  apply andb_true_iff in H. destruct H as [Hs Hm].
  apply Bool.eqb_prop in Hs. apply Pos.eqb_eq in Hm. apply Z.eqb_eq in He.
  subst. reflexivity.
Qed.

(** *** Integers *)

Lemma int_repr_numeral (z : Z) : int_part (int_repr z).
Proof.
  unfold int_repr. destruct (Z.ltb_spec z 0).
  - destruct (nat_digits_spec (- z)) as (Hd & Hc & _); [lia|].
    exists true, (nat_digits (- z)). auto.
  - destruct (nat_digits_spec z) as (Hd & Hc & _); [lia|].
    exists false, (nat_digits z). auto.
Qed.

Lemma int_of_str_repr (z : Z) : Json.int_of_str (int_repr z) = z.
Proof.
  unfold int_repr. destruct (Z.ltb_spec z 0).
  - destruct (nat_digits_spec (- z)) as (_ & _ & Hv); [lia|].
    cbn [Json.int_of_str]. rewrite N.eqb_refl, Hv. lia.
  - destruct (nat_digits_spec z) as (Hd & Hc & Hv); [lia|].
    unfold Json.int_of_str.
    destruct (nat_digits z) as [|c t] eqn:E; [contradiction|].
    apply Forall_inv in Hd.
    rewrite (digit_not c (ch "-")) by (assumption || (cbn; lia)).
    exact Hv.
Qed.

Lemma reads_int cfg (z : Z) :
  standard cfg -> reads cfg 1 (int_repr z) (PyInt z).
Proof.
  intros Hstd.
  pose proof (match_number_numeral (int_repr z) [] [] []
                (int_repr_numeral z) (or_introl eq_refl)
                (or_introl eq_refl) I) as Hm.
  rewrite !app_nil_r in Hm.
  apply (reads_numeral cfg _ _ _ _ _ Hm). cbv iota.
  rewrite (std_int cfg Hstd), int_of_str_repr. reflexivity.
Qed.

(** *** Floats *)

Lemma float_stable_spec (f : Float64.float) :
  float_stable f = true ->
  Json.floatstr f = Float64.repr f
  /\ exists i fr ex,
       Json.match_number (Float64.repr f) = Some (i, fr, ex, [])
       /\ match fr, ex with [], [] => False | _, _ => True end
       /\ Json.float_of_str (i ++ fr ++ ex) = f
       /\ Float64.is_finite f = true.
Proof.
  unfold float_stable. intros H. apply andb_true_iff in H.
  destruct H as [Hfin H]. split.
  { destruct f as [s|s| |s m e]; try discriminate; reflexivity. }
  destruct (Json.match_number (Float64.repr f))
    as [[[[i fr] ex] [|c r]]|]; try discriminate.
  apply andb_true_iff in H. destruct H as [Hk He].
  exists i, fr, ex. split; [reflexivity|]. split.
  { destruct fr, ex; try exact I. discriminate. }
  split; [apply float_eqb_eq, He|assumption].
Qed.

Lemma reads_float cfg (f : Float64.float) :
  standard cfg -> float_stable f = true ->
  reads cfg 1 (Json.floatstr f) (PyFloat f).
Proof.
  intros Hstd H. apply float_stable_spec in H.
  destruct H as (-> & i & fr & ex & Hm & Hk & Hv & Hfin).
  apply (reads_numeral cfg _ _ _ _ _ Hm).
  assert (Hp : Json.parse_float cfg (i ++ fr ++ ex) = Some (PyFloat f)).
  { rewrite (std_float cfg Hstd) by (rewrite Hv; assumption).
    rewrite Hv. reflexivity. }
  destruct fr, ex; try exact Hp. contradiction.
Qed.

(** *** Every stable object *)

Section Dumps.
Variable default : PyDecimal.decimal -> str.
Variable cfg : Json.config.
Hypothesis Hstd : standard cfg.

Let dumps := Json.dumps default.

Lemma forall_list_max (l : list pyobj) (f : pyobj -> nat) (Q : pyobj -> nat -> Prop) :
  (forall v n m, Q v n -> (n <= m)%nat -> Q v m) ->
  Forall (fun v => Q v (f v)) l ->
  Forall (fun v => Q v (list_max (map f l))) l.
Proof.
  intros Hmono H. apply Forall_forall. intros v Hin.
  rewrite Forall_forall in H. apply (Hmono v (f v)); [auto|].
  assert (Hle : (list_max (map f l) <= list_max (map f l))%nat) by lia.
  apply list_max_le in Hle. rewrite Forall_forall in Hle.
  apply Hle, in_map, Hin.
Qed.

Lemma dumps_reads (v : pyobj) :
  stable v = true -> reads cfg (need v) (dumps v) v.
Proof.
  induction v as [| b | z | f | d | s | items IH | items IH]
    using pyobj_nested_ind; intros Hst; cbn [stable] in Hst.
  - apply reads_null.
  - destruct b; [apply reads_true|apply reads_false].
  - apply reads_int, Hstd.
  - apply reads_float; assumption.
  - discriminate.
  - apply reads_str, Hst.
  - set (entries := map (fun v => (dumps v, v)) items).
    assert (Hf : map fst entries = map dumps items)
      by (subst entries; rewrite map_map; reflexivity).
    assert (Hs : map snd entries = items)
      by (subst entries; rewrite map_map; apply map_id).
    assert (Hl : List.length entries = List.length items)
      by (subst entries; apply length_map).
    pose proof (reads_list cfg (list_max (map need items)) entries) as H.
    rewrite Hf, Hs, Hl in H. apply H. clear H.
    subst entries. apply Forall_map. cbn [fst snd].
    rewrite forallb_forall in Hst.
    apply (forall_list_max items need (fun v n => reads cfg n (dumps v) v)).
    + intros v n m. apply reads_mono.
    + rewrite Forall_forall in IH |- *. intros v Hin.
      apply IH; [assumption|]. apply Hst, Hin.
  - apply andb_true_iff in Hst. destruct Hst as [Hst Hnd].
    set (entries := map (fun kv : str * pyobj =>
                           (fst kv, (dumps (snd kv), snd kv))) items).
    assert (Hf : map pair_text entries
                 = map (fun kv => Json.encode_basestring_ascii (fst kv)
                                    ++ py ": " ++ dumps (snd kv)) items)
      by (subst entries; rewrite map_map; reflexivity).
    assert (Hs : map pair_value entries = items).
    { subst entries. rewrite map_map. unfold pair_value. cbn [fst snd].
      rewrite <- (map_id items) at 2. apply map_ext.
      intros [k v]. reflexivity. }
    assert (Hl : List.length entries = List.length items)
      by (subst entries; apply length_map).
    pose proof (reads_dict cfg
                  (list_max (map (fun kv => need (snd kv)) items))
                  entries) as H.
    rewrite Hf, Hs, Hl in H. apply H; clear H.
    + subst entries. apply Forall_map. unfold reads_pair. cbn [fst snd].
      rewrite forallb_forall in Hst.
      rewrite Forall_forall in IH |- *. intros kv Hin.
      specialize (Hst kv Hin). apply andb_true_iff in Hst.
      destruct Hst as [Hk Hv]. split; [assumption|].
      apply (reads_mono cfg (need (snd kv))); [apply IH; assumption|].
      assert (Hle : (list_max (map (fun kv => need (snd kv)) items)
                     <= list_max (map (fun kv => need (snd kv)) items))%nat)
        by lia.
      apply list_max_le in Hle. rewrite Forall_forall in Hle.
      apply Hle. apply (in_map (fun kv => need (snd kv))), Hin.
    + assumption.
    + apply (std_hook cfg Hstd).
Qed.
End Dumps.


(** *** The fuel of a whole text *)

Lemma join_length_in (sep p : str) (parts : list str) :
  In p parts -> (List.length p <= List.length (join sep parts))%nat.
Proof.
  induction parts as [|q parts IH]; intros Hin; [contradiction|].
  destruct parts as [|q' parts].
  - destruct Hin as [->|[]]. cbn [join]. lia.
  - rewrite join_cons by discriminate. rewrite !length_app.
    destruct Hin as [->|Hin]; [lia|]. specialize (IH Hin). lia.
Qed.

Lemma join_length_count (sep : str) (parts : list str) :
  Forall (fun p => (1 <= List.length p)%nat) parts ->
  (List.length parts <= List.length (join sep parts))%nat.
Proof.
  induction 1 as [|q parts Hq Hrest IH]; [cbn; lia|].
  destruct parts as [|q' parts].
  - cbn [join List.length]. lia.
  - rewrite join_cons by discriminate. rewrite !length_app.
    cbn [List.length] in *. lia.
Qed.

Lemma need_pos (v : pyobj) : (1 <= need v)%nat.
Proof. destruct v; cbn [need]; lia. Qed.

Lemma need_le_length (default : PyDecimal.decimal -> str) (v : pyobj) :
  stable v = true ->
  (need v <= List.length (Json.dumps default v))%nat.
Proof.
  induction v as [| b | z | f | d | s | items IH | items IH]
    using pyobj_nested_ind; intros Hst; cbn [stable] in Hst.
  - cbn. lia.
  - destruct b; cbn; lia.
  - destruct (reads_int loads_config z standard_loads) as [Hs _].
    cbn [need Json.dumps]. destruct (int_repr z); [contradiction|cbn; lia].
  - destruct (reads_float loads_config f standard_loads Hst) as [Hs _].
    cbn [need Json.dumps].
    destruct (Json.floatstr f); [contradiction|cbn; lia].
  - discriminate.
  - cbn. lia.
  - cbn [need Json.dumps List.length]. rewrite length_app.
    cbn [List.length]. rewrite forallb_forall in Hst.
    rewrite Forall_forall in IH.
    assert (H1 : (list_max (map need items)
                  <= List.length (join (py ", ")
                                       (map (Json.dumps default) items)))%nat).
    { apply list_max_le. apply Forall_forall. intros n Hn.
      apply in_map_iff in Hn. destruct Hn as (v & <- & Hin).
      specialize (IH v Hin (Hst v Hin)).
      pose proof (join_length_in (py ", ") (Json.dumps default v)
                    (map (Json.dumps default) items)
                    (in_map _ _ _ Hin)). lia. }
    assert (H2 : (List.length items
                  <= List.length (join (py ", ")
                                       (map (Json.dumps default) items)))%nat).
    { rewrite <- (length_map (Json.dumps default) items).
      apply join_length_count. apply Forall_forall. intros p Hp.
      apply in_map_iff in Hp. destruct Hp as (v & <- & Hin).
      specialize (IH v Hin (Hst v Hin)). pose proof (need_pos v). lia. }
    lia.
  - apply andb_true_iff in Hst. destruct Hst as [Hst _].
    cbn [need Json.dumps List.length]. rewrite length_app.
    cbn [List.length]. rewrite forallb_forall in Hst.
    rewrite Forall_forall in IH.
    set (texts := map (fun kv : str * pyobj =>
                         Json.encode_basestring_ascii (fst kv)
                           ++ py ": " ++ Json.dumps default (snd kv)) items).
    assert (Hlen : forall kv, In kv items ->
               (need (snd kv)
                <= List.length (Json.encode_basestring_ascii (fst kv)
                                  ++ py ": "
                                  ++ Json.dumps default (snd kv)))%nat).
    { intros kv Hin. specialize (Hst kv Hin).
      apply andb_true_iff in Hst. destruct Hst as [_ Hv].
      specialize (IH kv Hin Hv). rewrite !length_app. lia. }
    assert (H1 : (list_max (map (fun kv => need (snd kv)) items)
                  <= List.length (join (py ", ") texts))%nat).
    { apply list_max_le. apply Forall_forall. intros n Hn.
      apply in_map_iff in Hn. destruct Hn as (kv & <- & Hin).
      specialize (Hlen kv Hin).
      pose proof (join_length_in (py ", ") _ texts
                    (in_map (fun kv : str * pyobj =>
                               Json.encode_basestring_ascii (fst kv)
                                 ++ py ": " ++ Json.dumps default (snd kv))
                            _ _ Hin)). lia. }
    assert (H2 : (List.length items
                  <= List.length (join (py ", ") texts))%nat).
    { subst texts.
      rewrite <- (length_map (fun kv : str * pyobj =>
                                Json.encode_basestring_ascii (fst kv)
                                  ++ py ": "
                                  ++ Json.dumps default (snd kv)) items).
      apply join_length_count. apply Forall_forall. intros p Hp.
      apply in_map_iff in Hp. destruct Hp as (kv & <- & Hin).
      specialize (Hlen kv Hin). pose proof (need_pos (snd kv)). lia. }
    lia.
Qed.

(** *** Whole documents *)

(** A line written by [json.dump] is read back by [json.loads]. *)
Lemma loads_dumps (default : PyDecimal.decimal -> str) (v : pyobj) :
  stable v = true ->
  Json.loads (Json.dumps default v ++ [LF]) = Some v.
Proof.
  intros Hst.
  destruct (dumps_reads default loads_config standard_loads v Hst)
    as [Hs Hr].
  unfold Json.loads, Json.loads_hook, Json.decode.
  fold loads_config.
  rewrite skip_ws_value by assumption.
  rewrite Hr.
  - reflexivity.
  - unfold Json.fuel_for. rewrite length_app.
    pose proof (need_le_length default v Hst). lia.
  - apply delim_char. right. right. right. reflexivity.
Qed.









End RoundTrip.

(** ** The characters of an encoded object *)

Module LineFacts.
Import Text DigitFacts NumeralFacts StringFacts ParseFacts RoundTrip.
Import ConvertJsonNdjson ConvertFacts.

(** Printable ASCII: what [json.dumps] writes with [ensure_ascii]. *)
Definition printable (c : char) : Prop := (32 <= c <= 126)%N.

Definition printable_text (t : str) : Prop := Forall printable t.

Definition printableb (c : char) : bool := ((32 <=? c) && (c <=? 126))%N.

Lemma printableb_spec (c : char) : printableb c = true -> printable c.
Proof.
  unfold printableb, printable. intros H.
  apply andb_true_iff in H. rewrite !N.leb_le in H. exact H.
Qed.

Lemma printable_check (t : str) :
  forallb printableb t = true -> printable_text t.
Proof.
  intros H. rewrite forallb_forall in H. apply Forall_forall.
  intros c Hc. apply printableb_spec, H, Hc.
Qed.

Ltac pchar := apply printableb_spec; vm_compute; reflexivity.
Ltac ptext := apply printable_check; vm_compute; reflexivity.

Lemma printable_app (a b : str) :
  printable_text a -> printable_text b -> printable_text (a ++ b).
Proof. intros Ha Hb. apply Forall_app. split; assumption. Qed.

Lemma printable_digits (ds : str) : digits ds -> printable_text ds.
Proof.
  intros H. eapply Forall_impl; [|exact H]. intros c Hc.
  apply is_digit_range in Hc. unfold printable. lia.
Qed.

Lemma printable_int_part (i : str) : int_part i -> printable_text i.
Proof.
  intros (neg & ip & -> & Hd & _). apply printable_app.
  - destruct neg; ptext.
  - apply printable_digits, Hd.
Qed.



Lemma printable_hex_char (d : Z) :
  0 <= d < 16 -> printable (hex_char d).
Proof.
  intros Hd. unfold hex_char, printable.
  destruct (Z.ltb_spec d 10); lia.
Qed.

Lemma printable_hex4 (n : Z) : printable_text (hex4 n).
Proof.
  unfold hex4.
  repeat constructor; apply printable_hex_char; apply Z.mod_pos_bound; lia.
Qed.

Lemma printable_escape_char (c : char) :
  printable_text (Json.escape_char c).
Proof.
  destruct (escape_char_cases c)
    as [(x & -> & Hx & _)|[[-> Hp]|[[-> _]|[_ ->]]]].
  - assert (Hpx : printable x).
    { unfold Json.unescape in Hx.
      repeat match type of Hx with
             | (if (?a =? ?b)%N then _ else _) = _ =>
                 destruct (N.eqb_spec a b) as [E|_];
                 [rewrite E; pchar|]
             end. discriminate. }
    constructor; [pchar|]. constructor; [exact Hpx|constructor].
  - apply EncodeFacts.plain_spec in Hp.
    constructor; [unfold printable; lia|constructor].
  - constructor; [pchar|].
    constructor; [pchar|apply printable_hex4].
  - apply printable_app;
      (constructor; [pchar|];
       constructor; [pchar|apply printable_hex4]).
Qed.

Lemma printable_encoded (s : str) :
  printable_text (Json.encode_basestring_ascii s).
Proof.
  unfold Json.encode_basestring_ascii.
  constructor; [pchar|].
  apply printable_app; [|ptext].
  induction s as [|c s IH]; [constructor|].
  cbn [flat_map]. apply printable_app; [apply printable_escape_char|exact IH].
Qed.

Lemma printable_join (sep : str) (parts : list str) :
  printable_text sep -> Forall printable_text parts ->
  printable_text (join sep parts).
Proof.
  intros Hsep Hparts. induction Hparts as [|p parts Hp Hrest IH];
    [constructor|].
  destruct parts as [|q parts]; [cbn [join]; exact Hp|].
  rewrite join_cons by discriminate.
  apply printable_app; [exact Hp|]. apply printable_app; assumption.
Qed.



(** *** The lines of a text of printable lines *)

Lemma translate_printable (t rest : str) :
  printable_text t ->
  File.translate (t ++ LF :: rest) = t ++ LF :: File.translate rest.
Proof.
  induction 1 as [|c t Hc _ IH].
  - cbn [app File.translate]. reflexivity.
  - cbn [app File.translate].
    destruct (N.eqb_spec c CR) as [->|_];
      [unfold printable, CR in Hc; lia|]. rewrite IH. reflexivity.
Qed.

Lemma split_lines_printable (t rest : str) :
  printable_text t ->
  File.split_lines (t ++ LF :: rest) = (t ++ [LF]) :: File.split_lines rest.
Proof.
  induction 1 as [|c t Hc _ IH].
  - cbn [app File.split_lines]. reflexivity.
  - cbn [app File.split_lines].
    destruct (N.eqb_spec c LF) as [->|_];
      [unfold printable, LF in Hc; lia|]. rewrite IH. reflexivity.
Qed.

Lemma lines_printable (texts : list str) :
  Forall printable_text texts ->
  File.lines (concat (map (fun t => t ++ [LF]) texts))
  = map (fun t => t ++ [LF]) texts.
Proof.
  unfold File.lines. induction 1 as [|t texts Ht _ IH]; [reflexivity|].
  cbn [map concat]. rewrite <- app_assoc. cbn [app].
  rewrite translate_printable by exact Ht.
  rewrite split_lines_printable by exact Ht. rewrite IH. reflexivity.
Qed.



End LineFacts.

(** ** NDJSON to a JSON array and back *)

Module RoundTripClaims.
Import Text RoundTrip LineFacts.
Import ConvertJsonNdjson ConvertFacts.

End RoundTripClaims.

(** *** Two runs *)

Module RoundTripExamples.
Import Text RoundTrip LineFacts RoundTripClaims.
Import ConvertJsonNdjson ConvertFacts.
Local Open Scope string_scope.
Local Open Scope list_scope.
Local Open Scope Z_scope.





End RoundTripExamples.

(** ** Numerals with a decimal point, as [Decimal] and as text *)

Module DecimalFacts.
Import Text DigitFacts NumeralFacts ParseFacts.








Lemma filter_id {A} (f : A -> bool) (l : list A) :
  Forall (fun x => f x = true) l -> filter f l = l.
Proof.
  induction 1 as [|x l Hx _ IH]; [reflexivity|].
  cbn. rewrite Hx, IH. reflexivity.
Qed.


Lemma pydecimal_span_digits (ds rest : str) :
  digits ds -> no_digit_head rest ->
  PyDecimal.span_digits (ds ++ rest) = (ds, rest).
Proof.
  intros Hd Hr. induction Hd as [|c ds Hc _ IH].
  - cbn [app]. destruct rest as [|c r]; [reflexivity|].
    cbn in Hr |- *. rewrite Hr. reflexivity.
  - cbn [app PyDecimal.span_digits]. rewrite Hc, IH. reflexivity.
Qed.








End DecimalFacts.

(** ** A record with one number, on each path *)

Module TokenFacts.
Import Text DigitFacts NumeralFacts StringFacts ParseFacts RoundTrip.
Import LineFacts DecimalFacts.
Import ConvertFacts.







End TokenFacts.

(** ** Decimal text on the three paths *)

Module DecimalClaims.
Import Text DigitFacts NumeralFacts StringFacts ParseFacts RoundTrip.
Import LineFacts DecimalFacts TokenFacts.
Import ConvertFacts.





End DecimalClaims.

(** *** The numeral 16000.50 *)

Module DecimalExamples.
Import Text DigitFacts DecimalFacts TokenFacts DecimalClaims.
Local Open Scope string_scope.
Local Open Scope list_scope.
Local Open Scope Z_scope.


End DecimalExamples.

(** ** Runs of convert_json_ndjson.py *)

Module ConvertExamples.
Import Text ConvertJsonNdjson ConvertFacts ConvertClaims.
Local Open Scope string_scope.
Local Open Scope list_scope.
Local Open Scope Z_scope.

Definition id_record (n : Z) : pyobj := PyDict [(py "id", PyInt n)].

Definition three_lines : str :=
  pylines ["{'id': 1}"; "{'id': 2}"; "{'id': 3}"].







(** C8, the claim as stated fails: a batch size of zero is not
    rejected.  The conversion of three lines runs to its end, writes
    the three objects and reports them. *)
Lemma zero_batch_size_not_rejected :
  let r := main {| arg_conversion_type := ndjson_to_json;
                   arg_input := three_lines;
                   arg_batch_size := Some 0 |} in
  outfile r = array_text [id_record 1; id_record 2; id_record 3]
  /\ log r = [(INFO, StartingNdjsonToJson); (DEBUG, Parameters 0);
              (DEBUG, WritingBatch 1); (DEBUG, WritingBatch 1);
              (DEBUG, WritingBatch 1); (INFO, ConversionComplete 3)].
Proof. split; reflexivity. Qed.

Lemma nonpositive_batch_size_runs_witness :
  let run := fun size =>
    main {| arg_conversion_type := ndjson_to_json;
            arg_input := three_lines;
            arg_batch_size := size |} in
  outfile (run (Some (-5))) = outfile (run (Some 1))
  /\ written (run (Some (-5))) = written (run (Some 1))
  /\ log (run (Some (-5))) = with_batch_size (-5) (log (run (Some 1)))
  /\ Forall (fun batch => blen batch = 1) (written (run (Some (-5))))
  /\ run None = run (Some 1000).
Proof.
  apply (nonpositive_batch_size_runs ndjson_to_json three_lines (-5)).
  discriminate.
Defined.

End ConvertExamples.

(** ** Runs of flatten_json.py *)

Module FlattenExamples.
Import Text FlattenJson FlattenClaims.
Local Open Scope string_scope.
Local Open Scope list_scope.
Local Open Scope Z_scope.

(** C3, the claim as stated fails: a JSON array after a space is
    processed as NDJSON.  The one line decodes to a list, which is
    skipped, and the CSV file stays empty; without the space the same
    array gives a header and a row. *)
Lemma leading_space_array_read_as_ndjson :
  let data := pyq " [{'a': 1}]" in
  hd_error (lstrip data) = Some (ch "[")
  /\ detect data = Ndjson
  /\ flatten_json_stream data
     = {| csv := [];
          log := [(INFO, Detected Ndjson); (WARNING, SkippingItem 0);
                  (INFO, SuccessfullyFlattened)] |}
  /\ flatten_json_stream (pyq "[{'a': 1}]")
     = {| csv := py "a" ++ [CR; LF] ++ py "1" ++ [CR; LF];
          log := [(INFO, Detected JsonArray);
                  (INFO, SuccessfullyFlattened)] |}.
Proof. repeat split; reflexivity. Qed.

(** C2, the claim as stated fails: the field [c] of the second record
    is not dropped.  The writer raises, the row [3,] is not written,
    the third record is not processed, and the run ends with the
    error. *)
Lemma extra_field_aborts_flattening :
  flatten_json_stream (pylines ["{'a': 1, 'b': 2}"; "{'a': 3, 'c': 4}";
                                "{'a': 5}"])
  = {| csv := py "a,b" ++ [CR; LF] ++ py "1,2" ++ [CR; LF];
       log := [(INFO, Detected Ndjson);
               (ERROR, ErrorDuringFlattening ValueError)] |}.
Proof. reflexivity. Qed.

Lemma avro_decimal_demotion_witness :
  let description := [(py "name", py "VARCHAR");
                      (py "tuition", py "DECIMAL(18,3)")] in
  let record := [(py "name", PyStr (py "Alice"));
                 (py "tuition",
                  PyDecimal (PyDecimal.DFin false 1600050 (-2)))] in
  convert_ndjson_to_formats description [record]
  = inr {| schema_fields :=
             [{| field_name := py "name"; field_type := string_union |};
              {| field_name := py "tuition"; field_type := string_union |}];
           avro_records :=
             [[(py "name", PyStr (py "Alice"));
               (py "tuition", PyStr (py "16000.50"))]] |}
  /\ Forall (fun f => Forall (fun t => is_decimal_type t = false)
                             (field_type f))
            [{| field_name := py "name"; field_type := string_union |};
             {| field_name := py "tuition"; field_type := string_union |}].
Proof.
  split; [reflexivity|].
  exact (proj1 (proj2 (proj2
           (avro_decimal_demotion
              [(py "name", py "VARCHAR"); (py "tuition", py "DECIMAL(18,3)")]
              [[(py "name", PyStr (py "Alice"));
                (py "tuition",
                 PyDecimal (PyDecimal.DFin false 1600050 (-2)))]]
              _ eq_refl)))).
Defined.

End FlattenExamples.

(** ** [Decimal(text)] on the numerals that [str] and [repr] write *)

Module DecimalText.
Import Text DigitFacts NumeralFacts ParseFacts DecimalFacts.

(** The characters of a numeral with an exponent. *)
Definition numeral_char (c : char) : Prop :=
  is_digit c = true
  \/ c = ch "-" \/ c = ch "+" \/ c = ch "." \/ c = ch "e" \/ c = ch "E".

Lemma numeral_char_cases (c : char) (P : char -> Prop) :
  numeral_char c ->
  (forall d, (48 <= d <= 57)%N -> P d) ->
  P 45%N -> P 43%N -> P 46%N -> P 101%N -> P 69%N -> P c.
Proof.
  intros [H|[->|[->|[->|[->| ->]]]]] Hd; try (intros; assumption).
  intros. apply Hd, is_digit_range, H.
Qed.

Lemma numeral_char_not_space (c : char) :
  numeral_char c -> isspace c = false.
Proof.
  intros H. apply isspace_graphic.
  apply (numeral_char_cases c (fun c => (33 <= c <= 126)%N) H); lia.
Qed.

Lemma numeral_char_not_underscore (c : char) :
  numeral_char c -> negb (c =? ch "_")%N = true.
Proof.
  intros H.
  apply (numeral_char_cases c (fun c => negb (c =? ch "_")%N = true) H);
    try reflexivity.
  intros d Hd. apply negb_true_iff, N.eqb_neq.
  change (ch "_") with 95%N. lia.
Qed.

Lemma lstrip_head (c : char) (s : str) :
  isspace c = false -> lstrip (c :: s) = c :: s.
Proof. intros H. cbn. rewrite H. reflexivity. Qed.

(** A text without white space is its own [strip]. *)
Lemma strip_no_space (s : str) :
  Forall (fun c => isspace c = false) s -> strip s = s.
Proof.
  intros H. unfold strip.
  assert (Hl : forall t, Forall (fun c => isspace c = false) t ->
                         lstrip t = t).
  { intros t Ht. destruct Ht as [|c t Hc _]; [reflexivity|].
    apply lstrip_head, Hc. }
  rewrite (Hl s H). rewrite Hl by (apply Forall_rev, H).
  apply rev_involutive.
Qed.

(** The fraction of a numeral: nothing, or a point and digits. *)
Definition dot_text (has_dot : bool) (fp : str) : str :=
  if has_dot then ch "." :: fp else [].

(** The exponent of a numeral and its value: nothing, or a marker, a
    sign and digits. *)
Inductive exp_text : str -> Z -> Prop :=
| exp_none : exp_text [] 0
| exp_some (marker : char) (neg : bool) (es : str) :
    marker = ch "e" \/ marker = ch "E" ->
    digits es -> es <> [] ->
    exp_text (marker :: (if neg then ch "-" else ch "+") :: es)
             (if neg then - digits_val es else digits_val es).

Lemma numeral_chars (neg : bool) (ip : str) (has_dot : bool) (fp ex : str)
      (v : Z) :
  digits ip -> digits fp -> exp_text ex v ->
  Forall numeral_char
         (sign_text neg ++ ip ++ dot_text has_dot fp ++ ex).
Proof.
  intros Hi Hf Hex.
  assert (Hd : forall ds, digits ds -> Forall numeral_char ds).
  { intros ds H. eapply Forall_impl; [|exact H]. intros c Hc. left.
    exact Hc. }
  apply Forall_app. split.
  { destruct neg; [|constructor].
    constructor; [right; left; reflexivity|constructor]. }
  apply Forall_app. split; [apply Hd, Hi|].
  apply Forall_app. split.
  { destruct has_dot; [|constructor].
    constructor; [right; right; right; left; reflexivity|apply Hd, Hf]. }
  destruct Hex as [|marker sg es Hm Hes _]; [constructor|].
  constructor.
  { destruct Hm as [->| ->]; [do 4 right; left|do 5 right]; reflexivity. }
  constructor; [|apply Hd, Hes].
  destruct sg; [right; left|right; right; left]; reflexivity.
Qed.

Lemma parse_exp_text (ex : str) (v : Z) :
  exp_text ex v -> PyDecimal.parse_exp ex = Some v.
Proof.
  intros [|marker sg es Hm Hes Hne]; [reflexivity|].
  unfold PyDecimal.parse_exp.
  assert (Hlow : (PyDecimal.lower marker =? ch "e")%N = true)
    by (destruct Hm as [->| ->]; reflexivity).
  rewrite Hlow.
  assert (Hsign : match (if sg then ch "-" else ch "+") :: es with
                  | d :: t => if (d =? ch "-")%N then (true, t)
                              else if (d =? ch "+")%N then (false, t)
                              else (false,
                                    (if sg then ch "-" else ch "+") :: es)
                  | [] => (false, (if sg then ch "-" else ch "+") :: es)
                  end = (sg, es)) by (destruct sg; reflexivity).
  match goal with
  | |- (let '(n, s) := ?M in _) = _ => replace M with (sg, es)
  end.
  rewrite <- (app_nil_r es) at 1.
  rewrite pydecimal_span_digits by (exact Hes || exact I).
  destruct es as [|c es]; [congruence|]. reflexivity.
Qed.

Lemma exp_text_head (ex : str) (v : Z) :
  exp_text ex v ->
  no_digit_head ex
  /\ match ex with c :: _ => (c =? ch ".")%N = false | [] => True end.
Proof.
  intros [|marker sg es Hm _ _]; [split; exact I|].
  destruct Hm as [->| ->]; split; reflexivity.
Qed.

(** [Decimal(text)] for a numeral: the digits of the integer part and
    of the fraction, and the exponent less the number of decimals. *)
Lemma of_str_numeral (neg : bool) (ip : str) (has_dot : bool)
      (fp ex : str) (v : Z) :
  digits ip -> ip <> [] -> digits fp -> (has_dot = false -> fp = []) ->
  exp_text ex v ->
  PyDecimal.of_str (sign_text neg ++ ip ++ dot_text has_dot fp ++ ex)
  = Some (PyDecimal.DFin neg (Z.to_N (digits_val (ip ++ fp)))
                         (v - Z.of_nat (List.length fp))).
Proof.
  intros Hi Hne Hf Hdot Hex.
  pose proof (numeral_chars neg ip has_dot fp ex v Hi Hf Hex) as Hnum.
  unfold PyDecimal.of_str.
  rewrite strip_no_space
    by (eapply Forall_impl; [|exact Hnum]; apply numeral_char_not_space).
  rewrite filter_id
    by (eapply Forall_impl; [|exact Hnum];
        apply numeral_char_not_underscore).
  destruct ip as [|c ip]; [congruence|].
  inversion Hi as [|? ? Hc Hip]; subst.
  assert (Hc' : (48 <= c <= 57)%N) by (apply is_digit_range, Hc).
  set (s0 := (c :: ip) ++ dot_text has_dot fp ++ ex).
  match goal with
  | |- (let '(sign, s) := ?M in _) = _ =>
      assert (Hsign : M = (neg, s0))
  end.
  { destruct neg; [reflexivity|]. subst s0. cbn [sign_text app].
    change (ch "-") with 45%N. change (ch "+") with 43%N.
    destruct (N.eqb_spec c 45); [lia|].
    destruct (N.eqb_spec c 43); [lia|]. reflexivity. }
  rewrite Hsign.
  assert (Hlow : map PyDecimal.lower s0
                 = c :: map PyDecimal.lower
                          (ip ++ dot_text has_dot fp ++ ex)).
  { subst s0. cbn [app map]. f_equal. unfold PyDecimal.lower.
    destruct (N.leb_spec 65 c); [lia|reflexivity]. }
  rewrite Hlow.
  assert (E1 : forall t, str_eqb (c :: t) (py "inf") = false).
  { intros t. eval_chars. cbn [str_eqb].
    destruct (N.eqb_spec c 105); [lia|reflexivity]. }
  assert (E2 : forall t, str_eqb (c :: t) (py "infinity") = false).
  { intros t. eval_chars. cbn [str_eqb].
    destruct (N.eqb_spec c 105); [lia|reflexivity]. }
  assert (E3 : forall t, strip_prefix (py "nan") (c :: t) = None).
  { intros t. eval_chars. cbn [strip_prefix].
    destruct (N.eqb_spec 110 c); [lia|reflexivity]. }
  assert (E4 : forall t, strip_prefix (py "snan") (c :: t) = None).
  { intros t. eval_chars. cbn [strip_prefix].
    destruct (N.eqb_spec 115 c); [lia|reflexivity]. }
  rewrite E1, E2, E3, E4. cbn [orb].
  destruct (exp_text_head ex v Hex) as [Hnd Hnp].
  assert (Hsp : PyDecimal.span_digits s0
                = (c :: ip, dot_text has_dot fp ++ ex)).
  { subst s0. apply pydecimal_span_digits; [exact Hi|].
    destruct has_dot; [reflexivity|exact Hnd]. }
  rewrite Hsp.
  destruct has_dot.
  - cbn [dot_text app]. change (ch "." =? ch ".")%N with true. cbv iota.
    rewrite pydecimal_span_digits by assumption.
    rewrite (parse_exp_text ex v Hex). reflexivity.
  - rewrite (Hdot eq_refl). cbn [dot_text app].
    destruct ex as [|c0 t].
    + rewrite (parse_exp_text [] v Hex). rewrite app_nil_r.
      cbn [List.length]. rewrite Z.sub_0_r. reflexivity.
    + rewrite Hnp. rewrite (parse_exp_text _ v Hex). rewrite app_nil_r.
      cbn [List.length]. rewrite Z.sub_0_r. reflexivity.
Qed.
End DecimalText.

(** ** [Decimal(str(d))] *)

Module DecimalRoundTrip.
Import Text DigitFacts NumeralFacts ParseFacts DecimalFacts DecimalText.

Lemma digits_repeat_zero (n : nat) : digits (repeat (ch "0") n).
Proof. induction n; constructor; [reflexivity|assumption]. Qed.

Lemma digits_firstn (n : nat) (ds : str) : digits ds -> digits (firstn n ds).
Proof.
  intros H. rewrite <- (firstn_skipn n ds) in H.
  apply Forall_app in H. tauto.
Qed.

Lemma digits_skipn (n : nat) (ds : str) : digits ds -> digits (skipn n ds).
Proof.
  intros H. rewrite <- (firstn_skipn n ds) in H.
  apply Forall_app in H. tauto.
Qed.

(** The exponent that [Decimal.__str__] writes. *)
Lemma str_exponent_text (x : Z) :
  exp_text (if x =? 0 then []
            else ch "E" :: (if x <? 0 then ch "-" else ch "+")
                        :: nat_digits (Z.abs x))
           x.
Proof.
  destruct (Z.eqb_spec x 0) as [->|Hx]; [constructor|].
  destruct (nat_digits_spec (Z.abs x)) as (Hd & Hc & Hv); [lia|].
  pose proof (exp_some (ch "E") (x <? 0) (nat_digits (Z.abs x))
                       (or_intror eq_refl) Hd) as H.
  rewrite Hv in H.
  replace (if x <? 0 then - Z.abs x else Z.abs x) with x in H
    by (destruct (Z.ltb_spec x 0); lia).
  apply H. destruct (nat_digits (Z.abs x)); [contradiction|discriminate].
Qed.

Lemma of_str_to_str_finite (s : bool) (coef : N) (exp : Z) :
  PyDecimal.of_str (PyDecimal.to_str (PyDecimal.DFin s coef exp))
  = Some (PyDecimal.DFin s coef exp).
Proof.
  unfold PyDecimal.to_str.
  destruct (nat_digits_spec (Z.of_N coef)) as (Hd & Hc & Hv); [lia|].
  set (int := nat_digits (Z.of_N coef)) in *.
  assert (Hlen : 1 <= Z.of_nat (List.length int))
    by (destruct int; [contradiction|cbn [List.length]; lia]).
  cbv zeta.
  set (len := Z.of_nat (List.length int)) in *.
  set (left := exp + len).
  set (dotplace := if (exp <=? 0) && (-6 <? left) then left else 1).
  assert (Hdot : dotplace <= len).
  { subst dotplace left. destruct (Z.leb_spec exp 0); cbn [andb];
      [destruct (-6 <? exp + len)|]; lia. }
  pose proof (str_exponent_text (left - dotplace)) as He.
  replace (left - dotplace =? 0) with (left =? dotplace) in He
    by (destruct (Z.eqb_spec left dotplace), (Z.eqb_spec (left - dotplace) 0);
        reflexivity || lia).
  match goal with
  | |- context [if left =? dotplace then ?A else ?B] =>
      set (e := if left =? dotplace then A else B)
  end.
  assert (He' : exp_text e (left - dotplace)) by exact He.
  clear He.
  clearbody e. change (PyDecimal.sign_str s) with (sign_text s).
  destruct (Z.leb_spec dotplace 0) as [Hle|Hpos].
  - change (py "0" ++ (ch "." :: repeat (ch "0") (Z.to_nat (- dotplace))
                          ++ int) ++ e)
      with (py "0" ++ dot_text true (repeat (ch "0") (Z.to_nat (- dotplace))
                                      ++ int) ++ e).
    rewrite (of_str_numeral s (py "0") true _ e (left - dotplace));
      try assumption; try discriminate.
    + f_equal. f_equal.
      * change (py "0" ++ repeat (ch "0") (Z.to_nat (- dotplace)) ++ int)
          with (repeat (ch "0") (S (Z.to_nat (- dotplace))) ++ int).
        rewrite digits_val_zeros, Hv. apply N2Z.id.
      * rewrite length_app, repeat_length. fold len. subst left. lia.
    + repeat constructor.
    + apply Forall_app. split; [apply digits_repeat_zero|exact Hd].
  - destruct (Z.leb_spec len dotplace) as [Hge|Hlt].
    + replace (Z.to_nat (dotplace - len)) with 0%nat by lia.
      cbn [repeat]. rewrite app_nil_r.
      change (PyDecimal.of_str
                (sign_text s ++ int ++ dot_text false [] ++ e)
              = Some (PyDecimal.DFin s coef exp)).
      rewrite (of_str_numeral s int false [] e (left - dotplace));
        try assumption; try reflexivity; try constructor.
      * rewrite app_nil_r, Hv, N2Z.id. f_equal. f_equal.
        cbn [List.length]. subst left. lia.
      * destruct int; [contradiction|discriminate].
    + set (n := Z.to_nat dotplace).
      assert (Hn : (0 < n < List.length int)%nat) by (subst n len; lia).
      change ((ch "." :: skipn n int) ++ e)
        with (dot_text true (skipn n int) ++ e).
      rewrite (of_str_numeral s (firstn n int) true (skipn n int) e
                              (left - dotplace));
        try assumption; try discriminate.
      * rewrite firstn_skipn, Hv, N2Z.id. f_equal. f_equal.
        rewrite length_skipn. subst left n len. lia.
      * apply digits_firstn, Hd.
      * destruct int as [|c int']; [contradiction|].
        destruct n; [lia|discriminate].
      * apply digits_skipn, Hd.
Qed.

Lemma of_str_to_str_special (d : PyDecimal.decimal) :
  (forall s coef exp, d <> PyDecimal.DFin s coef exp) ->
  PyDecimal.of_str (PyDecimal.to_str d) = Some d.
Proof.
  destruct d as [s coef exp|s|s sig diag]; intros Hd.
  - exfalso. eapply Hd. reflexivity.
  - destruct s; reflexivity.
  - unfold PyDecimal.to_str.
    assert (Hds : exists ds,
               (if (diag =? 0)%N then [] else nat_digits (Z.of_N diag)) = ds
               /\ digits ds /\ Z.to_N (digits_val ds) = diag).
    { destruct (N.eqb_spec diag 0) as [->|Hnz].
      - exists []. repeat split. constructor.
      - destruct (nat_digits_spec (Z.of_N diag)) as (H1 & _ & H3); [lia|].
        eexists. split; [reflexivity|]. split; [exact H1|].
        rewrite H3. apply N2Z.id. }
    destruct Hds as (ds & -> & Hds & Hval).
    assert (Hsp : Forall (fun c => isspace c = false) ds).
    { eapply Forall_impl; [|exact Hds]. intros c Hc.
      apply numeral_char_not_space. left. exact Hc. }
    assert (Hus : Forall (fun c => negb (c =? ch "_")%N = true) ds).
    { eapply Forall_impl; [|exact Hds]. intros c Hc.
      apply numeral_char_not_underscore. left. exact Hc. }
    assert (Hspan : PyDecimal.span_digits ds = (ds, [])).
    { rewrite <- (app_nil_r ds) at 1.
      apply pydecimal_span_digits; [exact Hds|exact I]. }
    unfold PyDecimal.of_str.
    rewrite strip_no_space
      by (destruct s, sig; cbn; repeat (constructor; [reflexivity|]);
          exact Hsp).
    rewrite filter_id
      by (destruct s, sig; cbn; repeat (constructor; [reflexivity|]);
          exact Hus).
    destruct s, sig; cbn -[PyDecimal.span_digits];
      rewrite Hspan, Hval; reflexivity.
Qed.

(** The text that [str] gives for a [Decimal] is read back by the
    constructor as the same [Decimal]: sign, digits and exponent. *)
Lemma of_str_to_str (d : PyDecimal.decimal) :
  PyDecimal.of_str (PyDecimal.to_str d) = Some d.
Proof.
  destruct d as [s coef exp|s|s sig diag].
  - apply of_str_to_str_finite.
  - apply of_str_to_str_special. discriminate.
  - apply of_str_to_str_special. discriminate.
Qed.
End DecimalRoundTrip.

(** ** The text of a float *)

Module ReprFacts.
Import Text DigitFacts NumeralFacts ParseFacts DecimalFacts DecimalText.
Import DecimalRoundTrip.

Definition nonneg_ratio (nd : Z * Z) : Prop := 0 <= fst nd /\ 0 < snd nd.

Lemma ratio_nonneg (m : positive) (e : Z) :
  nonneg_ratio (Float64.ratio m e).
Proof.
  unfold Float64.ratio, nonneg_ratio.
  destruct (Z.leb_spec 0 e); cbn [fst snd].
  - split; [|lia]. apply Z.mul_nonneg_nonneg; [lia|].
    apply Z.pow_nonneg. lia.
  - split; [lia|]. apply Z.pow_pos_nonneg; lia.
Qed.

Lemma scaled_nonneg (nd : Z * Z) (t : Z) :
  nonneg_ratio nd -> nonneg_ratio (Float64.scaled nd t).
Proof.
  destruct nd as [num den]. unfold nonneg_ratio, Float64.scaled.
  cbn [fst snd]. intros [Hn Hd].
  destruct (Z.leb_spec 0 t); cbn [fst snd].
  - split; [assumption|]. apply Z.mul_pos_pos; [assumption|].
    apply Z.pow_pos_nonneg; lia.
  - split; [|assumption]. apply Z.mul_nonneg_nonneg; [assumption|].
    apply Z.pow_nonneg. lia.
Qed.

Lemma quotient_nonneg (nd : Z * Z) :
  nonneg_ratio nd -> 0 <= fst nd / snd nd.
Proof. intros [Hn Hd]. apply Z.div_pos; assumption. Qed.

Lemma candidate_nonneg (x : Float64.float) (nd : Z * Z) (k n c t : Z) :
  nonneg_ratio nd -> Float64.candidate x nd k n = Some (c, t) -> 0 <= c.
Proof.
  intros Hnd. unfold Float64.candidate.
  pose proof (quotient_nonneg _ (scaled_nonneg nd (k - n + 1) Hnd)) as Hq.
  destruct (Float64.scaled nd (k - n + 1)) as [a b]. cbn [fst snd] in Hq.
  cbv zeta.
  repeat match goal with
         | |- context [if ?b then _ else _] => destruct b
         end; intros H; inversion H; subst; lia.
Qed.

Lemma shortest_nonneg (fuel : nat) (x : Float64.float) (nd : Z * Z)
      (k : Z) : forall n,
  nonneg_ratio nd -> 0 <= fst (Float64.shortest fuel x nd k n).
Proof.
  induction fuel as [|fuel IH]; intros n Hnd; cbn [Float64.shortest].
  - pose proof (quotient_nonneg _ (scaled_nonneg nd (k - 16) Hnd)) as Hq.
    destruct (Float64.scaled nd (k - 16)) as [a b]. exact Hq.
  - destruct (Float64.candidate x nd k n) as [[c t]|] eqn:E.
    + cbn [fst]. eapply candidate_nonneg; eassumption.
    + apply IH, Hnd.
Qed.

Lemma strip_trailing_zeros_nonneg (fuel : nat) : forall c,
  0 <= c -> 0 <= Float64.strip_trailing_zeros fuel c.
Proof.
  induction fuel as [|fuel IH]; intros c Hc; cbn; [assumption|].
  destruct ((c mod 10 =? 0) && (0 <? c)); [|assumption].
  apply IH. apply Z.div_pos; lia.
Qed.

(** The digits of [repr]: a canonical digit string. *)
Lemma shortest_digits_spec (m : positive) (e : Z) :
  digits (fst (Float64.shortest_digits m e))
  /\ canonical (fst (Float64.shortest_digits m e)).
Proof.
  unfold Float64.shortest_digits. cbv zeta.
  pose proof (shortest_nonneg 17 (S754_finite false m e)
                (Float64.ratio m e) (Float64.ilog10 (Float64.ratio m e))
                1 (ratio_nonneg m e)) as Hc.
  destruct (Float64.shortest 17 _ _ _ 1) as [c t]. cbn [fst] in *.
  destruct (nat_digits_spec
              (Float64.strip_trailing_zeros
                 (List.length (nat_digits c)) c))
    as (H1 & H2 & _); [apply strip_trailing_zeros_nonneg, Hc|].
  split; assumption.
Qed.

(** The numerals that [repr] lays out. *)
Inductive numeral_text : str -> Prop :=
| numeral_intro (ip : str) (has_dot : bool) (fp ex : str) (v : Z) :
    digits ip -> ip <> [] -> digits fp -> (has_dot = false -> fp = []) ->
    exp_text ex v ->
    numeral_text (ip ++ dot_text has_dot fp ++ ex).

Lemma numeral_plain (ip : str) (has_dot : bool) (fp : str) :
  digits ip -> ip <> [] -> digits fp -> (has_dot = false -> fp = []) ->
  numeral_text (ip ++ dot_text has_dot fp).
Proof.
  intros H1 H2 H3 H4.
  pose proof (numeral_intro ip has_dot fp [] 0 H1 H2 H3 H4 exp_none) as H.
  rewrite app_nil_r in H. exact H.
Qed.

Lemma zfill_digits (w : nat) (ds : str) :
  digits ds -> ds <> [] -> digits (zfill w ds) /\ zfill w ds <> [].
Proof.
  intros Hd Hne. unfold zfill. split.
  - apply Forall_app. split; [apply digits_repeat_zero|exact Hd].
  - destruct (repeat (ch "0") (w - List.length ds)); [exact Hne|discriminate].
Qed.

Lemma exp_suffix_text (x : Z) : exists v, exp_text (Float64.exp_suffix x) v.
Proof.
  unfold Float64.exp_suffix.
  destruct (nat_digits_spec (Z.abs x)) as (Hd & Hc & _); [lia|].
  destruct (zfill_digits 2 (nat_digits (Z.abs x)) Hd) as [H1 H2].
  { destruct (nat_digits (Z.abs x)); [contradiction|discriminate]. }
  eexists. exact (exp_some (ch "e") (x <? 0) _ (or_introl eq_refl) H1 H2).
Qed.

Lemma layout_numeral (ds : str) (decpt : Z) :
  digits ds -> ds <> [] -> numeral_text (Float64.layout ds decpt).
Proof.
  intros Hd Hne. unfold Float64.layout. cbv zeta.
  destruct ((decpt <=? -4) || (16 <? decpt)).
  - destruct ds as [|d rest]; [congruence|].
    inversion Hd as [|? ? Hd0 Hrest]; subst.
    destruct (exp_suffix_text (decpt - 1)) as [v Hv].
    destruct rest as [|r rest].
    + apply (numeral_intro [d] false [] _ v);
        try assumption; try discriminate; try reflexivity;
        repeat constructor; assumption.
    + change ((d :: ch "." :: r :: rest) ++ Float64.exp_suffix (decpt - 1))
        with ([d] ++ dot_text true (r :: rest)
                  ++ Float64.exp_suffix (decpt - 1)).
      apply (numeral_intro [d] true (r :: rest) _ v);
        try assumption; try discriminate;
        repeat constructor; assumption.
  - destruct (Z.leb_spec decpt 0).
    + change (py "0." ++ repeat (ch "0") (Z.to_nat (- decpt)) ++ ds)
        with (py "0" ++ dot_text true
                           (repeat (ch "0") (Z.to_nat (- decpt)) ++ ds)).
      apply numeral_plain; try discriminate.
      * repeat constructor.
      * apply Forall_app. split; [apply digits_repeat_zero|exact Hd].
    + destruct (Z.leb_spec (Z.of_nat (List.length ds)) decpt).
      * rewrite app_assoc.
        change (py ".0") with (dot_text true (py "0")).
        apply numeral_plain; try discriminate.
        -- apply Forall_app. split; [exact Hd|apply digits_repeat_zero].
        -- destruct ds; [congruence|discriminate].
        -- repeat constructor.
      * change (ch "." :: skipn (Z.to_nat decpt) ds)
          with (dot_text true (skipn (Z.to_nat decpt) ds)).
        apply numeral_plain; try discriminate.
        -- apply digits_firstn, Hd.
        -- destruct ds; [congruence|].
           destruct (Z.to_nat decpt) eqn:E; [lia|discriminate].
        -- apply digits_skipn, Hd.
Qed.

(** [Decimal] accepts the [repr] of every float. *)
Lemma of_str_repr (f : Float64.float) :
  exists d, PyDecimal.of_str (Float64.repr f) = Some d.
Proof.
  destruct f as [s|s| |s m e].
  - destruct s; eexists; reflexivity.
  - destruct s; eexists; reflexivity.
  - eexists; reflexivity.
  - unfold Float64.repr.
    destruct (shortest_digits_spec m e) as [Hd Hc].
    destruct (Float64.shortest_digits m e) as [ds decpt]. cbn [fst] in *.
    assert (Hne : ds <> []) by (destruct ds; [contradiction|discriminate]).
    destruct (layout_numeral ds decpt Hd Hne)
      as [ip has_dot fp ex v H1 H2 H3 H4 H5].
    eexists.
    change (if s then [ch "-"] else []) with (sign_text s).
    apply (of_str_numeral s ip has_dot fp ex v); assumption.
Qed.
End ReprFacts.

(** ** One line for each object *)

Module OutputLines.
Import Text DigitFacts NumeralFacts ParseFacts RoundTrip LineFacts.
Import DecimalFacts DecimalText ReprFacts.
Import ConvertJsonNdjson ConvertFacts.

Lemma printable_numeral_char (c : char) : numeral_char c -> printable c.
Proof.
  intros H. apply (numeral_char_cases c printable H); unfold printable; lia.
Qed.

Lemma printable_repr (f : Float64.float) :
  printable_text (Float64.repr f).
Proof.
  destruct f as [s|s| |s m e];
    [destruct s; ptext|destruct s; ptext|ptext|].
  unfold Float64.repr.
  destruct (shortest_digits_spec m e) as [Hd Hc].
  destruct (Float64.shortest_digits m e) as [ds decpt]. cbn [fst] in *.
  assert (Hne : ds <> []) by (destruct ds; [contradiction|discriminate]).
  destruct (layout_numeral ds decpt Hd Hne)
    as [ip has_dot fp ex v H1 H2 H3 H4 H5].
  change (if s then [ch "-"] else []) with (sign_text s).
  pose proof (numeral_chars s ip has_dot fp ex v H1 H3 H5) as H.
  eapply Forall_impl; [|exact H]. apply printable_numeral_char.
Qed.

Lemma printable_floatstr (f : Float64.float) :
  printable_text (Json.floatstr f).
Proof.
  destruct f as [s|s| |s m e];
    [destruct s; ptext|destruct s; ptext|ptext|].
  apply (printable_repr (S754_finite s m e)).
Qed.

(** Whatever the object, its JSON text is printable ASCII: no line
    break is written inside it. *)
Lemma printable_dumps_any (default : PyDecimal.decimal -> str) (v : pyobj) :
  printable_text (Json.dumps default v).
Proof.
  induction v as [| b | z | f | d | s | items IH | items IH]
    using pyobj_nested_ind; cbn [Json.dumps].
  - ptext.
  - destruct b; ptext.
  - apply printable_int_part, int_repr_numeral.
  - apply printable_floatstr.
  - apply printable_encoded.
  - apply printable_encoded.
  - constructor; [pchar|].
    apply printable_app; [|ptext].
    apply printable_join; [ptext|].
    apply Forall_map. exact IH.
  - constructor; [pchar|].
    apply printable_app; [|ptext].
    apply printable_join; [ptext|].
    apply Forall_map. eapply Forall_impl; [|exact IH].
    intros kv Hkv. cbn beta.
    apply printable_app; [apply printable_encoded|].
    apply printable_app; [ptext|exact Hkv].
Qed.

Lemma lines_ndjson_text_any (objs : list pyobj) :
  File.lines (ndjson_text objs) = map (fun v => dumps v ++ [LF]) objs.
Proof.
  unfold ndjson_text.
  rewrite <- (map_map dumps (fun t => t ++ [LF])).
  apply lines_printable, Forall_map, Forall_forall.
  intros v _. apply printable_dumps_any.
Qed.

Lemma outfile_written (items : generator) (B : Z) :
  outfile (convert_items items B)
  = ndjson_text (concat (written (convert_items items B))).
Proof.
  pose proof (convert_items_spec items B) as H. cbn zeta in H.
  destruct (raises items).
  - destruct H as (Hw & Hout & _). rewrite Hw. exact Hout.
  - destruct H as (_ & Hcat & Hout & _). rewrite Hcat. exact Hout.
Qed.

(** X4.  The output of [convert_json_to_ndjson] has one line for each
    object written, in order: line [i] is the JSON text of object [i]
    and a line feed.  This holds for every input and batch size, also
    when the run ends with a parse error. *)
Theorem ndjson_output_one_line_per_object (data : str) (B : Z) :
  let r := convert_json_to_ndjson data B in
  File.lines (outfile r)
  = map (fun obj => dumps obj ++ [LF]) (concat (written r))
  /\ blen (File.lines (outfile r)) = blen (concat (written r)).
Proof.
  cbn zeta. unfold convert_json_to_ndjson.
  rewrite outfile_written, lines_ndjson_text_any.
  split; [reflexivity|]. unfold blen. rewrite length_map. reflexivity.
Qed.
End OutputLines.

(** ** The object hook of flatten_json.py *)

Module HookFacts.
Import Text FlattenJson ReprFacts.

(** What the hook makes of one value. *)
Definition hooked (value value' : pyobj) : Prop :=
  match value with
  | PyFloat f =>
      exists d, PyDecimal.of_str (Float64.repr f) = Some d
                /\ value' = PyDecimal d
  | _ => value' = value
  end.

(** X7.  [decimal_object_hook] never raises.  It keeps the keys of the
    object and their order, replaces every value that is a float by
    the [Decimal] of its [repr], and leaves every other value as it
    is (a float inside a list stays a float); no value of the result
    is a float. *)
Theorem decimal_object_hook_spec (obj : pydict) :
  exists obj',
    decimal_object_hook obj = Some (PyDict obj')
    /\ Dict.keys obj' = Dict.keys obj
    /\ Forall2 (fun kv kv' => fst kv' = fst kv /\ hooked (snd kv) (snd kv'))
               obj obj'
    /\ Forall (fun kv => forall f, snd kv <> PyFloat f) obj'.
Proof.
  induction obj as [|[key value] rest IH].
  - exists []. repeat split; constructor.
  - destruct IH as (rest' & Hr & Hk & Hf2 & Hnf).
    cbn [decimal_object_hook]. rewrite Hr.
    assert (Hv : exists value',
               match value with
               | PyFloat f =>
                   match PyDecimal.of_str (Float64.repr f) with
                   | Some d => Some (PyDecimal d)
                   | None => None
                   end
               | _ => Some value
               end = Some value'
               /\ hooked value value'
               /\ forall f, value' <> PyFloat f).
    { destruct value as [| b | z | f | d | s | items | items];
        try (eexists; repeat split; discriminate).
      destruct (of_str_repr f) as [d Hd]. rewrite Hd.
      exists (PyDecimal d). split; [reflexivity|].
      split; [exists d; auto|discriminate]. }
    destruct Hv as (value' & -> & Hh & Hn).
    exists ((key, value') :: rest'). split; [reflexivity|].
    split; [cbn; f_equal; exact Hk|].
    split; constructor; auto.
Qed.
End HookFacts.

(** ** Items that are not objects *)

Module CsvFacts.
Import Text FlattenJson.

Definition is_dict (v : pyobj) : bool :=
  match v with PyDict _ => true | _ => false end.

(** The warnings for the items that are not a [dict], with their
    position in the stream counted from [i]. *)
Fixpoint skip_records (i : Z) (items : list pyobj) : list record :=
  match items with
  | [] => []
  | item :: rest =>
      (if is_dict item then [] else [(WARNING, SkippingItem i)])
        ++ skip_records (i + 1) rest
  end.

(** Two states of the loop that differ in the log only. *)
Definition same_file (st st' : csv_state) : Prop :=
  c_file st = c_file st' /\ c_writer st = c_writer st'
  /\ c_header_written st = c_header_written st'.

Lemma csv_step_dict (st st' : csv_state) (i j : Z) (d : pydict) :
  same_file st st' ->
  same_file (fst (csv_step st i (PyDict d)))
            (fst (csv_step st' j (PyDict d)))
  /\ snd (csv_step st i (PyDict d)) = snd (csv_step st' j (PyDict d))
  /\ c_log (fst (csv_step st i (PyDict d))) = c_log st
  /\ c_log (fst (csv_step st' j (PyDict d))) = c_log st'.
Proof.
  intros (Hf & Hw & Hh). unfold same_file, csv_step. rewrite Hh.
  destruct (c_header_written st') eqn:Eh.
  - rewrite Hw. destruct (c_writer st') as [fieldnames|] eqn:Ew.
    + destruct (Csv.dict_writerow fieldnames (stringify_decimals d));
        cbn; rewrite ?Hf, ?Hw, ?Hh, ?Eh, ?Ew; repeat split; auto.
    + cbn. rewrite ?Hf, ?Hw, ?Hh, ?Eh, ?Ew. repeat split; auto.
  - cbn [c_writer c_file c_header_written c_log].
    destruct (Csv.dict_writerow (Dict.keys d) (stringify_decimals d));
      cbn; rewrite ?Hf; repeat split; auto.
Qed.

Lemma csv_loop_skips (items : list pyobj) :
  forall (st st' : csv_state) (i j : Z),
    same_file st st' ->
    let r := csv_loop st i items in
    let r' := csv_loop st' j (filter is_dict items) in
    same_file (fst r) (fst r')
    /\ snd r = snd r'
    /\ c_log (fst r') = c_log st'
    /\ exists rest,
         c_log st ++ skip_records i items = c_log (fst r) ++ rest
         /\ (snd r = None -> rest = []).
Proof.
  induction items as [|item items IH]; intros st st' i j Hs; cbn zeta.
  - cbn. repeat split; try apply Hs. exists []. auto.
  - destruct item as [| b | z | f | d | s | l | d];
      try (cbn [filter is_dict csv_loop csv_step skip_records];
           match goal with
           | |- context [csv_loop ?S (i + 1) items] =>
               destruct (IH S st' (i + 1) j) as (H1 & H2 & H3 & rest & H4 & H5);
               [exact Hs|]
           end;
           repeat split; try apply H1; try assumption;
           exists rest; cbn [c_log] in H4; rewrite <- app_assoc in H4;
           split; assumption).
    cbn [filter is_dict csv_loop skip_records app].
    destruct (csv_step_dict st st' i j d Hs) as (Hs1 & He & Hl & Hl').
    destruct (csv_step st i (PyDict d)) as [s1 e1].
    destruct (csv_step st' j (PyDict d)) as [s2 e2].
    cbn [fst snd] in *. subst e2. destruct e1 as [e|].
    + cbn [fst snd]. repeat split; try apply Hs1; try assumption.
      exists (skip_records (i + 1) items). rewrite Hl.
      split; [reflexivity|discriminate].
    + destruct (IH s1 s2 (i + 1) (j + 1) Hs1)
        as (H1 & H2 & H3 & rest & H4 & H5).
      repeat split; try apply H1; try assumption.
      * rewrite H3. exact Hl'.
      * exists rest. rewrite <- Hl. split; assumption.
Qed.

(** X8.  [_write_to_csv] skips the items that are not a [dict]: the CSV
    file and the exception that ends the run are those of the [dict]
    items alone, which log nothing; each skipped item that is reached
    logs one warning with its position in the stream, and when no
    exception ends the run the log is the warnings of all of them. *)
Theorem non_dict_items_skipped
        (items : list pyobj) (raised : option exception) :
  let r := _write_to_csv {| yields := items; raises := raised |} in
  let r' := _write_to_csv {| yields := filter is_dict items;
                             raises := raised |} in
  csv_file r = csv_file r'
  /\ csv_raised r = csv_raised r'
  /\ csv_log r' = []
  /\ exists rest,
       skip_records 0 items = csv_log r ++ rest
       /\ (csv_raised r = None -> rest = []).
Proof.
  cbn zeta. unfold _write_to_csv. cbn [yields raises].
  set (st0 := {| c_file := []; c_writer := None;
                 c_header_written := false; c_log := [] |}).
  destruct (csv_loop_skips items st0 st0 0 0)
    as (H1 & H2 & H3 & rest & H4 & H5); [repeat split|].
  destruct (csv_loop st0 0 items) as [s1 e1].
  destruct (csv_loop st0 0 (filter is_dict items)) as [s2 e2].
  cbn [fst snd] in *. subst e2. destruct H1 as (Hf & _).
  destruct e1 as [e|]; cbn [csv_file csv_raised csv_log];
    (repeat split; [exact Hf|exact H3|]);
    exists rest; (split; [exact H4|]).
  - discriminate.
  - intros _. apply H5. reflexivity.
Qed.
End CsvFacts.

(** ** Lines that do not decode *)

Module BlankLines.
Import Text DigitFacts ParseFacts.

(** A white-space character is below the visible ASCII characters or
    above them. *)
Lemma isspace_range (c : char) :
  isspace c = true -> (c <= 32 \/ 133 <= c)%N.
Proof.
  intros H. destruct (N.le_gt_cases c 32) as [|H1]; [left; assumption|].
  destruct (N.le_gt_cases 133 c) as [|H2]; [right; assumption|].
  exfalso. revert H. unfold isspace.
  repeat match goal with
         | |- context [(?a <=? ?b)%N] =>
             first [rewrite (proj2 (N.leb_le a b)) by lia
                   |rewrite (proj2 (N.leb_gt a b)) by lia]
         | |- context [(?a =? ?b)%N] =>
             rewrite (proj2 (N.eqb_neq a b)) by lia
         end.
  discriminate.
Qed.

Lemma lstrip_nil (s : str) :
  lstrip s = [] -> Forall (fun c => isspace c = true) s.
Proof.
  induction s as [|c s IH]; [constructor|]. cbn [lstrip].
  destruct (isspace c) eqn:E; [|discriminate].
  intros H. constructor; auto.
Qed.

Lemma lstrip_head_not_space (s : str) :
  match lstrip s with
  | c :: _ => isspace c = false
  | [] => True
  end.
Proof.
  induction s as [|c s IH]; [exact I|]. cbn [lstrip].
  destruct (isspace c) eqn:E; [exact IH|exact E].
Qed.

Lemma lstrip_snoc_not_space (s : str) (c : char) :
  isspace c = false -> lstrip (s ++ [c]) <> [].
Proof.
  intros Hc. induction s as [|x s IH]; cbn [app lstrip].
  - rewrite Hc. discriminate.
  - destruct (isspace x); [exact IH|discriminate].
Qed.

(** A line that [strip] empties holds white space only. *)
Lemma strip_nil (s : str) :
  strip s = [] -> Forall (fun c => isspace c = true) s.
Proof.
  unfold strip. intros H. apply lstrip_nil.
  pose proof (lstrip_head_not_space s) as Hh.
  destruct (lstrip s) as [|c t]; [reflexivity|]. exfalso.
  apply (f_equal (@rev _)) in H. rewrite rev_involutive in H.
  cbn [rev] in H. apply (lstrip_snoc_not_space (rev t) c Hh). exact H.
Qed.

Lemma skip_ws_suffix (s : str) (P : char -> Prop) :
  Forall P s -> Forall P (Json.skip_ws s).
Proof.
  induction 1 as [|c s Hc Hs IH]; [constructor|]. cbn [Json.skip_ws].
  destruct (Json.is_ws c); [exact IH|constructor; assumption].
Qed.

Lemma skip_ws_head (s : str) :
  match Json.skip_ws s with
  | c :: _ => Json.is_ws c = false
  | [] => True
  end.
Proof.
  induction s as [|c s IH]; [exact I|]. cbn [Json.skip_ws].
  destruct (Json.is_ws c) eqn:E; [exact IH|exact E].
Qed.

(** No JSON value starts with a white-space character. *)
Lemma scan_once_space cfg (fuel : nat) (c : char) (r : str) :
  isspace c = true -> Json.scan_once cfg fuel (c :: r) = None.
Proof.
  intros Hc. apply isspace_range in Hc.
  destruct fuel as [|fuel]; [reflexivity|].
  assert (Hne : forall n, (33 <= n <= 126)%N -> (c =? n)%N = false)
    by (intros n Hn; apply N.eqb_neq; lia).
  assert (Hne' : forall n, (33 <= n <= 126)%N -> (n =? c)%N = false)
    by (intros n Hn; apply N.eqb_neq; lia).
  assert (Hd : is_digit c = false).
  { unfold is_digit. destruct Hc.
    - rewrite (proj2 (N.leb_gt 48 c)) by lia. reflexivity.
    - rewrite (proj2 (N.leb_gt c 57)) by lia. apply andb_false_r. }
  cbn [Json.scan_once]. eval_chars.
  rewrite !Hne by lia.
  unfold startswith. cbn [strip_prefix]. rewrite !Hne' by lia.
  unfold Json.match_number. eval_chars. rewrite !Hne by lia.
  rewrite Hd. cbn [negb].
  destruct (Json.constants cfg); reflexivity.
Qed.

(** A blank line is not a JSON document. *)
Lemma decode_blank cfg (line : str) :
  strip line = [] -> Json.decode cfg line = None.
Proof.
  intros H. apply strip_nil in H. unfold Json.decode.
  pose proof (skip_ws_suffix line _ H) as Hs.
  destruct (Json.skip_ws line) as [|c r].
  - reflexivity.
  - inversion Hs as [|? ? Hc _]; subst.
    rewrite (scan_once_space cfg _ c r Hc). reflexivity.
Qed.
End BlankLines.

(** ** flatten_json_stream on NDJSON with a line that does not decode *)

Module FlattenStops.
Import Text FlattenJson CsvFacts BlankLines.


Lemma ndjson_items_raises (lines : list str) (line : str) :
  In line lines ->
  Json.loads_hook decimal_object_hook line = None ->
  raises (ndjson_items lines) = Some JSONDecodeError.
Proof.
  intros Hin Hbad. induction lines as [|l lines IH]; [contradiction|].
  cbn [ndjson_items].
  destruct (Json.loads_hook decimal_object_hook l) as [v|] eqn:E;
    [|reflexivity].
  cbn [raises]. apply IH. destruct Hin as [->|Hin]; [congruence|exact Hin].
Qed.

Definition is_warning (r : record) : Prop :=
  exists i, r = (WARNING, SkippingItem i).

Lemma skip_records_warnings (items : list pyobj) : forall i,
  Forall is_warning (skip_records i items).
Proof.
  induction items as [|item items IH]; intros i; [constructor|].
  cbn [skip_records]. apply Forall_app. split; [|apply IH].
  destruct (is_dict item); [constructor|].
  constructor; [exists i; reflexivity|constructor].
Qed.

Lemma csv_log_warnings (g : generator) :
  Forall is_warning (csv_log (_write_to_csv g)).
Proof.
  unfold _write_to_csv.
  set (st0 := {| c_file := []; c_writer := None;
                 c_header_written := false; c_log := [] |}).
  destruct (csv_loop_skips (yields g) st0 st0 0 0)
    as (_ & _ & _ & rest & H4 & _); [repeat split|].
  pose proof (skip_records_warnings (yields g) 0) as Hw.
  change (c_log st0) with (@nil record) in H4. cbn [app] in H4.
  rewrite H4 in Hw.
  apply Forall_app in Hw. destruct Hw as [Hw _].
  destruct (csv_loop st0 0 (yields g)) as [s1 [e|]]; exact Hw.
Qed.


Lemma csv_raised_some (items : list pyobj) (e : exception) :
  exists e',
    csv_raised (_write_to_csv {| yields := items; raises := Some e |})
    = Some e'.
Proof.
  unfold _write_to_csv. cbn [yields raises].
  destruct (csv_loop _ 0 items) as [s1 [e1|]]; eexists; reflexivity.
Qed.

(** The log of a run that a raising generator ends. *)
Lemma flatten_log_error (data : str) (e : exception) :
  detect data = Ndjson ->
  raises (ndjson_items (File.lines data)) = Some e ->
  (exists e' l,
      log (flatten_json_stream data)
      = l ++ [(ERROR, ErrorDuringFlattening e')])
  /\ ~ In (INFO, SuccessfullyFlattened) (log (flatten_json_stream data)).
Proof.
  intros Hd Hr. unfold flatten_json_stream. rewrite Hd. cbv zeta.
  cbn [log].
  set (g := ndjson_items (File.lines data)) in *.
  destruct (csv_raised_some (yields g) e) as [e' He'].
  assert (Eg : g = {| yields := yields g; raises := Some e |})
    by (destruct g; cbn in *; congruence).
  rewrite <- Eg in He'. rewrite He'.
  pose proof (csv_log_warnings g) as Hw.
  split.
  - exists e', ((INFO, Detected Ndjson) :: csv_log (_write_to_csv g)).
    reflexivity.
  - intros [H|H]; [discriminate|].
    apply in_app_or in H. destruct H as [H|[H|[]]]; [|discriminate].
    rewrite Forall_forall in Hw. destruct (Hw _ H) as [i Hi].
    discriminate.
Qed.


(** X10.  A blank line in an NDJSON input ends [flatten_json_stream] with
    an error: [json.loads] does not decode it, and the loop has no
    test for blank lines. *)
Theorem blank_line_aborts_flattening (data line : str) :
  detect data = Ndjson ->
  In line (File.lines data) ->
  strip line = [] ->
  let r := flatten_json_stream data in
  Json.loads_hook decimal_object_hook line = None
  /\ (exists e l, log r = l ++ [(ERROR, ErrorDuringFlattening e)])
  /\ ~ In (INFO, SuccessfullyFlattened) (log r).
Proof.
  intros Hd Hin Hblank r.
  assert (Hbad : Json.loads_hook decimal_object_hook line = None)
    by (apply decode_blank, Hblank).
  split; [exact Hbad|].
  apply (flatten_log_error data JSONDecodeError Hd).
  apply (ndjson_items_raises _ line Hin Hbad).
Qed.
End FlattenStops.

(** ** The schema that infer_avro_schema_from_duckdb returns *)

Module SchemaFacts.
Import Text FlattenJson DictFacts FlattenClaims.

(** The decimal type after [precision] and [scale] are set. *)
Definition decimal_avro : avro :=
  AvroDict [(py "type", AvStr (py "bytes"));
            (py "logicalType", AvStr (py "decimal"));
            (py "precision", AvInt 18);
            (py "scale", AvInt 2)].

(** The mapping once a [DECIMAL] column has been seen. *)
Definition mutated_mapping : list (str * avro) :=
  Dict.set type_mapping (py "DECIMAL") decimal_avro.

(** The Avro type of a column, from its engine type alone. *)
Definition column_type (col_type : str) : avro :=
  if startswith col_type (py "DECIMAL") then decimal_avro
  else match Dict.get type_mapping (before_first (ch "(") col_type) with
       | Some t => t
       | None => AvroName (py "string")
       end.

Definition column_field (col : str * str) : field :=
  {| field_name := fst col;
     field_type := [AvroName (py "null"); column_type (snd col)] |}.

(** A column type the loop can handle: one that does not start with
    [DECIMAL], or [DECIMAL] itself, with or without arguments. *)
Definition column_ok (col : str * str) : bool :=
  negb (startswith (snd col) (py "DECIMAL"))
  || str_eqb (before_first (ch "(") (snd col)) (py "DECIMAL").

Lemma before_first_prefix (sep : char) (s : str) :
  exists r, strip_prefix (before_first sep s) s = Some r.
Proof.
  induction s as [|c s [r IH]]; [exists []; reflexivity|].
  cbn [before_first]. destruct (c =? sep)%N.
  - eexists. reflexivity.
  - cbn [strip_prefix]. rewrite N.eqb_refl. exists r. exact IH.
Qed.

Lemma key_not_decimal (col_type : str) :
  startswith col_type (py "DECIMAL") = false ->
  str_eqb (py "DECIMAL") (before_first (ch "(") col_type) = false.
Proof.
  intros H. destruct (str_eqb _ _) eqn:E; [|reflexivity].
  apply str_eqb_spec in E.
  destruct (before_first_prefix (ch "(") col_type) as [r Hr].
  rewrite <- E in Hr. unfold startswith in H. rewrite Hr in H.
  discriminate.
Qed.

Lemma get_mutated (key : str) :
  str_eqb (py "DECIMAL") key = false ->
  Dict.get mutated_mapping key = Dict.get type_mapping key.
Proof.
  intros H. unfold mutated_mapping. rewrite get_set, H. reflexivity.
Qed.

Lemma get_decimal_prefix (mapping : list (str * avro)) (key : str) :
  mapping = type_mapping \/ mapping = mutated_mapping ->
  startswith key (py "DECIMAL") = true ->
  str_eqb key (py "DECIMAL") = false ->
  Dict.get mapping key = None.
Proof.
  intros Hm Hs Hne.
  assert (H0 : Dict.get type_mapping key = None).
  { destruct (Dict.get type_mapping key) as [t|] eqn:Hget; [|reflexivity].
    exfalso. unfold type_mapping in Hget. cbn [Dict.get] in Hget.
    repeat match type of Hget with
           | context [str_eqb ?a key] =>
               destruct (str_eqb a key) eqn:E;
               [apply str_eqb_spec in E; subst key;
                first [vm_compute in Hs; discriminate Hs
                      |vm_compute in Hne; discriminate Hne]
               |clear E]
           end.
    discriminate Hget. }
  destruct Hm as [->| ->]; [exact H0|].
  rewrite get_mutated; [exact H0|].
  rewrite str_eqb_sym. exact Hne.
Qed.

(** The loop, whichever of the two states the mapping is in. *)
Lemma infer_fields_columns (description : list (str * str)) :
  forall mapping,
    mapping = type_mapping \/ mapping = mutated_mapping ->
    infer_fields mapping description
    = if forallb column_ok description
      then inr (map column_field description)
      else inl TypeError.
Proof.
  induction description as [|[col_name col_type] description IH];
    intros mapping Hm; [reflexivity|].
  cbn [infer_fields forallb map]. unfold column_ok at 1, column_field at 1.
  unfold column_type. cbn [fst snd].
  set (key := before_first (ch "(") col_type).
  destruct (startswith col_type (py "DECIMAL")) eqn:Hdec; cbn [negb orb].
  - destruct (str_eqb key (py "DECIMAL")) eqn:Hkey; cbn [andb].
    + apply str_eqb_spec in Hkey. rewrite Hkey.
      assert (Hstep : forall m,
                 m = type_mapping \/ m = mutated_mapping ->
                 exists attrs,
                   Dict.get m (py "DECIMAL") = Some (AvroDict attrs)
                   /\ AvroDict (Dict.set (Dict.set attrs (py "precision")
                                                   (AvInt 18))
                                         (py "scale") (AvInt 2))
                      = decimal_avro
                   /\ Dict.set m (py "DECIMAL") decimal_avro
                      = mutated_mapping).
      { intros m [->| ->]; eexists; repeat split; reflexivity. }
      destruct (Hstep mapping Hm) as (attrs & -> & -> & ->).
      rewrite (IH mutated_mapping) by (right; reflexivity).
      destruct (forallb column_ok description); reflexivity.
    + rewrite (get_decimal_prefix mapping key Hm
                 (startswith_before_paren _ Hdec) Hkey).
      reflexivity.
  - assert (Hget : Dict.get mapping key = Dict.get type_mapping key).
    { destruct Hm as [->| ->]; [reflexivity|].
      apply get_mutated, key_not_decimal, Hdec. }
    rewrite Hget, (IH mapping Hm).
    destruct (forallb column_ok description); reflexivity.
Qed.

(** X12.  [infer_avro_schema_from_duckdb] gives every column the nullable
    union of [null] and a type that depends on the engine type of that
    column alone: the decimal type with precision 18 and scale 2 for
    [DECIMAL] with any arguments, the type the mapping holds for the
    name before the parenthesis, and [string] for a name the mapping
    does not hold.  Setting precision and scale in the type held by
    the mapping changes no other column.  The call raises [TypeError],
    and only that, exactly when a column type starts with [DECIMAL]
    and is not [DECIMAL] or [DECIMAL(...)]. *)
Theorem inferred_schema_by_column (description : list (str * str)) :
  infer_avro_schema_from_duckdb description
  = if forallb column_ok description
    then inr (map column_field description)
    else inl TypeError.
Proof.
  unfold infer_avro_schema_from_duckdb.
  apply infer_fields_columns. left. reflexivity.
Qed.

(** The field the Avro encoder gets for a column. *)
Definition encoder_field (col : str * str) : field :=
  {| field_name := fst col;
     field_type :=
       [AvroName (py "null");
        if startswith (snd col) (py "DECIMAL") then AvroName (py "string")
        else column_type (snd col)] |}.

Lemma mapping_type_not_decimal (key : str) (t : avro) :
  str_eqb (py "DECIMAL") key = false ->
  Dict.get type_mapping key = Some t ->
  is_decimal_type t = false.
Proof.
  intros Hne Hget. unfold type_mapping in Hget. cbn [Dict.get] in Hget.
  repeat match type of Hget with
         | context [str_eqb ?a key] =>
             destruct (str_eqb a key) eqn:E;
             [first [discriminate Hne
                    |injection Hget as <-; reflexivity]
             |clear E]
         end.
  discriminate Hget.
Qed.

Lemma demote_column_field (col : str * str) :
  demote (column_field col) = encoder_field col.
Proof.
  destruct col as [name col_type].
  unfold demote, column_field, encoder_field, column_type.
  cbn [field_type field_name fst snd].
  destruct (startswith col_type (py "DECIMAL")) eqn:Hdec; [reflexivity|].
  pose proof (key_not_decimal col_type Hdec) as Hkey.
  destruct (Dict.get type_mapping (before_first (ch "(") col_type))
    as [t|] eqn:Hget.
  - rewrite (mapping_type_not_decimal _ t Hkey Hget). reflexivity.
  - reflexivity.
Qed.

(** X13.  What [convert_ndjson_to_formats] hands to the Avro encoder: for
    each column, in order, the field inferred for it, with [string] in
    place of the decimal type and every other type as inferred (the
    date logical type included); and the records with each [Decimal]
    replaced by its [str]. *)
Theorem encoder_schema_by_column
        (description : list (str * str)) (records : list pydict) :
  convert_ndjson_to_formats description records
  = if forallb column_ok description
    then inr {| schema_fields := map encoder_field description;
                avro_records := map stringify_decimals records |}
    else inl TypeError.
Proof.
  unfold convert_ndjson_to_formats, infer_avro_schema_from_duckdb.
  rewrite (infer_fields_columns description type_mapping)
    by (left; reflexivity).
  destruct (forallb column_ok description); [|reflexivity].
  rewrite map_map. f_equal. f_equal.
  apply map_ext. intros col. apply demote_column_field.
Qed.
End SchemaFacts.

(** ** More on convert_json_ndjson.py *)

Module ConvertMore.
Import Text ConvertJsonNdjson ConvertFacts RoundTrip.
Import EncodeFacts DecimalRoundTrip.





(** X5.  [DecimalEncoder] keeps the precision of a [Decimal]: the string
    it writes is read back by [json.loads] as a [str] from which the
    [Decimal] constructor rebuilds the same value, with its sign, its
    digits (trailing zeros included) and its exponent. *)
Theorem decimal_survives_encoding (d : PyDecimal.decimal) :
  PyDecimal.of_str (DecimalEncoder_default d) = Some d
  /\ exists s,
       Json.loads (dumps (PyDecimal d)) = Some (PyStr s)
       /\ PyDecimal.of_str s = Some d.
Proof.
  split; [apply of_str_to_str|].
  exists (PyDecimal.to_str d). split; [|apply of_str_to_str].
  assert (H : dumps (PyDecimal d) = quote :: PyDecimal.to_str d ++ [quote])
    by apply encode_plain, to_str_plain.
  rewrite H. unfold Json.loads, Json.loads_hook, Json.decode.
  cbn [Json.skip_ws]. change (Json.is_ws quote) with false. cbv iota.
  unfold Json.fuel_for. cbn [Json.scan_once]. rewrite N.eqb_refl.
  rewrite scanstring_plain by apply to_str_plain. reflexivity.
Qed.
End ConvertMore.

(** ** The two conversions, one after the other *)

Module NormalForm.
Import Text ConvertJsonNdjson ConvertFacts RoundTrip LineFacts.




End NormalForm.

(** ** Runs that show the properties above *)

Module MoreExamples.
Import Text ConvertJsonNdjson ConvertFacts RoundTrip.
Import ConvertMore NormalForm ConvertExamples.
Local Open Scope string_scope.
Local Open Scope list_scope.
Local Open Scope Z_scope.


End MoreExamples.

Module FlattenMoreExamples.
Import Text FlattenJson FlattenStops.
Local Open Scope string_scope.
Local Open Scope list_scope.
Local Open Scope Z_scope.

Definition lines_with_blank : str :=
  pylines ["{'a': 1}"; EmptyString; "{'a': 2}"].


Lemma blank_line_aborts_flattening_witness :
  let r := flatten_json_stream lines_with_blank in
  Json.loads_hook decimal_object_hook [LF] = None
  /\ (exists e l, log r = l ++ [(ERROR, ErrorDuringFlattening e)])
  /\ ~ In (INFO, SuccessfullyFlattened) (log r).
Proof.
  exact (blank_line_aborts_flattening
           lines_with_blank [LF] eq_refl
           ltac:(right; left; reflexivity) eq_refl).
Defined.
End FlattenMoreExamples.

(** ** A number on the NDJSON path of flatten_json_stream *)

Module HookPath.
Import Text DigitFacts NumeralFacts StringFacts ParseFacts RoundTrip.
Import LineFacts DecimalFacts TokenFacts ReprFacts.
Import FlattenJson.




End HookPath.

Module HookPathExamples.
Import Text FlattenJson HookPath.
Local Open Scope string_scope.
Local Open Scope list_scope.
Local Open Scope Z_scope.

End HookPathExamples.

(** ** From a JSON array to NDJSON and back *)

Module ArrayRoundTrip.
Import Text ConvertJsonNdjson ConvertFacts RoundTrip NormalForm.

End ArrayRoundTrip.

(** ** flatten_json_stream on an array that ijson cannot finish *)

Module ArrayStops.
Import Text FlattenJson CsvFacts FlattenStops.

End ArrayStops.

Module ArrayExamples.
Import Text ConvertJsonNdjson ConvertFacts FlattenJson.
Import ArrayRoundTrip ArrayStops ConvertExamples.
Local Open Scope string_scope.
Local Open Scope list_scope.
Local Open Scope Z_scope.


End ArrayExamples.
